(** * Output-finalization pipeline: normalizer, transformers, validator, corrector

    A shallow embedding of [output_parser.py], [format_transformer.py],
    [validator.py] and [error_corrector.py], of the endpoint of [app.py]
    from its call of the model on, and of the agent analysis of
    [prompt_handler.py], with the properties of the pipeline stated and
    settled against it.

    Conventions of the embedding.
    - A Python [str] is a list of characters ([text]); a character is a code
      point below 256, and the character classes of Python ([str.isspace],
      the [\w] and [\s] of [re], [str.lower]) are the ones Python has on that
      range.
    - A call that can raise returns an [outcome]: [Returns v] or [Raises e].
    - The libraries the code imports ([json], [bs4], the builtin [compile])
      are the fields of the class [PyLib]; the theorems hold for every
      instance, and [ref_lib] is a reference instance used to evaluate the
      code on concrete inputs. *)

From Stdlib Require Import Ascii String ZArith Lia Bool Arith List.
From Stdlib Require Import Numbers.DecimalString.
Import ListNotations.

Set Implicit Arguments.

(* ================================================================== *)
(** * Python runtime: text, exceptions, builtins *)
(* ================================================================== *)

Abbreviation text := (list ascii).

Definition lit (s : string) : text := list_ascii_of_string s.
Coercion lit : string >-> list.

Open Scope string_scope.
Open Scope list_scope.

Definition empty : text := [].

(** The double quote, and a literal in which every apostrophe stands for a
    double quote: [jq "{'a':1}"] is the seven characters of the JSON text. *)
Definition dq : ascii := ascii_of_nat 34.
Definition apostrophe : ascii := ascii_of_nat 39.

Definition jq (s : string) : text :=
  map (fun c => if Ascii.eqb c apostrophe then dq else c) (lit s).

(** A raised exception: its class and [str(e)]. *)
Record exn : Type := Exn { exn_class : text; exn_msg : text }.

Inductive outcome (A : Type) : Type :=
| Returns (a : A)
| Raises (e : exn).
Arguments Returns {A} a.
Arguments Raises {A} e.

Definition bind {A B : Type} (m : outcome A) (k : A -> outcome B) : outcome B :=
  match m with
  | Returns a => k a
  | Raises e => Raises e
  end.

Notation "x <- m ;; k" := (bind m (fun x => k))
  (at level 61, m at next level, right associativity).

(** ** Character classes *)

Definition code (c : ascii) : N := N_of_ascii c.

Definition in_range (lo hi : N) (c : ascii) : bool :=
  ((lo <=? code c) && (code c <=? hi))%N.

(** [str.isspace], which is also [\s]. *)
Definition is_space (c : ascii) : bool :=
  in_range 9 13 c || in_range 28 32 c || (code c =? 133)%N || (code c =? 160)%N.

Definition is_digit (c : ascii) : bool := in_range 48 57 c.
Definition is_upper_ascii (c : ascii) : bool := in_range 65 90 c.
Definition is_lower_ascii (c : ascii) : bool := in_range 97 122 c.

(** [\w]: alphanumeric in the sense of [str.isalnum], or the underscore. *)
Definition is_word (c : ascii) : bool :=
  is_digit c || is_upper_ascii c || is_lower_ascii c || (code c =? 95)%N
  || (code c =? 170)%N || (code c =? 178)%N || (code c =? 179)%N
  || (code c =? 181)%N || (code c =? 185)%N || (code c =? 186)%N
  || in_range 188 190 c || in_range 192 214 c || in_range 216 246 c
  || in_range 248 255 c.

Definition any_char (_ : ascii) : bool := true.

(** [str.lower] on one character. *)
Definition lower_char (c : ascii) : ascii :=
  if is_upper_ascii c || in_range 192 214 c || in_range 216 222 c
  then ascii_of_N (code c + 32) else c.

Definition lower (s : text) : text := map lower_char s.

Definition char_eq (icase : bool) (a b : ascii) : bool :=
  if icase then Ascii.eqb (lower_char a) (lower_char b) else Ascii.eqb a b.

(** ** String builtins *)

Fixpoint text_eqb (a b : text) : bool :=
  match a, b with
  | [], [] => true
  | x :: a', y :: b' => Ascii.eqb x y && text_eqb a' b'
  | _, _ => false
  end.

(** [s.startswith(p)], with the case-insensitive variant the regular
    expressions need. *)
Fixpoint prefix_match (icase : bool) (p s : text) : option text :=
  match p with
  | [] => Some s
  | a :: p' =>
      match s with
      | [] => None
      | b :: s' => if char_eq icase a b then prefix_match icase p' s' else None
      end
  end.

Definition startswith (s p : text) : bool :=
  match prefix_match false p s with Some _ => true | None => false end.

Definition endswith (s p : text) : bool := startswith (rev s) (rev p).

(** [p in s] *)
Fixpoint contains (s p : text) : bool :=
  startswith s p || match s with [] => false | _ :: s' => contains s' p end.

Fixpoint lstrip (s : text) : text :=
  match s with
  | [] => []
  | c :: s' => if is_space c then lstrip s' else s
  end.

Fixpoint rstrip (s : text) : text :=
  match s with
  | [] => []
  | c :: s' =>
      match rstrip s' with
      | [] => if is_space c then [] else [c]
      | r => c :: r
      end
  end.

Definition strip (s : text) : text := rstrip (lstrip s).

(** [s.replace(old, new)]: occurrences replaced left to right, without
    overlap.  [skip] counts the characters of an occurrence still to drop. *)
Fixpoint replace_go (old new : text) (skip : nat) (s : text) : text :=
  match skip with
  | S n => match s with [] => [] | _ :: s' => replace_go old new n s' end
  | O =>
      if startswith s old then
        match length old with
        | O => new ++ match s with [] => [] | c :: s' => c :: replace_go old new 0 s' end
        | S n => new ++ match s with [] => [] | _ :: s' => replace_go old new n s' end
        end
      else match s with [] => [] | c :: s' => c :: replace_go old new 0 s' end
  end.

Definition replace (s old new : text) : text := replace_go old new 0 s.

(** [sep.join(parts)] *)
Fixpoint join (sep : text) (parts : list text) : text :=
  match parts with
  | [] => []
  | [p] => p
  | p :: rest => p ++ sep ++ join sep rest
  end.

(** [str(n)] for an integer. *)
Definition str_of_Z (z : Z) : text := lit (NilEmpty.string_of_int (Z.to_int z)).

(** [s[start:stop]] with Python's treatment of negative and overlong
    indices. *)
Definition clamp_index (len i : Z) : Z :=
  if (i <? 0)%Z then Z.max 0 (len + i) else Z.min i len.

Definition slice (s : text) (start stop : Z) : text :=
  let len := Z.of_nat (length s) in
  let a := clamp_index len start in
  let b := clamp_index len stop in
  firstn (Z.to_nat (b - a)) (skipn (Z.to_nat a) s).

(* ================================================================== *)
(** * The regular expressions of [re], as far as the code uses them *)
(* ================================================================== *)

Module Re.

(** Patterns.  [Star] and [Plus] repeat one character class greedily, which
    is every repetition the code writes ([\s*], [\w+], [.+]).  [Cap] is the
    capturing group that a replacement template reads back as [\1]; the
    other groups of the patterns are never read and are plain
    parentheses.  [Bos] is [^] and [Eos] is [$], both without
    [re.MULTILINE]. *)
Inductive regex : Type :=
| Lit (s : text)
| Class (p : ascii -> bool)
| Seq (r1 r2 : regex)
| Alt (r1 r2 : regex)
| Opt (r : regex)
| Star (p : ascii -> bool)
| Plus (p : ascii -> bool)
| Cap (r : regex)
| Bos
| Eos.

(** The state of a match in progress: whether the cursor is still at the
    start of the subject, what is left of the subject, and the text of the
    capturing group. *)
Record cursor : Type := Cursor {
  at_start : bool;
  rest : text;
  group1 : option text
}.

Section Matcher.
Variable icase : bool.

(** Greedy repetition of a class with backtracking: the longest run is
    tried first, then shorter ones, until the continuation succeeds. *)
Fixpoint star (p : ascii -> bool) (moved : bool) (s : text)
         (k : bool -> text -> option cursor) : option cursor :=
  match s with
  | c :: s' =>
      if p c then
        match star p true s' k with
        | Some r => Some r
        | None => k moved s
        end
      else k moved s
  | [] => k moved []
  end.

(** Backtracking matcher in continuation-passing style: alternatives are
    tried in pattern order and the first complete match wins. *)
Fixpoint run (r : regex) (c : cursor) (k : cursor -> option cursor)
  : option cursor :=
  match r with
  | Lit l =>
      match prefix_match icase l (rest c) with
      | Some s' =>
          k (Cursor (at_start c && match l with [] => true | _ => false end)
                    s' (group1 c))
      | None => None
      end
  | Class p =>
      match rest c with
      | x :: s' => if p x then k (Cursor false s' (group1 c)) else None
      | [] => None
      end
  | Seq r1 r2 => run r1 c (fun c' => run r2 c' k)
  | Alt r1 r2 =>
      match run r1 c k with
      | Some res => Some res
      | None => run r2 c k
      end
  | Opt r1 =>
      match run r1 c k with
      | Some res => Some res
      | None => k c
      end
  | Star p =>
      star p false (rest c)
           (fun moved s' => k (Cursor (at_start c && negb moved) s' (group1 c)))
  | Plus p =>
      match rest c with
      | x :: s' =>
          if p x then
            star p true s' (fun _ s'' => k (Cursor false s'' (group1 c)))
          else None
      | [] => None
      end
  | Cap r1 =>
      run r1 c (fun c' =>
        k (Cursor (at_start c') (rest c')
                  (Some (firstn (length (rest c) - length (rest c')) (rest c)))))
  | Bos => if at_start c then k c else None
  | Eos =>
      match rest c with
      | [] => k c
      | [x] => if Ascii.eqb x (ascii_of_nat 10) then k c else None
      | _ => None
      end
  end.

(** A match anchored at the cursor: what remains after it, and group 1. *)
Definition match_at (r : regex) (start : bool) (s : text) : option cursor :=
  run r (Cursor start s None) (fun c => Some c).

(** [re.sub(r, repl, s)]: scan left to right, replace each match, resume
    after it.  [skip] counts the characters of the last match still to
    drop; an empty match emits the replacement and keeps the character. *)
Fixpoint sub_go (r : regex) (repl : option text -> text)
         (start : bool) (skip : nat) (s : text) : text :=
  match skip with
  | S n => match s with [] => [] | _ :: s' => sub_go r repl false n s' end
  | O =>
      match match_at r start s with
      | Some c =>
          match length s - length (rest c) with
          | O => repl (group1 c) ++
                 match s with [] => [] | x :: s' => x :: sub_go r repl false 0 s' end
          | S n => repl (group1 c) ++
                 match s with [] => [] | _ :: s' => sub_go r repl false n s' end
          end
      | None =>
          match s with [] => [] | x :: s' => x :: sub_go r repl false 0 s' end
      end
  end.

Definition sub (r : regex) (repl : option text -> text) (s : text) : text :=
  sub_go r repl true 0 s.

(** [re.search(r, s) is not None] *)
Fixpoint search_go (r : regex) (start : bool) (s : text) : bool :=
  match match_at r start s with
  | Some _ => true
  | None => match s with [] => false | _ :: s' => search_go r false s' end
  end.

Definition search (r : regex) (s : text) : bool := search_go r true s.

End Matcher.

(** Replacement templates: the empty string, and [\1]. *)
Definition repl_empty (_ : option text) : text := [].
Definition repl_group1 (g : option text) : text :=
  match g with Some t => t | None => [] end.

End Re.

(* ================================================================== *)
(** * output_parser.py: cleanup *)
(* ================================================================== *)

Import Re.

(** [r"```(?:\w+)?\s*"] *)
Definition fence_pattern : regex :=
  Seq (Lit "```") (Seq (Opt (Plus is_word)) (Star is_space)).

(** [r'^\{"result":\s*(.+)\}\s*$'], compiled with [re.DOTALL]. *)
Definition result_wrapper_pattern : regex :=
  Seq Bos (Seq (Lit (jq "{'result':")) (Seq (Star is_space)
    (Seq (Cap (Plus any_char)) (Seq (Lit "}") (Seq (Star is_space) Eos))))).

(** The three disclaimer patterns, compiled with [re.IGNORECASE]:
    [r"As an AI language model,? (I )?(can('?t)?|am\sable\s(to)?)"],
    [r"I am an AI model"], [r"I'm just an AI model"]. *)
Definition disclaimers : list regex :=
  [ Seq (Lit "As an AI language model") (Seq (Opt (Lit ",")) (Seq (Lit " ")
      (Seq (Opt (Lit "I "))
           (Alt (Seq (Lit "can") (Opt (Seq (Opt (Lit "'")) (Lit "t"))))
                (Seq (Lit "am") (Seq (Class is_space) (Seq (Lit "able")
                   (Seq (Class is_space) (Opt (Lit "to"))))))))));
    Lit "I am an AI model";
    Lit "I'm just an AI model" ].

Definition _remove_triple_backticks (t : text) : text :=
  replace (sub false fence_pattern repl_empty t) "```" empty.

Definition _cleanup_common_artifacts (t : text) : text :=
  let t := sub false fence_pattern repl_empty t in
  let t := replace t "```" empty in
  let t := sub false result_wrapper_pattern repl_group1 (strip t) in
  let t := fold_left (fun t pattern => sub true pattern repl_empty t) disclaimers t in
  strip t.


(* ================================================================== *)
(** * Parsed JSON values and the Python builtins applied to them *)
(* ================================================================== *)

(** What [json.loads] returns: [None], [bool], [int], [float], [str], [list]
    or [dict].  A [dict] keeps its keys in insertion order.  A [float] is
    kept as the numeral it was read from. *)
#[warnings="-register-all"]
Inductive json : Type :=
| JNull
| JBool (b : bool)
| JInt (z : Z)
| JFloat (numeral : text)
| JStr (s : text)
| JList (items : list json)
| JDict (pairs : list (text * json)).

Definition nl : ascii := ascii_of_nat 10.
Definition backslash : ascii := ascii_of_nat 92.

Definition is_list (v : json) : bool :=
  match v with JList _ => true | _ => false end.

Definition is_dict (v : json) : bool :=
  match v with JDict _ => true | _ => false end.

(** [type(v).__name__] *)
Definition type_name (v : json) : text :=
  match v with
  | JNull => "NoneType"
  | JBool _ => "bool"
  | JInt _ => "int"
  | JFloat _ => "float"
  | JStr _ => "str"
  | JList _ => "list"
  | JDict _ => "dict"
  end.

(** [d.get(key)] and [d[key] = v] on an insertion-ordered dict. *)
Fixpoint dict_get {V : Type} (d : list (text * V)) (key : text) : option V :=
  match d with
  | [] => None
  | (k, v) :: d' => if text_eqb k key then Some v else dict_get d' key
  end.

Fixpoint dict_set {V : Type} (d : list (text * V)) (key : text) (v : V)
  : list (text * V) :=
  match d with
  | [] => [(key, v)]
  | (k, w) :: d' =>
      if text_eqb k key then (k, v) :: d' else (k, w) :: dict_set d' key v
  end.

Definition hex_digit (n : N) : ascii :=
  if (n <? 10)%N then ascii_of_N (48 + n) else ascii_of_N (87 + n).

Definition hex2 (c : ascii) : text :=
  [hex_digit (code c / 16); hex_digit (code c mod 16)].

(** [repr(s)] of a string: quoted with apostrophes unless the string has an
    apostrophe and no double quote; backslash, the quote and the
    non-printable characters escaped. *)
Definition repr_char (quote c : ascii) : text :=
  if Ascii.eqb c quote || Ascii.eqb c backslash then [backslash; c]
  else if (code c =? 9)%N then "\t"
  else if (code c =? 10)%N then "\n"
  else if (code c =? 13)%N then "\r"
  else if (code c <? 32)%N || in_range 127 160 c || (code c =? 173)%N
       then backslash :: "x" ++ hex2 c
  else [c].

Definition repr_str (s : text) : text :=
  let quote :=
    if existsb (Ascii.eqb apostrophe) s && negb (existsb (Ascii.eqb dq) s)
    then dq else apostrophe in
  quote :: flat_map (repr_char quote) s ++ [quote].

(** [repr(v)]; [str(v)] differs from it on a top-level string only. *)
Fixpoint repr (v : json) : text :=
  match v with
  | JNull => "None"
  | JBool true => "True"
  | JBool false => "False"
  | JInt z => str_of_Z z
  | JFloat n => n
  | JStr s => repr_str s
  | JList items => "[" ++ join ", " (map repr items) ++ "]"
  | JDict pairs =>
      "{" ++ join ", " (map (fun kv => repr_str (fst kv) ++ ": " ++ repr (snd kv)) pairs)
          ++ "}"
  end.

(** [str(v)], which is what an f-string field [{v}] renders. *)
Definition str (v : json) : text :=
  match v with
  | JStr s => s
  | _ => repr v
  end.

(** [f"{type(v)}"] *)
Definition str_of_type (v : json) : text := "<class '" ++ type_name v ++ "'>".

(* ================================================================== *)
(** * The imported libraries *)
(* ================================================================== *)

(** [json.JSONDecodeError]: [e.msg], [e.lineno], [e.colno], [e.pos]. *)
Record decode_error : Type := DecodeError {
  de_msg : text;
  de_lineno : Z;
  de_colno : Z;
  de_pos : Z
}.

(** [str(e)] of a [JSONDecodeError]. *)
Definition decode_error_str (e : decode_error) : text :=
  de_msg e ++ ": line " ++ str_of_Z (de_lineno e) ++ " column "
         ++ str_of_Z (de_colno e) ++ " (char " ++ str_of_Z (de_pos e) ++ ")".

(** The ways [json.loads] ends: a value, a [JSONDecodeError], or any other
    exception (a [RecursionError] on deeply nested input, for one). *)
Inductive loads_result : Type :=
| Parsed (v : json)
| Undecodable (e : decode_error)
| LoadsFault (e : exn).

(** [BeautifulSoup(markup, 'html.parser')], observed through the two uses
    the code makes of it: whether [soup.find()] finds a tag, and
    [str(soup)]. *)
Record soup : Type := Soup { soup_find : bool; soup_str : text }.

(** The ways [compile(source, "<string>", "exec")] ends. *)
Inductive compile_result : Type :=
| Compiled
| SyntaxError_ (msg : text) (lineno offset : option Z)
| CompileFault (e : exn).

Class PyLib : Type := {
  json_loads : text -> loads_result;
  (** [json.dumps(v, indent=4, ensure_ascii=False)] *)
  json_dumps : json -> text;
  BeautifulSoup : text -> outcome soup;
  py_compile : text -> compile_result
}.

(* ================================================================== *)
(** * A reference instance of the libraries *)
(* ================================================================== *)

(** The decoder of the [json] module, written after its scanner: JSON
    whitespace is space, tab, newline and carriage return; a repeated key
    keeps its first position and its last value; the error messages and
    positions are the scanner's.  A [\uXXXX] escape above code point 255 has
    no character in [text] and is reported as a fault. *)
Module RefJson.

Inductive scan (A : Type) : Type :=
| Ok (v : A) (rest : text)
| Bad (msg : text) (here : text)
| Overflow
| Unrepresentable.
Arguments Ok {A} v rest.
Arguments Bad {A} msg here.
Arguments Overflow {A}.
Arguments Unrepresentable {A}.

Definition is_json_ws (c : ascii) : bool :=
  (code c =? 32)%N || (code c =? 9)%N || (code c =? 10)%N || (code c =? 13)%N.

Fixpoint skip_ws (s : text) : text :=
  match s with
  | c :: s' => if is_json_ws c then skip_ws s' else s
  | [] => []
  end.

Definition hex_value (c : ascii) : option N :=
  if is_digit c then Some (code c - 48)%N
  else if in_range 97 102 c then Some (code c - 87)%N
  else if in_range 65 70 c then Some (code c - 55)%N
  else None.

Definition unescape (c : ascii) : option ascii :=
  if Ascii.eqb c dq then Some dq
  else if Ascii.eqb c backslash then Some backslash
  else if Ascii.eqb c "/" then Some "/"%char
  else if Ascii.eqb c "b" then Some (ascii_of_nat 8)
  else if Ascii.eqb c "f" then Some (ascii_of_nat 12)
  else if Ascii.eqb c "n" then Some (ascii_of_nat 10)
  else if Ascii.eqb c "r" then Some (ascii_of_nat 13)
  else if Ascii.eqb c "t" then Some (ascii_of_nat 9)
  else None.

(** The body of a string, after its opening quote at [opening]. *)
Fixpoint scanstring (opening : text) (acc : text) (s : text) : scan text :=
  match s with
  | [] => Bad "Unterminated string starting at" opening
  | c :: s' =>
      if Ascii.eqb c dq then Ok (rev acc) s'
      else if Ascii.eqb c backslash then
        match s' with
        | [] => Bad "Unterminated string starting at" opening
        | e :: s'' =>
            if Ascii.eqb e "u" then
              match s'' with
              | h1 :: h2 :: h3 :: h4 :: s3 =>
                  match hex_value h1, hex_value h2, hex_value h3, hex_value h4 with
                  | Some a, Some b, Some c3, Some d =>
                      if ((a =? 0) && (b =? 0))%N
                      then scanstring opening (ascii_of_N (16 * c3 + d) :: acc) s3
                      else Unrepresentable
                  | _, _, _, _ => Bad "Invalid \uXXXX escape" s'
                  end
              | _ => Bad "Invalid \uXXXX escape" s'
              end
            else
              match unescape e with
              | Some x => scanstring opening (x :: acc) s''
              | None => Bad "Invalid \escape" s
              end
        end
      else if (code c <? 32)%N then Bad "Invalid control character at" s
      else scanstring opening (c :: acc) s'
  end.

Fixpoint digits (s : text) : text * text :=
  match s with
  | c :: s' =>
      if is_digit c then let (d, r) := digits s' in (c :: d, r) else ([], s)
  | [] => ([], [])
  end.

Definition Z_of_digits (d : text) : Z :=
  fold_left (fun n c => (10 * n + Z.of_N (code c - 48))%Z) d 0%Z.

(** A number: integer part, optional fraction, optional exponent. *)
Definition scan_number (s : text) : scan json :=
  let (neg, s1) :=
    match s with
    | c :: r => if Ascii.eqb c "-" then (true, r) else (false, s)
    | [] => (false, s)
    end in
  let (int_part, s2) :=
    match s1 with
    | c :: r => if Ascii.eqb c "0" then ([c], r) else digits s1
    | [] => ([], s1)
    end in
  match int_part with
  | [] => Bad "Expecting value" s
  | _ =>
      let (frac, s3) :=
        match s2 with
        | c :: r =>
            if Ascii.eqb c "." then
              match digits r with
              | ([], _) => ([], s2)
              | (d, r') => (c :: d, r')
              end
            else ([], s2)
        | [] => ([], s2)
        end in
      let (expo, s4) :=
        match s3 with
        | c :: r =>
            if Ascii.eqb c "e" || Ascii.eqb c "E" then
              let (sign, r1) :=
                match r with
                | x :: r' =>
                    if Ascii.eqb x "-" || Ascii.eqb x "+" then ([x], r') else ([], r)
                | [] => ([], r)
                end in
              match digits r1 with
              | ([], _) => ([], s3)
              | (d, r') => (c :: sign ++ d, r')
              end
            else ([], s3)
        | [] => ([], s3)
        end in
      match frac, expo with
      | [], [] => Ok (JInt (if neg then - Z_of_digits int_part else Z_of_digits int_part)) s4
      | _, _ => Ok (JFloat ((if neg then lit "-" else empty) ++ int_part ++ frac ++ expo)) s4
      end
  end.

Definition keyword (k : text) (v : json) (s : text) : option (scan json) :=
  match prefix_match false k s with
  | Some r => Some (Ok v r)
  | None => None
  end.

Definition first_some {A : Type} (l : list (option A)) (d : A) : A :=
  fold_right (fun o acc => match o with Some a => a | None => acc end) d l.

(** [scan_once], with the loops over the items of an array and the members
    of an object. *)
Fixpoint scan_once (fuel : nat) (s : text) : scan json :=
  match fuel with
  | O => Overflow
  | S f =>
      match s with
      | [] => Bad "Expecting value" s
      | c :: r =>
          if Ascii.eqb c dq then
            match scanstring s [] r with
            | Ok str r' => Ok (JStr str) r'
            | Bad m h => Bad m h
            | Overflow => Overflow
            | Unrepresentable => Unrepresentable
            end
          else if Ascii.eqb c "{" then
            match skip_ws r with
            | x :: r' =>
                if Ascii.eqb x "}" then Ok (JDict []) r' else scan_members f (skip_ws r) []
            | [] => scan_members f [] []
            end
          else if Ascii.eqb c "[" then
            match skip_ws r with
            | x :: r' =>
                if Ascii.eqb x "]" then Ok (JList []) r' else scan_items f (skip_ws r) []
            | [] => scan_items f [] []
            end
          else
            first_some
              [ keyword "null" JNull s; keyword "true" (JBool true) s;
                keyword "false" (JBool false) s; keyword "NaN" (JFloat "NaN") s;
                keyword "Infinity" (JFloat "Infinity") s;
                keyword "-Infinity" (JFloat "-Infinity") s ]
              (scan_number s)
      end
  end

with scan_items (fuel : nat) (s : text) (acc : list json) : scan json :=
  match fuel with
  | O => Overflow
  | S f =>
      match scan_once f s with
      | Ok v r =>
          match skip_ws r with
          | x :: r' =>
              if Ascii.eqb x "]" then Ok (JList (rev (v :: acc))) r'
              else if Ascii.eqb x "," then scan_items f (skip_ws r') (v :: acc)
              else Bad "Expecting ',' delimiter" (skip_ws r)
          | [] => Bad "Expecting ',' delimiter" []
          end
      | other => other
      end
  end

with scan_members (fuel : nat) (s : text) (acc : list (text * json)) : scan json :=
  match fuel with
  | O => Overflow
  | S f =>
      match s with
      | q :: r =>
          if Ascii.eqb q dq then
            match scanstring s [] r with
            | Ok key r1 =>
                match skip_ws r1 with
                | colon :: r2 =>
                    if Ascii.eqb colon ":" then
                      match scan_once f (skip_ws r2) with
                      | Ok v r3 =>
                          match skip_ws r3 with
                          | x :: r4 =>
                              if Ascii.eqb x "}" then Ok (JDict (dict_set acc key v)) r4
                              else if Ascii.eqb x ","
                                   then scan_members f (skip_ws r4) (dict_set acc key v)
                              else Bad "Expecting ',' delimiter" (skip_ws r3)
                          | [] => Bad "Expecting ',' delimiter" []
                          end
                      | other => other
                      end
                    else Bad "Expecting ':' delimiter" (skip_ws r1)
                | [] => Bad "Expecting ':' delimiter" []
                end
            | Bad m h => Bad m h
            | Overflow => Overflow
            | Unrepresentable => Unrepresentable
            end
          else Bad "Expecting property name enclosed in double quotes" s
      | [] => Bad "Expecting property name enclosed in double quotes" s
      end
  end.

(** [JSONDecodeError(msg, doc, pos)] computes the line and the column. *)
Definition error_at (doc : text) (msg : text) (here : text) : decode_error :=
  let pos := length doc - length here in
  let before := firstn pos doc in
  let lineno := S (count_occ ascii_dec before nl) in
  let after_newline :=
    (fix go (s : text) (col : nat) : nat :=
       match s with
       | [] => col
       | c :: s' => if Ascii.eqb c nl then go s' 1 else go s' (S col)
       end) before 1 in
  DecodeError msg (Z.of_nat lineno) (Z.of_nat after_newline) (Z.of_nat pos).

Definition loads (doc : text) : loads_result :=
  match scan_once (2 * length doc + 2) (skip_ws doc) with
  | Ok v r =>
      match skip_ws r with
      | [] => Parsed v
      | _ => Undecodable (error_at doc "Extra data" (skip_ws r))
      end
  | Bad m h => Undecodable (error_at doc m h)
  | Overflow =>
      LoadsFault (Exn "RecursionError" "maximum recursion depth exceeded")
  | Unrepresentable =>
      LoadsFault (Exn "ValueError" "character outside the 8-bit range of text")
  end.

(** The encoder, for [indent=4, ensure_ascii=False]. *)
Definition escape_char (c : ascii) : text :=
  if Ascii.eqb c dq then [backslash; dq]
  else if Ascii.eqb c backslash then [backslash; backslash]
  else if (code c =? 10)%N then "\n"
  else if (code c =? 13)%N then "\r"
  else if (code c =? 9)%N then "\t"
  else if (code c =? 8)%N then "\b"
  else if (code c =? 12)%N then "\f"
  else if (code c <? 32)%N then backslash :: "u00" ++ hex2 c
  else [c].

Definition encode_str (s : text) : text := dq :: flat_map escape_char s ++ [dq].

Definition indent (level : nat) : text := repeat " "%char (4 * level).

Fixpoint encode (level : nat) (v : json) : text :=
  match v with
  | JNull => "null"
  | JBool true => "true"
  | JBool false => "false"
  | JInt z => str_of_Z z
  | JFloat n => n
  | JStr s => encode_str s
  | JList [] => "[]"
  | JList items =>
      "[" ++ nl :: indent (S level)
          ++ join ("," ++ nl :: indent (S level)) (map (encode (S level)) items)
          ++ nl :: indent level ++ "]"
  | JDict [] => "{}"
  | JDict pairs =>
      "{" ++ nl :: indent (S level)
          ++ join ("," ++ nl :: indent (S level))
               (map (fun kv => encode_str (fst kv) ++ ": " ++ encode (S level) (snd kv))
                    pairs)
          ++ nl :: indent level ++ "}"
  end.

Definition dumps (v : json) : text := encode 0 v.

End RefJson.

(** The reference instance.  Its decoder and encoder are the ones above.
    It does not implement an HTML parser or the Python grammar: a tag is
    found where [<] is followed by an ASCII letter, and only the blank
    program is compiled; no statement below evaluates these two fields. *)
Fixpoint has_tag_start (s : text) : bool :=
  match s with
  | c :: s' =>
      match s' with
      | x :: _ =>
          (Ascii.eqb c "<" && (is_upper_ascii x || is_lower_ascii x)) || has_tag_start s'
      | [] => false
      end
  | [] => false
  end.

Definition ref_lib : PyLib := {|
  json_loads := RefJson.loads;
  json_dumps := RefJson.dumps;
  BeautifulSoup := fun markup => Returns (Soup (has_tag_start markup) markup);
  py_compile := fun source =>
    if forallb is_space source then Compiled
    else CompileFault (Exn "NotImplementedError" "grammar not modelled")
|}.

(* ================================================================== *)
(** * data_structures.py and the request context *)
(* ================================================================== *)

(** The universal representation: the five keys of the template, and the
    ["error"] key the parser adds ([None]: absent). *)
Record representation : Type := Representation {
  text_content : option text;
  json_fields : option json;
  code_snippets : option (list text);
  html_content : option text;
  output_structure : option json;
  error : option text
}.

Definition universal_representation : representation :=
  Representation None None None None None None.

Definition set_text_content (r : representation) (v : option text) :=
  Representation v (json_fields r) (code_snippets r) (html_content r)
                 (output_structure r) (error r).
Definition set_json_fields (r : representation) (v : option json) :=
  Representation (text_content r) v (code_snippets r) (html_content r)
                 (output_structure r) (error r).
Definition set_code_snippets (r : representation) (v : option (list text)) :=
  Representation (text_content r) (json_fields r) v (html_content r)
                 (output_structure r) (error r).
Definition set_html_content (r : representation) (v : option text) :=
  Representation (text_content r) (json_fields r) (code_snippets r) v
                 (output_structure r) (error r).
Definition set_output_structure (r : representation) (v : option json) :=
  Representation (text_content r) (json_fields r) (code_snippets r)
                 (html_content r) v (error r).
Definition set_error (r : representation) (v : option text) :=
  Representation (text_content r) (json_fields r) (code_snippets r)
                 (html_content r) (output_structure r) v.

(** The keys of the context that the pipeline reads ([None]: key absent).
    [input_structure] is the input profile, read through
    ["input_structure_type"] and [features["json_type"]]. *)
Record input_profile : Type := InputProfile {
  input_structure_type : option text;
  json_type : option text
}.

Record context : Type := Context {
  prompt_text : option text;
  output_intent : option text;
  input_structure : option input_profile
}.

Definition KeyError (key : text) : exn :=
  Exn "KeyError" ("'" ++ key ++ "'").

(** [context[key]] *)
Definition getitem {A : Type} (key : text) (field : option A) : outcome A :=
  match field with
  | Some v => Returns v
  | None => Raises (KeyError key)
  end.

(** [field == s] for a field that may be absent or [None]. *)
Definition is_str (field : option text) (s : text) : bool :=
  match field with
  | Some v => text_eqb v s
  | None => false
  end.

(* ================================================================== *)
(** * output_parser.py: extraction and per-format parsing *)
(* ================================================================== *)

Section OutputParser.
Context {lib : PyLib}.

(** One of the two loops of [extract_json_robust]; they differ in the
    bracket pair only.  [doc] is the whole text, [i] the index of the
    first character of [rest], and the top of [stack] is its head.  The
    result is [Some v] when the loop returns [v] and [None] when it runs
    to the end. *)
Fixpoint scan_balanced (opening closing : ascii) (doc : text) (i : Z)
         (rest : text) (stack : list ascii) (start_index : Z)
  : outcome (option json) :=
  match rest with
  | [] => Returns None
  | char :: rest' =>
      if Ascii.eqb char opening then
        scan_balanced opening closing doc (i + 1) rest' (char :: stack)
                      (match stack with [] => i | _ => start_index end)
      else if Ascii.eqb char closing then
        match stack with
        | top :: stack' =>
            if Ascii.eqb top opening then
              match stack' with
              | [] =>
                  match json_loads (slice doc start_index (i + 1)) with
                  | Parsed v => Returns (Some v)
                  | Undecodable _ =>
                      scan_balanced opening closing doc (i + 1) rest' [] start_index
                  | LoadsFault e => Raises e
                  end
              | _ => scan_balanced opening closing doc (i + 1) rest' stack' start_index
              end
            else scan_balanced opening closing doc (i + 1) rest' [] (-1)
        | [] => scan_balanced opening closing doc (i + 1) rest' [] (-1)
        end
      else scan_balanced opening closing doc (i + 1) rest' stack start_index
  end.

Definition extract_json_robust (t : text) : outcome (option json) :=
  found <- scan_balanced "{" "}" t 0 t [] (-1) ;;
  match found with
  | Some v => Returns (Some v)
  | None => scan_balanced "[" "]" t 0 t [] (-1)
  end.

(** [r"```(?:json)?\s*"], compiled with [re.IGNORECASE]. *)
Definition json_fence_pattern : regex :=
  Seq (Lit "```") (Seq (Opt (Lit "json")) (Star is_space)).

Definition _extract_and_parse_json (t : text) : outcome (option json) :=
  let t := sub true json_fence_pattern repl_empty t in
  let t := replace t "```" empty in
  extract_json_robust t.

Definition input_is (ctx : context) (kind : text) : bool :=
  match input_structure ctx with
  | Some p => is_str (input_structure_type p) "json_input" && is_str (json_type p) kind
  | None => false
  end.

(** A value that [json.loads] returned, as Python holds it: the JSON
    [null] is [None], the value of an absent result and of an empty
    field. *)
Definition not_none (v : option json) : option json :=
  match v with
  | Some JNull => None
  | _ => v
  end.

Definition _parse_as_json (cleaned_response : text) (parsed_output : representation)
           (ctx : context) : outcome representation :=
  extracted_json <- _extract_and_parse_json cleaned_response ;;
  match not_none extracted_json with
  | Some v =>
      let wrong_structure :=
        Returns (set_error (set_json_fields parsed_output (Some v))
                           (Some (lit "IncorrectJSONStructure"))) in
      if is_list v then
        p <- getitem "prompt_text" (prompt_text ctx) ;;
        if contains (lower p) "array" || input_is ctx "array"
        then Returns (set_json_fields parsed_output (Some v))
        else wrong_structure
      else if is_dict v then
        p <- getitem "prompt_text" (prompt_text ctx) ;;
        if negb (contains (lower p) "array") || input_is ctx "object"
        then Returns (set_json_fields parsed_output (Some v))
        else wrong_structure
      else wrong_structure
  | None =>
      match json_loads cleaned_response with
      | Parsed v => Returns (set_json_fields parsed_output (not_none (Some v)))
      | _ =>
          Returns (set_json_fields parsed_output
            (Some (JDict [ (lit "error", JStr "Could not parse JSON");
                           (lit "raw_text", JStr (slice cleaned_response 0 500)) ])))
      end
  end.

Definition _minimal_html (original_text : text) : text :=
  let sanitized := _remove_triple_backticks original_text in
  let sanitized := replace (replace sanitized "<" "<") ">" ">" in
  "<html><body><p>" ++ sanitized ++ "</p></body></html>".

Definition _parse_as_html (cleaned_response : text) (parsed_output : representation)
  : representation :=
  match BeautifulSoup cleaned_response with
  | Returns soup =>
      if soup_find soup
      then set_html_content parsed_output (Some (soup_str soup))
      else set_html_content parsed_output (Some (_minimal_html cleaned_response))
  | Raises _ => set_html_content parsed_output (Some (_minimal_html cleaned_response))
  end.

(** The fragment extractor and the structure analyzer are parameters:
    what they compute decides nothing below. *)
Variable _extract_python_code : text -> list text.
Variable analyze_output_structure : text -> text -> outcome json.

Definition _parse_as_python (cleaned_response : text) (parsed_output : representation)
           (ctx : context) : outcome representation :=
  let snippets := _extract_python_code cleaned_response in
  intent <- getitem "output_intent" (output_intent ctx) ;;
  if text_eqb intent "code_only" then
    match snippets with
    | _ :: _ => Returns (set_code_snippets parsed_output (Some snippets))
    | [] => Returns (set_error (set_code_snippets parsed_output (Some []))
                               (Some (lit "NoCodeFound")))
    end
  else if text_eqb intent "code_with_explanation" then
    Returns (set_text_content (set_code_snippets parsed_output (Some snippets))
                              (Some cleaned_response))
  else Returns parsed_output.

Definition parse_llm_output (raw_llm_response requested_format : text) (ctx : context)
  : outcome representation :=
  let cleaned_response := _cleanup_common_artifacts raw_llm_response in
  let parsed_output := universal_representation in
  parsed_output <-
    (if text_eqb (lower requested_format) "json"
     then _parse_as_json cleaned_response parsed_output ctx
     else if text_eqb (lower requested_format) "html"
     then Returns (_parse_as_html cleaned_response parsed_output)
     else if text_eqb (lower requested_format) "python"
     then _parse_as_python cleaned_response parsed_output ctx
     else Returns (set_text_content parsed_output (Some cleaned_response))) ;;
  output_structure <- analyze_output_structure cleaned_response requested_format ;;
  Returns (set_output_structure parsed_output (Some output_structure)).

End OutputParser.

(* ================================================================== *)
(** * format_transformer.py *)
(* ================================================================== *)

Definition AttributeError (v : text) (attr : text) : exn :=
  Exn "AttributeError" ("'" ++ v ++ "' object has no attribute '" ++ attr ++ "'").

Definition TypeError (msg : text) : exn := Exn "TypeError" msg.

(** [s.strip()] where [s] may be [None]. *)
Definition strip_method (s : option text) : outcome text :=
  match s with
  | Some t => Returns (strip t)
  | None => Raises (AttributeError "NoneType" "strip")
  end.

(** ["\n".join(snippets)] where [snippets] may be [None]. *)
Definition join_lines (snippets : option (list text)) : outcome text :=
  match snippets with
  | Some l => Returns (join [nl] l)
  | None => Raises (TypeError "can only join an iterable")
  end.

(** Truthiness of an optional string and of an optional list. *)
Definition nonempty {A : Type} (v : option (list A)) : bool :=
  match v with
  | Some (_ :: _) => true
  | _ => false
  end.

(** The transformer classes. *)
Inductive transformer : Type :=
| PythonTransformer | JavaTransformer | JavascriptTransformer
| HTMLJavascriptTransformer | HTMLTransformer | CSSTransformer
| SQLTransformer | CTransformer | CppTransformer | CSharpTransformer
| GoTransformer | RubyTransformer | PHPTransformer | SwiftTransformer
| KotlinTransformer | RTransformer | BashTransformer | TypescriptTransformer
| JSONTransformer | PlainTextTransformer | DefaultTransformer.

Section Transformers.
Context {lib : PyLib}.

Definition PlainTextTransformer_transform (rep : representation) (ctx : context)
  : outcome text :=
  strip_method (text_content rep).

Definition JSONTransformer_transform (rep : representation) (ctx : context)
  : outcome text :=
  let guarded : outcome text :=
    match json_fields rep with
    | Some v => Returns (strip (json_dumps v))
    | None =>
        match text_content rep with
        | Some t =>
            match json_loads t with
            | Parsed v => Returns (strip (json_dumps v))
            | Undecodable _ =>
                Returns (strip (json_dumps (JDict [(lit "result", JStr t)])))
            | LoadsFault e => Raises e
            end
        | None =>
            Returns (strip (json_dumps
              (JDict [(lit "error", JStr "No data to transform to JSON.")])))
        end
    end in
  match guarded with
  | Returns out => Returns out
  | Raises e => Returns (strip (json_dumps (JDict [(lit "error", JStr (exn_msg e))])))
  end.

(** The cells of one body row: [item.get(key, '')] for each key. *)
Fixpoint row_cells (keys : list text) (item : json) : outcome text :=
  match keys with
  | [] => Returns []
  | key :: keys' =>
      match item with
      | JDict pairs =>
          cells <- row_cells keys' item ;;
          Returns ("      <td>"
                   ++ match dict_get pairs key with Some v => str v | None => empty end
                   ++ "</td>" ++ nl :: cells)
      | _ => Raises (AttributeError (type_name item) "get")
      end
  end.

Fixpoint body_rows (keys : list text) (items : list json) : outcome text :=
  match items with
  | [] => Returns []
  | item :: items' =>
      cells <- row_cells keys item ;;
      rows <- body_rows keys items' ;;
      Returns ("    <tr>" ++ nl :: cells ++ "    </tr>" ++ nl :: rows)
  end.

Definition header_cells (keys : list text) : text :=
  flat_map (fun key => "      <th>" ++ key ++ "</th>" ++ [nl]) keys.

Definition HTMLTransformer_transform (rep : representation) (ctx : context)
  : outcome text :=
  match html_content rep with
  | Some h => Returns (strip h)
  | None =>
      match json_fields rep with
      | Some (JList []) => Returns (lit "<p>No data available.</p>")
      | Some (JList ((first :: _) as items)) =>
          let table : outcome text :=
            match first with
            | JDict pairs =>
                let keys := map fst pairs in
                rows <- body_rows keys items ;;
                Returns (strip ("<table>" ++ nl :: "  <thead>" ++ nl :: "    <tr>" ++ nl
                                :: header_cells keys
                                ++ "    </tr>" ++ nl :: "  </thead>" ++ nl
                                :: "  <tbody>" ++ nl :: rows
                                ++ "  </tbody>" ++ nl :: "</table>"))
            | _ => Raises (AttributeError (type_name first) "keys")
            end in
          match table with
          | Returns out => Returns out
          | Raises e =>
              Returns ("<p>Error converting JSON to HTML: " ++ exn_msg e ++ "</p>")
          end
      | Some (JDict pairs) =>
          Returns (strip ("<table>" ++ nl
                          :: flat_map (fun kv => "  <tr><td>" ++ fst kv ++ "</td><td>"
                                                 ++ str (snd kv) ++ "</td></tr>" ++ [nl])
                                      pairs
                          ++ "</table>"))
      | Some v =>
          Returns ("<p>Unsupported JSON data type for HTML conversion: "
                   ++ str_of_type v ++ "</p>")
      | None =>
          match text_content rep with
          | Some t =>
              Returns (strip ("<p>"
                ++ replace (replace (replace (replace t "<" "<") ">" ">") "&" "&")
                           [nl] "<br>"
                ++ "</p>"))
          | None => Returns (strip "<p>No data available.</p>")
          end
      end
  end.

Definition code_only (ctx : context) : bool := is_str (output_intent ctx) "code_only".

Definition PythonTransformer_transform (rep : representation) (ctx : context)
  : outcome text :=
  if code_only ctx then
    code <- join_lines (code_snippets rep) ;;
    Returns (strip code)
  else
    code <- join_lines (code_snippets rep) ;;
    match text_content rep with
    | Some t => Returns (strip (code ++ nl :: t))
    | None => Raises (TypeError (jq "can only concatenate str (not 'NoneType') to str"))
    end.

(** The transformers of the other languages are one method up to three
    strings: what opens the comment, what continues it after a line
    break, and what closes it. *)
Definition commented_transform (opens continues closes : text)
           (rep : representation) (ctx : context) : outcome text :=
  if code_only ctx then
    code <- join_lines (code_snippets rep) ;;
    Returns (strip code)
  else
    Returns (strip
      (if nonempty (code_snippets rep) then
         match code_snippets rep with Some l => join [nl] l | None => [] end
       else if nonempty (text_content rep) then
         match text_content rep with
         | Some t => opens ++ replace t [nl] (nl :: continues) ++ closes
         | None => []
         end
       else [])).

Definition HTMLJavascriptTransformer_transform (rep : representation) (ctx : context)
  : outcome text :=
  let html_part := html_content rep in
  js_part <- join_lines (code_snippets rep) ;;
  let combined :=
    (if nonempty html_part
     then match html_part with Some h => h ++ [nl] | None => [] end else [])
    ++ match js_part with
       | _ :: _ => "<script>" ++ nl :: js_part ++ nl :: "</script>"
       | [] => []
       end in
  Returns (strip combined).

Definition DefaultTransformer_transform (rep : representation) (ctx : context)
  : outcome text :=
  Returns (strip match text_content rep with Some t => t | None => "None" end).

Definition transform (t : transformer) : representation -> context -> outcome text :=
  match t with
  | PlainTextTransformer => PlainTextTransformer_transform
  | JSONTransformer => JSONTransformer_transform
  | HTMLTransformer => HTMLTransformer_transform
  | PythonTransformer => PythonTransformer_transform
  | HTMLJavascriptTransformer => HTMLJavascriptTransformer_transform
  | DefaultTransformer => DefaultTransformer_transform
  | JavaTransformer | JavascriptTransformer => commented_transform "//" "//" empty
  | CTransformer | CppTransformer | CSharpTransformer | GoTransformer
  | PHPTransformer => commented_transform "//" "// " empty
  | RubyTransformer => commented_transform "#" "# " empty
  | SwiftTransformer | KotlinTransformer | TypescriptTransformer =>
      commented_transform "// " "// " empty
  | RTransformer | BashTransformer => commented_transform "# " "# " empty
  | CSSTransformer => commented_transform "/* " "/* " " */"
  | SQLTransformer => commented_transform "-- " "-- " empty
  end.

Definition TRANSFORMER_MAP : list (text * transformer) :=
  [ (lit "python", PythonTransformer); (lit "java", JavaTransformer);
    (lit "javascript", JavascriptTransformer);
    (lit "htmljavascript", HTMLJavascriptTransformer);
    (lit "html", HTMLTransformer); (lit "css", CSSTransformer);
    (lit "sql", SQLTransformer); (lit "c", CTransformer);
    (lit "c++", CppTransformer); (lit "c#", CSharpTransformer);
    (lit "go", GoTransformer); (lit "ruby", RubyTransformer);
    (lit "php", PHPTransformer); (lit "swift", SwiftTransformer);
    (lit "kotlin", KotlinTransformer); (lit "r", RTransformer);
    (lit "bash", BashTransformer); (lit "typescript", TypescriptTransformer);
    (lit "json", JSONTransformer); (lit "plaintext", PlainTextTransformer) ].

Definition get_transformer (requested_format : text) : transformer :=
  match dict_get TRANSFORMER_MAP (lower requested_format) with
  | Some t => t
  | None => PlainTextTransformer
  end.

End Transformers.

(* ================================================================== *)
(** * validator.py *)
(* ================================================================== *)

(** The dict a validator returns when the output is not valid ([None]: key
    absent, or present with the value [None]). *)
Record report : Type := Report {
  valid : option bool;
  error_type : option text;
  message : option text;
  line : option Z;
  column : option Z;
  position : option Z;
  offset : option Z;
  fallback_ok : option bool
}.

(** [Union[bool, Dict]] *)
Inductive validation : Type :=
| VBool (b : bool)
| VDict (d : report).

Definition invalid (kind msg : text) : report :=
  Report (Some false) (Some kind) (Some msg) None None None None None.

Section Validator.
Context {lib : PyLib}.

Definition validate_json (output : text) (expected_structure : option text)
  : outcome validation :=
  match json_loads output with
  | Parsed parsed =>
      if nonempty expected_structure then
        if is_str expected_structure "array" && negb (is_list parsed) then
          Returns (VDict (invalid "JSONStructureError"
                                  "Expected a JSON array, but got a JSON object."))
        else if is_str expected_structure "object" && negb (is_dict parsed) then
          Returns (VDict (invalid "JSONStructureError"
                                  "Expected a JSON object, but got a JSON array."))
        else Returns (VBool true)
      else Returns (VBool true)
  | Undecodable e =>
      Returns (VDict (Report (Some false) (Some (lit "JSONDecodeError"))
                             (Some (decode_error_str e))
                             (Some (de_lineno e)) (Some (de_colno e)) (Some (de_pos e))
                             None None))
  | LoadsFault e => Raises e
  end.

Definition validate_html (output : text) : outcome validation :=
  match BeautifulSoup output with
  | Returns soup =>
      if negb (soup_find soup) then
        Returns (VDict (Report (Some false) (Some (lit "HTMLStructureError"))
                               (Some (lit "No recognizable HTML tags found."))
                               None None None None (Some true)))
      else Returns (VBool true)
  | Raises e =>
      Returns (VDict (Report (Some false) (Some (lit "HTMLParseError"))
                             (Some (exn_msg e)) None None None None (Some true)))
  end.

Definition validate_python (output : text) : outcome validation :=
  match py_compile output with
  | Compiled => Returns (VBool true)
  | SyntaxError_ msg lineno off =>
      Returns (VDict (Report (Some false) (Some (lit "PythonSyntaxError")) (Some msg)
                             lineno None None off None))
  | CompileFault e =>
      Returns (VDict (invalid "PythonValidationError" (exn_msg e)))
  end.

(** The body of the [try] of [validate_output]. *)
Definition format_check (transformed_output requested_format : text)
           (expected_structure : option text) : outcome validation :=
  if text_eqb requested_format "json"
  then validate_json transformed_output expected_structure
  else if text_eqb requested_format "html" then validate_html transformed_output
  else if text_eqb requested_format "python" then validate_python transformed_output
  else if text_eqb requested_format "plaintext" then Returns (VBool true)
  else Returns (VDict (invalid "UnknownFormat"
                               ("Unknown format for validation: " ++ requested_format))).

Definition validate_output (transformed_output requested_format : text)
           (expected_structure : option text) : outcome validation :=
  match format_check transformed_output requested_format expected_structure with
  | Returns result => Returns result
  | Raises e => Returns (VDict (invalid "UnexpectedError" (exn_msg e)))
  end.

End Validator.

(* ================================================================== *)
(** * error_corrector.py *)
(* ================================================================== *)

Definition ERROR_CORRECTION_RETRIES : nat := 4.

(** The corrector runs in a world: the representation objects created so
    far, by address, and the prompts sent to the model so far, latest
    first. *)
Record world : Type := World {
  heap : list representation;
  sent : list text
}.

Definition address : Type := nat.

(** A computation that reads and writes the world and may raise. *)
Definition stateful (A : Type) : Type := world -> outcome A * world.

Definition ret {A : Type} (a : A) : stateful A := fun w => (Returns a, w).

Definition raise {A : Type} (e : exn) : stateful A := fun w => (Raises e, w).

Definition then_ {A B : Type} (m : stateful A) (k : A -> stateful B) : stateful B :=
  fun w =>
    match m w with
    | (Returns a, w') => k a w'
    | (Raises e, w') => (Raises e, w')
    end.

Notation "x <~ m ;; k" := (then_ m (fun x => k))
  (at level 61, m at next level, right associativity).

Definition lift {A : Type} (m : outcome A) : stateful A := fun w => (m, w).

(** Reading an object, creating one, and writing the fields of one. *)
Definition deref (a : address) : stateful representation :=
  fun w =>
    match nth_error (heap w) a with
    | Some rep => (Returns rep, w)
    | None => (Raises (Exn "ReferenceError" "no object at this address"), w)
    end.

Definition alloc (rep : representation) : stateful address :=
  fun w => (Returns (length (heap w)), World (heap w ++ [rep]) (sent w)).

Fixpoint update_nth {A : Type} (l : list A) (n : nat) (f : A -> A) : list A :=
  match l, n with
  | [], _ => []
  | x :: l', O => f x :: l'
  | x :: l', S n' => x :: update_nth l' n' f
  end.

Definition modify (a : address) (f : representation -> representation) : stateful unit :=
  fun w => (Returns tt, World (update_nth (heap w) a f) (sent w)).

(** [universal_representation.copy()]: a new object with the same fields. *)
Definition copy (a : address) : stateful address :=
  rep <~ deref a ;; alloc rep.

Definition fmt_Z (z : option Z) : text :=
  match z with Some n => str_of_Z n | None => "None" end.

Definition or_default (field : option text) (default : text) : text :=
  match field with Some v => v | None => default end.

(** ** The correction prompts *)

Definition _construct_json_structure_prompt (validation_result : validation)
           (raw_llm_response : text) (ctx : context) : text :=
  let request := or_default (prompt_text ctx) empty in
  let fallback :=
    "The previous response was intended to be JSON, but its structure was incorrect (array vs. object). "
    ++ "Please provide valid JSON with the correct structure, based on the original request. "
    ++ "Original request: " ++ request ++ " "
    ++ "Previous response: " ++ raw_llm_response in
  match validation_result with
  | VDict d =>
      match message d with
      | Some msg =>
          if contains msg "Expected a JSON array" then
            "The previous response was intended to be a JSON array, but it was a JSON object. "
            ++ "Please provide the response as a valid JSON *array*, according to the original request. "
            ++ "Original request: " ++ request ++ " "
            ++ "Previous response: " ++ raw_llm_response
          else if contains msg "Expected a JSON object" then
            "The previous response was intended to be a JSON object, but it was a JSON array. "
            ++ "Please provide the response as a valid JSON *object*, according to the original request. "
            ++ "Original request: " ++ request ++ " "
            ++ "Previous response: " ++ raw_llm_response
          else fallback
      | None => fallback
      end
  | VBool _ => fallback
  end.

Definition _construct_json_correction_prompt (validation_result : validation)
           (raw_llm_response : text) : text :=
  let fallback :=
    "The previous response was intended to be JSON, but it's invalid. "
    ++ "Please provide valid JSON. Do not include any surrounding text or explanations. Return ONLY the JSON data. "
    ++ "Previous response: " ++ raw_llm_response in
  match validation_result with
  | VDict d =>
      if is_str (error_type d) "JSONDecodeError" then
        "The previous response was intended to be JSON, but it contains a syntax error: "
        ++ or_default (message d) "Invalid JSON"
        ++ " (line " ++ fmt_Z (line d) ++ ", column " ++ fmt_Z (column d) ++ "). "
        ++ "Please provide valid JSON.  Do not include any surrounding text or explanations. Return ONLY the JSON data. "
        ++ "Previous response: " ++ raw_llm_response
      else fallback
  | VBool _ => fallback
  end.

Definition _construct_html_correction_prompt (validation_result : validation)
           (raw_llm_response : text) : text :=
  let fallback :=
    "The previous response was intended to be HTML, but it's invalid. "
    ++ "Please provide valid HTML. "
    ++ "Previous response: " ++ raw_llm_response in
  match validation_result with
  | VDict d =>
      if is_str (error_type d) "HTMLStructureError" then
        "The previous response was intended to be HTML, but its structure is invalid: "
        ++ or_default (message d) "Invalid HTML" ++ ". "
        ++ "Please provide valid HTML, paying close attention to proper tag nesting and closing tags. "
        ++ "Previous response: " ++ raw_llm_response
      else fallback
  | VBool _ => fallback
  end.

Definition _construct_python_correction_prompt (validation_result : validation)
           (raw_llm_response : text) : text :=
  let fallback :=
    "The previous response was intended to be Python code, but it's invalid. "
    ++ "Please provide valid Python code. "
    ++ "Previous response: " ++ raw_llm_response in
  match validation_result with
  | VDict d =>
      if is_str (error_type d) "PythonSyntaxError" then
        "The previous response was intended to be Python code, but it contains a syntax error: "
        ++ or_default (message d) "Invalid Python"
        ++ " (line " ++ fmt_Z (line d) ++ ", offset " ++ fmt_Z (offset d) ++ "). "
        ++ "Please provide valid Python code. "
        ++ "Previous response: " ++ raw_llm_response
      else fallback
  | VBool _ => fallback
  end.

Definition _construct_format_correction_prompt (raw_llm_response requested_format
           last_error_message : text) (validation_result : validation) : text :=
  let error_detail :=
    match validation_result with
    | VDict d =>
        " The previous response had a "
        ++ or_default (error_type d) "FormatValidationError" ++ ": "
        ++ or_default (message d) last_error_message ++ "."
    | VBool _ =>
        " The previous response was invalid for the " ++ requested_format ++ " format."
    end in
  "The previous response was supposed to be in " ++ requested_format
  ++ " format, but it was invalid." ++ error_detail ++ " "
  ++ "Please reformat your previous response to be valid " ++ requested_format ++ ". "
  ++ "Ensure the response is ONLY in " ++ requested_format
  ++ " without any extra text or explanations. "
  ++ "Previous response: " ++ raw_llm_response.

(** The prompt of one attempt: a prompt specific to the format and the
    error type where there is one, the general prompt otherwise. *)
Definition specific_prompt (requested_format raw_llm_response : text) (ctx : context)
           (validation_result : validation) : option text :=
  match validation_result with
  | VDict d =>
      match error_type d with
      | Some kind =>
          if text_eqb requested_format "json" then
            if text_eqb kind "JSONDecodeError"
            then Some (_construct_json_correction_prompt validation_result raw_llm_response)
            else if text_eqb kind "JSONStructureError"
            then Some (_construct_json_structure_prompt validation_result raw_llm_response ctx)
            else None
          else if text_eqb requested_format "html" then
            if text_eqb kind "HTMLStructureError" || text_eqb kind "HTMLParseError"
            then Some (_construct_html_correction_prompt validation_result raw_llm_response)
            else None
          else if text_eqb requested_format "python" then
            if text_eqb kind "PythonSyntaxError" || text_eqb kind "PythonValidationError"
            then Some (_construct_python_correction_prompt validation_result raw_llm_response)
            else None
          else None
      | None => None
      end
  | VBool _ => None
  end.

(** [v is True or (isinstance(v, dict) and v.get("valid", False))] *)
Definition is_valid (v : validation) : bool :=
  match v with
  | VBool b => b
  | VDict d => match valid d with Some b => b | None => false end
  end.

Section Corrector.
Context {lib : PyLib}.
Variable _extract_python_code : text -> list text.
Variable analyze_output_structure : text -> text -> outcome json.

(** The model client: its answer to a prompt, given the prompts it was
    sent before. *)
Variable llm : list text -> text -> text.

Definition send_prompt_to_llm (prompt : text) : stateful text :=
  fun w => (Returns (llm (sent w) prompt), World (heap w) (prompt :: sent w)).

Definition _heuristic_correction (universal_representation : address)
           (requested_format : text) : stateful (option address) :=
  if text_eqb requested_format "json" then
    rep <~ deref universal_representation ;;
    if nonempty (text_content rep) then
      let text_content := strip (or_default (text_content rep) empty) in
      if startswith text_content "{" && endswith text_content "}" then
        match json_loads text_content with
        | Parsed corrected_json =>
            corrected_representation <~ copy universal_representation ;;
            _ <~ modify corrected_representation
                   (fun r => set_json_fields r (Some corrected_json)) ;;
            _ <~ modify corrected_representation (fun r => set_text_content r None) ;;
            ret (Some corrected_representation)
        | Undecodable _ => ret None
        | LoadsFault e => raise e
        end
      else ret None
    else ret None
  else ret None.

(** The variables the loop carries from one attempt to the next. *)
Record loop_vars : Type := LoopVars {
  validation_result : validation;
  last_error : text;
  transformed_output : text
}.

(** How the body of the loop ends: [break], [return], or the next
    iteration. *)
Inductive attempt_end : Type :=
| Break
| Return_ (output : text)
| Next (vars : loop_vars).

(** The prompt of an attempt. *)
Definition correction_prompt (requested_format raw_llm_response : text) (ctx : context)
           (vars : loop_vars) : text :=
  let prompt :=
    match specific_prompt requested_format raw_llm_response ctx (validation_result vars) with
    | Some p => p
    | None =>
        _construct_format_correction_prompt raw_llm_response requested_format
          (last_error vars) (validation_result vars)
    end in
  if code_only ctx
  then prompt ++ " Return only the code, with no additional text" else prompt.

(** The body of the loop. *)
Definition attempt (requested_format raw_llm_response : text) (ctx : context)
           (expected_structure : option text) (vars : loop_vars) : stateful attempt_end :=
  let prompt := correction_prompt requested_format raw_llm_response ctx vars in
  corrected_response <~ send_prompt_to_llm prompt ;;
  if startswith corrected_response "Error:" then ret Break
  else
    parsed <~ lift (parse_llm_output _extract_python_code analyze_output_structure
                      corrected_response requested_format ctx) ;;
    corrected_representation <~ alloc parsed ;;
    rep <~ deref corrected_representation ;;
    transformed_output <~ lift (transform (get_transformer requested_format) rep ctx) ;;
    validation_result <~
      lift (validate_output transformed_output requested_format expected_structure) ;;
    if is_valid validation_result then ret (Return_ transformed_output)
    else
      let last_error :=
        match validation_result with
        | VDict d => or_default (message d) "Iterative Correction Failed Validation"
        | VBool _ => lit "Iterative Correction Failed Validation"
        end in
      ret (Next (LoopVars validation_result last_error transformed_output)).

(** [for attempt in range(n)], and the [return] after the loop. *)
Fixpoint iterate (n : nat) (requested_format raw_llm_response : text) (ctx : context)
         (expected_structure : option text) (vars : loop_vars) : stateful text :=
  match n with
  | O => ret (transformed_output vars)
  | S n' =>
      ending <~ attempt requested_format raw_llm_response ctx expected_structure vars ;;
      match ending with
      | Break => ret (transformed_output vars)
      | Return_ output => ret output
      | Next vars' =>
          iterate n' requested_format raw_llm_response ctx expected_structure vars'
      end
  end.

(** The expected structure, computed once between the heuristic phase and
    the loop. *)
Definition expected_structure_of (requested_format : text) (ctx : context)
  : option text :=
  if text_eqb requested_format "json" then
    match prompt_text ctx with
    | Some p =>
        if contains (lower p) "array" then Some (lit "array")
        else if contains (lower p) "object" then Some (lit "object")
        else None
    | None => None
    end
  else None.

(** The heuristic phase: [inl output] when it returns, [inr vars] when it
    falls through to the loop. *)
Definition heuristic_phase (universal_representation : address)
           (requested_format : text) (ctx : context) (validation_result : validation)
  : stateful (text + loop_vars) :=
  let initial v out :=
    LoopVars v
      match v with
      | VDict d => or_default (message d) "Initial Validation Failed"
      | VBool _ => lit "Initial Validation Failed"
      end out in
  heuristic_corrected_representation <~
    _heuristic_correction universal_representation requested_format ;;
  match heuristic_corrected_representation with
  | Some corrected =>
      rep <~ deref corrected ;;
      transformed_output <~ lift (transform (get_transformer requested_format) rep ctx) ;;
      validation_after_heuristic <~
        lift (validate_output transformed_output requested_format None) ;;
      match validation_after_heuristic with
      | VBool true => ret (inl transformed_output)
      | VBool false => ret (inr (initial validation_after_heuristic transformed_output))
      | VDict d =>
          is_true <~ lift (getitem "valid" (valid d)) ;;
          if is_true : bool then ret (inl transformed_output)
          else ret (inr (initial validation_after_heuristic transformed_output))
      end
  | None => ret (inr (initial validation_result empty))
  end.

Definition correct_output (universal_representation : address)
           (requested_format raw_llm_response : text) (ctx : context)
           (validation_result : validation) : stateful text :=
  phase <~ heuristic_phase universal_representation requested_format ctx
                           validation_result ;;
  match phase with
  | inl output => ret output
  | inr vars =>
      iterate ERROR_CORRECTION_RETRIES requested_format raw_llm_response ctx
              (expected_structure_of requested_format ctx) vars
  end.

End Corrector.

(* ================================================================== *)
(** * prompt_handler.py: the analysis of agent prompts *)
(* ================================================================== *)

(** [any(keyword in s for keyword in keywords)] *)
Definition any_in (keywords : list text) (s : text) : bool :=
  existsb (contains s) keywords.

Definition agent_keywords : list text :=
  map lit [ "as a developer"; "as a data scientist"; "as a writer"; "act as";
            "your role is"; "you are a"; "pretend to be"; "simulate a"; "emulate a";
            "behave like a" ].

Definition _analyze_for_agent_prompt (prompt_text : text) : option text * option text :=
  let prompt_text_lower := lower prompt_text in
  let deduced : option text * option text :=
    if any_in agent_keywords prompt_text_lower then
      if any_in (map lit [ "developer"; "coder"; "programmer"; "write code";
                           "develop a script"; "create a function"; "coding";
                           "programming" ]) prompt_text_lower
      then (Some (lit "python"), Some (lit "code_only"))
      else if any_in (map lit [ "data scientist"; "statistician"; "analyze data";
                                "data analysis"; "statistical analysis";
                                "create a report" ]) prompt_text_lower
      then (Some (lit "json"), None)
      else if any_in (map lit [ "writer"; "author"; "journalist"; "write a story";
                                "compose a poem"; "draft an article"; "narrative" ])
                     prompt_text_lower
      then (Some (lit "plaintext"), None)
      else (None, None)
    else (None, None) in
  let deduced :=
    if negb (nonempty (fst deduced)) then
      let deduced :=
        if any_in [ jq "'is_valid':"; jq "'message':"; lit "response to critique" ]
                  prompt_text_lower
        then (Some (lit "json"), None) else deduced in
      let deduced :=
        if any_in [ jq "'plan':"; jq "'subtasks':";
                    lit "generate the next set of subtasks"; lit "planner agent" ]
                  prompt_text_lower
        then (Some (lit "json"), None) else deduced in
      let deduced :=
        if any_in [ jq "'nodes':"; jq "'edges':";
                    lit "you are an expert in knowledge graph construction" ]
                  prompt_text_lower
        then (Some (lit "json"), None) else deduced in
      let deduced :=
        if any_in [ jq "'answer':"; jq "'score':";
                    lit "assess the following response"; lit "evaluate the quality" ]
                  prompt_text_lower
        then (Some (lit "json"), None) else deduced in
      if any_in [ jq "'role_name':"; lit "you are an expert in agent-based systems";
                  lit "suggest agent roles" ] prompt_text_lower
      then (Some (lit "json"), None) else deduced
    else deduced in
  deduced.

(* ================================================================== *)
(** * format_transformer.py: the formats a transformer handles *)
(* ================================================================== *)

(** The ["family"] of each language of [LANGUAGE_CONFIG], in the order of
    the configuration. *)
Definition LANGUAGE_CONFIG : list (text * text) :=
  [ (lit "python", lit "scripting"); (lit "java", lit "imperative");
    (lit "javascript", lit "scripting"); (lit "htmljavascript", lit "frontend");
    (lit "html", lit "markup"); (lit "css", lit "styling"); (lit "sql", lit "data");
    (lit "c", lit "imperative"); (lit "c++", lit "imperative");
    (lit "c#", lit "imperative"); (lit "go", lit "imperative");
    (lit "ruby", lit "scripting"); (lit "php", lit "scripting");
    (lit "swift", lit "imperative"); (lit "kotlin", lit "imperative");
    (lit "r", lit "statistical"); (lit "bash", lit "scripting");
    (lit "typescript", lit "scripting") ].

(** [get_supported_formats] of the intermediate class of a family. *)
Definition languages_of_family (family : text) : list text :=
  map fst (filter (fun entry => text_eqb (snd entry) family) LANGUAGE_CONFIG).

(** The intermediate class a transformer inherits its two methods from;
    [None] for the classes that define them. *)
Definition family_class (t : transformer) : option text :=
  match t with
  | PythonTransformer | JavascriptTransformer | RubyTransformer | PHPTransformer
  | BashTransformer | TypescriptTransformer => Some (lit "scripting")
  | JavaTransformer | CTransformer | CppTransformer | CSharpTransformer
  | GoTransformer | SwiftTransformer | KotlinTransformer => Some (lit "imperative")
  | HTMLJavascriptTransformer => Some (lit "frontend")
  | CSSTransformer => Some (lit "styling")
  | SQLTransformer => Some (lit "data")
  | RTransformer => Some (lit "statistical")
  | HTMLTransformer | JSONTransformer | PlainTextTransformer | DefaultTransformer => None
  end.

Definition get_supported_formats (t : transformer) : list text :=
  match family_class t with
  | Some family => languages_of_family family
  | None =>
      match t with
      | HTMLTransformer => [lit "html"]
      | JSONTransformer => [lit "json"]
      | PlainTextTransformer => [lit "plaintext"]
      | _ => []
      end
  end.

Definition can_handle (t : transformer) (requested_format : text) : bool :=
  match family_class t with
  | Some _ => existsb (text_eqb (lower requested_format)) (get_supported_formats t)
  | None =>
      match t with
      | HTMLTransformer => text_eqb (lower requested_format) "html"
      | JSONTransformer => text_eqb (lower requested_format) "json"
      | PlainTextTransformer => text_eqb (lower requested_format) "plaintext"
      | _ => false
      end
  end.

(* ================================================================== *)
(** * app.py *)
(* ================================================================== *)

(** The responses of the endpoint, with their status code. *)
Inductive response : Type :=
| JSONResponse (content : json) (status_code : Z)
| HTMLResponse (content : text) (status_code : Z)
| PlainTextResponse (content : text) (media_type : option text) (status_code : Z).

Definition status_code_of (r : response) : Z :=
  match r with
  | JSONResponse _ status_code => status_code
  | HTMLResponse _ status_code => status_code
  | PlainTextResponse _ _ status_code => status_code
  end.

(** What [interpret] holds when it has settled on a text: the text, the
    latest validation result, and the output of the corrector if it ran. *)
Record interaction : Type := Interaction {
  final_output : text;
  final_validation : validation;
  error_corrector_output : option text
}.

(** [validation_result.get("valid")], as a condition. *)
Definition get_valid (d : report) : bool :=
  match valid d with Some b => b | None => false end.

Section App.
Context {lib : PyLib}.
Variable _extract_python_code : text -> list text.
Variable analyze_output_structure : text -> text -> outcome json.
Variable llm : list text -> text -> text.

(** Building a [JSONResponse] renders its content, which may raise. *)
Variable render_json : json -> outcome text.

(** [learner.learn_from_interaction], as far as the endpoint depends on
    it: it returns or it raises. *)
Variable learn_from_interaction :
  context -> text -> representation -> interaction -> outcome unit.

Definition make_JSONResponse (content : json) (status_code : Z) : outcome response :=
  _ <- render_json content ;;
  Returns (JSONResponse content status_code).

(** The structure the endpoint expects of a JSON answer. *)
Definition app_expected_structure (requested_format : text) (ctx : context)
  : option text :=
  if text_eqb requested_format "json" && nonempty (prompt_text ctx) then
    match prompt_text ctx with
    | Some p =>
        if contains (lower p) "array" then Some (lit "array")
        else if contains (lower p) "object" then Some (lit "object")
        else None
    | None => None
    end
  else None.

(** The error correction of [interpret]: the corrector runs when the first
    validation failed, its output is validated again, and replaces the
    first rendering only when that validation accepts it. *)
Definition settle (universal_representation : address)
           (requested_format raw_llm_response : text) (ctx : context)
           (expected_structure : option text) (transformed_output : text)
           (validation_result : validation) : stateful interaction :=
  match validation_result with
  | VDict d =>
      if negb (get_valid d) then
        error_corrector_output <~
          correct_output _extract_python_code analyze_output_structure llm
                         universal_representation requested_format raw_llm_response
                         ctx validation_result ;;
        match error_corrector_output with
        | _ :: _ =>
            validation_result <~
              lift (validate_output error_corrector_output requested_format
                                    expected_structure) ;;
            match validation_result with
            | VDict d' =>
                if get_valid d'
                then ret (Interaction error_corrector_output validation_result
                                      (Some error_corrector_output))
                else ret (Interaction transformed_output validation_result
                                      (Some error_corrector_output))
            | VBool true =>
                ret (Interaction error_corrector_output validation_result
                                 (Some error_corrector_output))
            | VBool false =>
                ret (Interaction transformed_output validation_result
                                 (Some error_corrector_output))
            end
        | [] =>
            ret (Interaction transformed_output validation_result
                             (Some error_corrector_output))
        end
      else ret (Interaction transformed_output validation_result None)
  | VBool false =>
      error_corrector_output <~
        correct_output _extract_python_code analyze_output_structure llm
                       universal_representation requested_format raw_llm_response
                       ctx (VDict (Report None None None None None None None None)) ;;
      match error_corrector_output with
      | _ :: _ =>
          validation_result <~
            lift (validate_output error_corrector_output requested_format
                                  expected_structure) ;;
          if is_valid validation_result
          then ret (Interaction error_corrector_output validation_result
                                (Some error_corrector_output))
          else ret (Interaction transformed_output validation_result
                                (Some error_corrector_output))
      | [] =>
          ret (Interaction transformed_output validation_result
                           (Some error_corrector_output))
      end
  | VBool true => ret (Interaction transformed_output validation_result None)
  end.

(** The response for a text that passed validation. *)
Definition validated_response (requested_format transformed_output : text)
  : outcome response :=
  if text_eqb requested_format "json" then
    match json_loads transformed_output with
    | Parsed content => make_JSONResponse content 200
    | Undecodable e =>
        Returns (PlainTextResponse
                   ("Error: Internal JSON encoding problem after validation. "
                    ++ decode_error_str e) None 500)
    | LoadsFault e => Raises e
    end
  else if text_eqb requested_format "html"
  then Returns (HTMLResponse transformed_output 200)
  else if text_eqb requested_format "python"
  then Returns (PlainTextResponse transformed_output (Some (lit "text/x-python")) 200)
  else Returns (PlainTextResponse transformed_output None 200).

(** The response for a text that did not: the best effort. *)
Definition best_effort_response (requested_format transformed_output : text)
  : outcome response :=
  if text_eqb requested_format "json" then
    let attempt_ :=
      match json_loads transformed_output with
      | Parsed content => make_JSONResponse content 500
      | Undecodable e => Raises (Exn "JSONDecodeError" (decode_error_str e))
      | LoadsFault e => Raises e
      end in
    match attempt_ with
    | Returns r => Returns r
    | Raises _ =>
        Returns (PlainTextResponse
                   "Error: Final output was not valid JSON and could not be parsed."
                   None 500)
    end
  else if text_eqb requested_format "html"
  then Returns (HTMLResponse transformed_output 500)
  else Returns (PlainTextResponse transformed_output None 500).

(** The response handling of [interpret]. *)
Definition respond (validation_result : validation)
           (requested_format transformed_output : text) : outcome response :=
  match validation_result with
  | VBool true => validated_response requested_format transformed_output
  | VBool false => best_effort_response requested_format transformed_output
  | VDict d =>
      is_true <- getitem "valid" (valid d) ;;
      if is_true : bool
      then validated_response requested_format transformed_output
      else best_effort_response requested_format transformed_output
  end.

(** [interpret], from the call of the model on, for a request whose
    context holds no error: [simplified_prompt] and [requested_format] are
    the values of these keys of the context. *)
Definition interpret (simplified_prompt requested_format : text) (ctx : context)
  : world -> response * world :=
  fun w =>
    let guarded : stateful response :=
      raw_llm_response <~ send_prompt_to_llm llm simplified_prompt ;;
      if startswith raw_llm_response "Error:" then
        ret (PlainTextResponse ("LLM Error: " ++ raw_llm_response) None 502)
      else
        parsed <~ lift (parse_llm_output _extract_python_code analyze_output_structure
                          raw_llm_response requested_format ctx) ;;
        universal_representation <~ alloc parsed ;;
        rep <~ deref universal_representation ;;
        transformed_output <~ lift (transform (get_transformer requested_format) rep ctx) ;;
        let expected_structure := app_expected_structure requested_format ctx in
        validation_result <~
          lift (validate_output transformed_output requested_format expected_structure) ;;
        settled <~ settle universal_representation requested_format raw_llm_response
                          ctx expected_structure transformed_output validation_result ;;
        rep <~ deref universal_representation ;;
        _ <~ lift (learn_from_interaction ctx raw_llm_response rep settled) ;;
        lift (respond (final_validation settled) requested_format (final_output settled))
    in
    match guarded w with
    | (Returns r, w') => (r, w')
    | (Raises e, w') =>
        (PlainTextResponse ("Internal Server Error: " ++ exn_msg e) None 500, w')
    end.

End App.

(* ================================================================== *)
(** * Vocabulary of the properties *)
(* ================================================================== *)

Definition no_leading_space (s : text) : Prop :=
  match s with
  | [] => True
  | c :: _ => is_space c = false
  end.

(** A text that holds nothing [_cleanup_common_artifacts] removes: no code
    fence, no ["result"] wrapper around the whole text, no disclaimer. *)
Definition residue_free (t : text) : bool :=
  negb (contains t "```")
  && negb (search false result_wrapper_pattern t)
  && forallb (fun d => negb (search true d t)) disclaimers.

(** The regions [extract_json_robust] tries for one bracket pair, in
    order, computed without indices: a region opens at an opening bracket
    met at depth zero and closes where the depth is back to zero; a closing
    bracket at depth zero is passed over; a region still open at the end of
    the text is never tried.  [current] is the open region so far,
    reversed. *)
Fixpoint regions_from (opening closing : ascii) (depth : nat) (current : text)
         (s : text) : list text :=
  match s with
  | [] => []
  | x :: s' =>
      if Ascii.eqb x opening then
        regions_from opening closing (S depth) (x :: current) s'
      else if Ascii.eqb x closing then
        match depth with
        | O => regions_from opening closing 0 [] s'
        | S O => rev (x :: current) :: regions_from opening closing 0 [] s'
        | S d => regions_from opening closing d (x :: current) s'
        end
      else
        match depth with
        | O => regions_from opening closing 0 [] s'
        | S _ => regions_from opening closing depth (x :: current) s'
        end
  end.

Definition top_level_regions (opening closing : ascii) (t : text) : list text :=
  regions_from opening closing 0 [] t.

(** The value of the first region that parses: regions that raise
    [JSONDecodeError] are passed over, any other exception is raised. *)
Fixpoint first_parsed {lib : PyLib} (regions : list text) : outcome (option json) :=
  match regions with
  | [] => Returns None
  | r :: regions' =>
      match json_loads r with
      | Parsed v => Returns (Some v)
      | Undecodable _ => first_parsed regions'
      | LoadsFault e => Raises e
      end
  end.



(** The table the markup renderer is to produce for a sequence of records:
    one header cell per key of the first record, one row per record, one
    cell per key of the first record, empty where the record lacks the
    key. *)
Definition cell (record : list (text * json)) (key : text) : text :=
  match dict_get record key with
  | Some v => str v
  | None => []
  end.

Definition table_of_records (first : list (text * json))
           (others : list (list (text * json))) : text :=
  let keys := map fst first in
  "<table>" ++ nl :: "  <thead>" ++ nl :: "    <tr>" ++ nl
  :: flat_map (fun key => "      <th>" ++ key ++ "</th>" ++ [nl]) keys
  ++ "    </tr>" ++ nl :: "  </thead>" ++ nl :: "  <tbody>" ++ nl
  :: flat_map (fun record =>
                 "    <tr>" ++ nl
                 :: flat_map (fun key => "      <td>" ++ cell record key ++ "</td>" ++ [nl])
                             keys
                 ++ "    </tr>" ++ [nl])
              (first :: others)
  ++ "  </tbody>" ++ nl :: "</table>".

(** The number of places at which [needle] occurs in [s]. *)
Fixpoint occurrences (needle s : text) : nat :=
  (if startswith s needle then 1 else 0)
  + match s with [] => 0 | _ :: s' => occurrences needle s' end.

(** The format names [validate_output] knows. *)
Definition known_format (requested_format : text) : bool :=
  text_eqb requested_format "json" || text_eqb requested_format "html"
  || text_eqb requested_format "python" || text_eqb requested_format "plaintext".

(** A library whose decoder gives up on nesting at once, as [json.loads]
    does on input nested beyond the recursion limit. *)
Definition shallow_lib : PyLib := {|
  json_loads := fun _ =>
    LoadsFault (Exn "RecursionError" "maximum recursion depth exceeded");
  json_dumps := RefJson.dumps;
  BeautifulSoup := @BeautifulSoup ref_lib;
  py_compile := @py_compile ref_lib
|}.

(** The integers a value holds. *)
Fixpoint integers (v : json) : list Z :=
  match v with
  | JInt z => [z]
  | JList items => flat_map integers items
  | JDict pairs => flat_map (fun kv => integers (snd kv)) pairs
  | _ => []
  end.

(** The number of decimal digits of an integer. *)
Definition digits_of (z : Z) : nat := length (str_of_Z (Z.abs z)).

(** The reference library with the limit CPython puts on the conversion of
    integer literals since 3.11: [json.loads] raises a plain [ValueError]
    on a JSON text that holds an integer of more than 4300 digits. *)
Definition digit_limit_lib : PyLib := {|
  json_loads := fun doc =>
    match RefJson.loads doc with
    | Parsed v =>
        match filter (fun z => Nat.ltb 4300 (digits_of z)) (integers v) with
        | z :: _ =>
            LoadsFault (Exn "ValueError"
              ("Exceeds the limit (4300 digits) for integer string conversion: value has "
               ++ str_of_Z (Z.of_nat (digits_of z))
               ++ " digits; use sys.set_int_max_str_digits() to increase the limit"))
        | [] => Parsed v
        end
    | other => other
    end;
  json_dumps := RefJson.dumps;
  BeautifulSoup := @BeautifulSoup ref_lib;
  py_compile := @py_compile ref_lib
|}.

(** The first [n] attempts of the loop, run from [vars] in the world [w],
    all end in a failed re-validation: none meets a transport error, none
    raises, none validates. *)
Fixpoint every_attempt_fails {lib : PyLib} (extract : text -> list text)
         (analyze : text -> text -> outcome json) (llm : list text -> text -> text)
         (n : nat) (requested_format raw_llm_response : text) (ctx : context)
         (expected_structure : option text) (vars : loop_vars) (w : world) : bool :=
  match n with
  | O => true
  | S n' =>
      match attempt extract analyze llm requested_format raw_llm_response ctx
                    expected_structure vars w with
      | (Returns (Next vars'), w') =>
          every_attempt_fails extract analyze llm n' requested_format raw_llm_response
                              ctx expected_structure vars' w'
      | _ => false
      end
  end.

(** The representation the heuristic builds from [rep] and the parsed
    value. *)
Definition heuristically_corrected (rep : representation) (v : json) : representation :=
  Representation None (Some v) (code_snippets rep) (html_content rep)
                 (output_structure rep) (error rep).

(** When the heuristic applies to [rep], up to the parse. *)
Definition heuristic_candidate (rep : representation) (requested_format : text) : bool :=
  text_eqb requested_format "json"
  && nonempty (text_content rep)
  && startswith (strip (or_default (text_content rep) empty)) "{"
  && endswith (strip (or_default (text_content rep) empty)) "}".

(** [last] holds what the latest attempt left: the model answered the
    latest prompt without a transport error, the answer was parsed and
    rendered into [transformed_output last], and that text failed
    validation with [validation_result last]. *)
Definition rendered_by_latest_attempt {lib : PyLib} (extract : text -> list text)
           (analyze : text -> text -> outcome json) (llm : list text -> text -> text)
           (requested_format : text) (ctx : context) (expected_structure : option text)
           (last : loop_vars) (w : world) : Prop :=
  exists prompt earlier parsed,
    sent w = prompt :: earlier
    /\ startswith (llm earlier prompt) "Error:" = false
    /\ parse_llm_output extract analyze (llm earlier prompt) requested_format ctx
       = Returns parsed
    /\ transform (get_transformer requested_format) parsed ctx
       = Returns (transformed_output last)
    /\ validate_output (transformed_output last) requested_format expected_structure
       = Returns (validation_result last)
    /\ is_valid (validation_result last) = false.

(** A cursor within a subject of which [bound] characters are left to the
    match: the rest is no longer than that, and group 1 was taken from
    before the rest. *)
Definition within (bound : nat) (c : cursor) : Prop :=
  length (rest c) <= bound
  /\ forall g, group1 c = Some g -> length g + length (rest c) <= bound.

(** A pattern whose every match takes at least one character. *)
Definition consuming (r : regex) : Prop :=
  forall icase start s found,
    match_at icase r start s = Some found -> length (rest found) < length s.

(** The number of backticks a text opens with. *)
Fixpoint leading_backticks (s : text) : nat :=
  match s with
  | c :: s' => if Ascii.eqb "`" c then S (leading_backticks s') else 0
  | [] => 0
  end.

(** The transformers that render code: every class but the JSON, markup,
    plaintext and default ones and the one that mixes markup and script. *)
Definition renders_code (t : transformer) : bool :=
  match t with
  | JSONTransformer | PlainTextTransformer | HTMLTransformer
  | HTMLJavascriptTransformer | DefaultTransformer => false
  | _ => true
  end.

(** The format names registered with a transformer that falls back to a
    comment, and the strings each one comments with. *)
Definition comment_languages : list text :=
  map lit [ "java"; "javascript"; "css"; "sql"; "c"; "c++"; "c#"; "go"; "ruby"; "php";
            "swift"; "kotlin"; "r"; "bash"; "typescript" ].

Definition comment_style (t : transformer) : option (text * text * text) :=
  match t with
  | JavaTransformer | JavascriptTransformer => Some (lit "//", lit "//", empty)
  | CTransformer | CppTransformer | CSharpTransformer | GoTransformer
  | PHPTransformer => Some (lit "//", lit "// ", empty)
  | RubyTransformer => Some (lit "#", lit "# ", empty)
  | SwiftTransformer | KotlinTransformer | TypescriptTransformer =>
      Some (lit "// ", lit "// ", empty)
  | RTransformer | BashTransformer => Some (lit "# ", lit "# ", empty)
  | CSSTransformer => Some (lit "/* ", lit "/* ", lit " */")
  | SQLTransformer => Some (lit "-- ", lit "-- ", empty)
  | _ => None
  end.

(** The loop variables and the world after the first [k] attempts, when
    each of them ends in a failed re-validation. *)
Fixpoint state_after_failures {lib : PyLib} (extract : text -> list text)
         (analyze : text -> text -> outcome json) (llm : list text -> text -> text)
         (k : nat) (requested_format raw_llm_response : text) (ctx : context)
         (expected_structure : option text) (vars : loop_vars) (w : world)
  : option (loop_vars * world) :=
  match k with
  | O => Some (vars, w)
  | S k' =>
      match attempt extract analyze llm requested_format raw_llm_response ctx
                    expected_structure vars w with
      | (Returns (Next vars'), w') =>
          state_after_failures extract analyze llm k' requested_format raw_llm_response
                               ctx expected_structure vars' w'
      | _ => None
      end
  end.

(** A response with status 200 that carries [output] in the way of the
    format: parsed for JSON, as markup for HTML, as text otherwise. *)
Definition carries {lib : PyLib} (requested_format output : text) (r : response) : Prop :=
  if text_eqb requested_format "json" then
    exists content, json_loads output = Parsed content /\ r = JSONResponse content 200
  else if text_eqb requested_format "html" then r = HTMLResponse output 200
  else if text_eqb requested_format "python"
  then r = PlainTextResponse output (Some (lit "text/x-python")) 200
  else r = PlainTextResponse output None 200.

(** A library whose markup parser finds no tag, as on a text that holds
    no [<]. *)
Definition tagless_lib : PyLib := {|
  json_loads := RefJson.loads;
  json_dumps := RefJson.dumps;
  BeautifulSoup := fun markup => Returns (Soup false markup);
  py_compile := fun _ => Compiled
|}.

(* ================================================================== *)
(** * Properties *)
(* ================================================================== *)

(** ** Facts about the string builtins *)

Lemma lstrip_no_leading_space (s : text) : no_leading_space (lstrip s).
Proof.
  induction s as [|c s IH]; simpl; [exact I|].
  destruct (is_space c) eqn:E; [exact IH | exact E].
Qed.

Lemma lstrip_fixed (s : text) : no_leading_space s -> lstrip s = s.
Proof.
  destruct s as [|c s]; simpl; [reflexivity|].
  intros ->. reflexivity.
Qed.

Lemma rstrip_no_leading_space (s : text) :
  no_leading_space s -> no_leading_space (rstrip s).
Proof.
  destruct s as [|c s]; simpl; [trivial|].
  intros E. destruct (rstrip s); [rewrite E|]; exact E.
Qed.

Lemma rstrip_idempotent (s : text) : rstrip (rstrip s) = rstrip s.
Proof.
  induction s as [|c s IH]; simpl; [reflexivity|].
  destruct (rstrip s) as [|x r] eqn:E.
  - destruct (is_space c) eqn:Ec; simpl; [reflexivity | now rewrite Ec].
  - change (rstrip (c :: x :: r)) with
      (match rstrip (x :: r) with
       | [] => if is_space c then [] else [c]
       | y :: r' => c :: y :: r'
       end).
    rewrite IH. reflexivity.
Qed.

Lemma strip_fixed_by_strip (s : text) : strip (strip s) = strip s.
Proof.
  unfold strip.
  rewrite (lstrip_fixed (rstrip (lstrip s))).
  - apply rstrip_idempotent.
  - apply rstrip_no_leading_space, lstrip_no_leading_space.
Qed.

Lemma rstrip_keeps_last (s : text) (c : ascii) :
  is_space c = false -> rstrip (s ++ [c]) = s ++ [c].
Proof.
  intros E. induction s as [|x s IH]; simpl.
  - now rewrite E.
  - rewrite IH. destruct (s ++ [c]) eqn:F; [|reflexivity].
    now destruct s.
Qed.

Lemma strip_delimited (c : ascii) (s : text) (d : ascii) :
  is_space c = false -> is_space d = false -> strip (c :: s ++ [d]) = c :: s ++ [d].
Proof.
  intros Ec Ed. unfold strip. simpl lstrip. rewrite Ec.
  exact (rstrip_keeps_last (c :: s) d Ed).
Qed.

Lemma replace_absent (old new s : text) :
  contains s old = false -> replace s old new = s.
Proof.
  unfold replace. induction s as [|c s IH]; simpl.
  - rewrite orb_false_r. now intros ->.
  - intros H. apply orb_false_elim in H as [H1 H2]. rewrite H1.
    now rewrite (IH H2).
Qed.

(** ** Facts about [re.sub] *)

Lemma sub_go_without_match (icase : bool) (r : regex) (repl : option text -> text)
      (s : text) (start : bool) :
  search_go icase r start s = false -> sub_go icase r repl start 0 s = s.
Proof.
  revert start. induction s as [|c s IH]; intros start; simpl.
  - now destruct (match_at icase r start []).
  - destruct (match_at icase r start (c :: s)); [discriminate|].
    intros H. now rewrite (IH false H).
Qed.

Lemma sub_without_match (icase : bool) (r : regex) (repl : option text -> text)
      (s : text) :
  search icase r s = false -> sub icase r repl s = s.
Proof. apply sub_go_without_match. Qed.

Lemma literal_head_needed (icase : bool) (l : text) (r : regex) (start : bool)
      (s : text) :
  prefix_match icase l s = None -> match_at icase (Seq (Lit l) r) start s = None.
Proof.
  unfold match_at. simpl. now intros ->.
Qed.

Lemma no_fence_no_match_from (s : text) (start : bool) :
  contains s "```" = false -> search_go false fence_pattern start s = false.
Proof.
  revert start. induction s as [|c s IH]; intros start H.
  - reflexivity.
  - cbn [contains] in H. apply orb_false_elim in H as [H1 H2].
    unfold search_go; fold search_go.
    unfold fence_pattern at 1. rewrite literal_head_needed.
    + apply IH, H2.
    + unfold startswith in H1.
      destruct (prefix_match false "```" (c :: s)); [discriminate | reflexivity].
Qed.

Lemma no_fence_no_match (s : text) :
  contains s "```" = false -> search false fence_pattern s = false.
Proof. apply no_fence_no_match_from. Qed.

(** ** Cleanup *)

Lemma cleanup_is_stripped (x : text) :
  strip (_cleanup_common_artifacts x) = _cleanup_common_artifacts x.
Proof. unfold _cleanup_common_artifacts. apply strip_fixed_by_strip. Qed.

Lemma cleanup_fixed (y : text) :
  strip y = y -> residue_free y = true -> _cleanup_common_artifacts y = y.
Proof.
  intros Hs Hr. unfold residue_free in Hr.
  apply andb_prop in Hr as [Hr Hd]. apply andb_prop in Hr as [Hf Hw].
  apply negb_true_iff in Hf. apply negb_true_iff in Hw.
  unfold _cleanup_common_artifacts.
  rewrite (@sub_without_match false fence_pattern repl_empty y)
    by (apply no_fence_no_match; exact Hf).
  rewrite replace_absent by exact Hf. rewrite Hs.
  rewrite sub_without_match by exact Hw.
  unfold disclaimers in *. cbn [fold_left forallb] in *.
  apply andb_prop in Hd as [H1 Hd]. apply andb_prop in Hd as [H2 Hd].
  apply andb_prop in Hd as [H3 _].
  apply negb_true_iff in H1. apply negb_true_iff in H2. apply negb_true_iff in H3.
  rewrite (@sub_without_match true _ repl_empty y) by exact H1.
  rewrite (@sub_without_match true _ repl_empty y) by exact H2.
  rewrite (@sub_without_match true _ repl_empty y) by exact H3.
  exact Hs.
Qed.

(** ** Cleanup never lengthens, and shortens where it finds residue *)

Lemma lstrip_length (s : text) : length (lstrip s) <= length s.
Proof.
  induction s as [|c s IH]; cbn [lstrip length]; [lia|].
  destruct (is_space c); cbn [length]; lia.
Qed.

Lemma rstrip_length (s : text) : length (rstrip s) <= length s.
Proof.
  induction s as [|c s IH]; cbn [rstrip length]; [lia|].
  destruct (rstrip s); [destruct (is_space c)|]; cbn [length] in *; lia.
Qed.

Lemma strip_length (s : text) : length (strip s) <= length s.
Proof.
  unfold strip. pose proof (rstrip_length (lstrip s)). pose proof (lstrip_length s). lia.
Qed.

Lemma replace_go_by_nothing_length (old s : text) (skip : nat) :
  length (replace_go old [] skip s) <= length s.
Proof.
  revert skip. induction s as [|c s IH]; intros skip.
  - destruct skip; cbn [replace_go]; [|cbn; lia].
    destruct (startswith [] old); [destruct (length old)|]; cbn; lia.
  - destruct skip as [|n]; cbn [replace_go].
    + destruct (startswith (c :: s) old).
      * destruct (length old); cbn [app length].
        -- specialize (IH 0). lia.
        -- specialize (IH n). lia.
      * cbn [length]. specialize (IH 0). lia.
    + cbn [length]. specialize (IH n). lia.
Qed.

Lemma sub_go_by_nothing_length (icase : bool) (r : regex) (start : bool) (skip : nat)
      (s : text) :
  length (sub_go icase r repl_empty start skip s) <= length s.
Proof.
  revert start skip. induction s as [|c s IH]; intros start skip.
  - destruct skip; cbn [sub_go]; [|cbn; lia].
    destruct (match_at icase r start []) as [cur|]; [|cbn; lia].
    destruct (length [] - length (rest cur)); cbn; lia.
  - destruct skip as [|n]; cbn [sub_go].
    + destruct (match_at icase r start (c :: s)) as [cur|].
      * destruct (length (c :: s) - length (rest cur)); cbn [repl_empty app length].
        -- specialize (IH false 0). lia.
        -- specialize (IH false n). lia.
      * cbn [length]. specialize (IH false 0). lia.
    + cbn [length]. specialize (IH false n). lia.
Qed.

(** ** What a match consumes *)

Lemma prefix_match_length (icase : bool) (p s s' : text) :
  prefix_match icase p s = Some s' -> length s = length p + length s'.
Proof.
  revert s. induction p as [|a p IH]; intros s; cbn [prefix_match].
  - intros [= ->]. reflexivity.
  - destruct s as [|b s]; [discriminate|].
    destruct (char_eq icase a b); [|discriminate].
    intros H. apply IH in H. cbn [length]. lia.
Qed.

Lemma star_moves_forward (p : ascii -> bool) (s : text) (moved : bool)
      (k : bool -> text -> option cursor) (found : cursor) (Q : Prop) :
  (forall m s1, length s1 <= length s -> k m s1 = Some found -> Q) ->
  star p moved s k = Some found -> Q.
Proof.
  revert moved. induction s as [|x s IH]; intros moved Hk; cbn [star].
  - apply Hk. lia.
  - destruct (p x); [|apply Hk; lia].
    destruct (star p true s k) eqn:E.
    + intros [= ->]. apply (IH true); [|exact E].
      intros m s1 Hl. apply Hk. cbn [length]. lia.
    + apply Hk. lia.
Qed.

Lemma run_moves_forward (icase : bool) (bound : nat) (r : regex) :
  forall (c : cursor) (k : cursor -> option cursor) (found : cursor) (Q : Prop),
    within bound c ->
    (forall c1, within bound c1 -> length (rest c1) <= length (rest c) ->
                k c1 = Some found -> Q) ->
    Re.run icase r c k = Some found -> Q.
Proof.
  induction r as [l|p|r1 IH1 r2 IH2|r1 IH1 r2 IH2|r1 IH1|p|p|r1 IH1| |];
    intros c k found Q Hc Hk; cbn [Re.run].
  - destruct (prefix_match icase l (rest c)) as [s'|] eqn:E; [|discriminate].
    apply prefix_match_length in E. apply Hk; cbn [rest group1]; [|lia].
    destruct Hc as [H1 H2]. split; cbn [rest group1]; [lia|].
    intros g Hg. specialize (H2 g Hg). lia.
  - destruct (rest c) as [|x s'] eqn:E; [discriminate|].
    destruct (p x); [|discriminate].
    apply Hk; cbn [rest group1 length]; [|lia].
    destruct Hc as [H1 H2]. rewrite E in *. cbn [length] in *.
    split; cbn [rest group1]; [lia|].
    intros g Hg. specialize (H2 g Hg). lia.
  - apply (IH1 c); [exact Hc|].
    intros c1 Hc1 Hl1. apply (IH2 c1); [exact Hc1|].
    intros c2 Hc2 Hl2. apply Hk; [exact Hc2 | lia].
  - destruct (Re.run icase r1 c k) eqn:E.
    + intros [= ->]. apply (IH1 c k found); assumption.
    + apply (IH2 c k found); assumption.
  - destruct (Re.run icase r1 c k) eqn:E.
    + intros [= ->]. apply (IH1 c k found); assumption.
    + apply Hk; [exact Hc | lia].
  - apply star_moves_forward. intros m s1 Hl. apply Hk; cbn [rest group1]; [|lia].
    destruct Hc as [H1 H2]. split; cbn [rest group1]; [lia|].
    intros g Hg. specialize (H2 g Hg). lia.
  - destruct (rest c) as [|x s'] eqn:E; [discriminate|].
    destruct (p x); [|discriminate].
    apply star_moves_forward. intros m s1 Hl.
    destruct Hc as [H1 H2]. rewrite E in *. cbn [length] in *.
    apply Hk; cbn [rest group1]; [|lia].
    split; cbn [rest group1]; [lia|].
    intros g Hg. specialize (H2 g Hg). lia.
  - apply (IH1 c); [exact Hc|].
    intros c1 Hc1 Hl1. apply Hk; cbn [rest group1]; [|lia].
    destruct Hc as [H1 H2]. destruct Hc1 as [H3 H4].
    split; cbn [rest group1]; [lia|].
    intros g [= <-]. rewrite length_firstn. lia.
  - destruct (at_start c); [|discriminate]. apply Hk; [exact Hc | lia].
  - destruct (rest c) as [|x [|y s']] eqn:E; try discriminate.
    + apply Hk; [exact Hc | rewrite E; lia].
    + destruct (Ascii.eqb x (ascii_of_nat 10)); [|discriminate].
      apply Hk; [exact Hc | rewrite E; lia].
Qed.

Lemma match_at_within (icase : bool) (r : regex) (start : bool) (s : text)
      (found : cursor) :
  match_at icase r start s = Some found -> within (length s) found.
Proof.
  unfold match_at. apply run_moves_forward with (bound := length s).
  - split; cbn [rest group1]; [lia | discriminate].
  - intros c1 Hc1 _ [= <-]. exact Hc1.
Qed.

Lemma literal_consuming (a : ascii) (l : text) : consuming (Lit (a :: l)).
Proof.
  intros icase start s found. unfold match_at. cbn [Re.run rest].
  destruct (prefix_match icase (a :: l) s) as [s'|] eqn:E; [|discriminate].
  intros [= <-]. apply prefix_match_length in E. cbn [rest length] in *. lia.
Qed.

Lemma literal_first_consuming (a : ascii) (l : text) (r : regex) :
  consuming (Seq (Lit (a :: l)) r).
Proof.
  intros icase start s found. unfold match_at. cbn [Re.run rest].
  destruct (prefix_match icase (a :: l) s) as [s'|] eqn:E; [|discriminate].
  apply prefix_match_length in E. cbn [group1].
  apply run_moves_forward with (bound := length s').
  - split; cbn [rest group1]; [lia | discriminate].
  - intros c1 [Hc1 _] _ [= <-]. cbn [length] in E. lia.
Qed.

Lemma sub_go_shortens (icase : bool) (r : regex) (s : text) (start : bool) :
  consuming r ->
  search_go icase r start s = true ->
  length (sub_go icase r repl_empty start 0 s) < length s.
Proof.
  intros Hr. revert start. induction s as [|c s IH]; intros start; cbn [search_go sub_go].
  - destruct (match_at icase r start []) as [found|] eqn:E; [|discriminate].
    apply Hr in E. cbn [length] in E. lia.
  - destruct (match_at icase r start (c :: s)) as [found|] eqn:E.
    + intros _. apply Hr in E.
      destruct (length (c :: s) - length (rest found)) as [|n] eqn:En; [lia|].
      cbn [repl_empty app length].
      pose proof (sub_go_by_nothing_length icase r false n s). lia.
    + intros H. specialize (IH false H). cbn [length]. lia.
Qed.

Lemma wrapper_only_at_start (icase : bool) (s : text) :
  match_at icase result_wrapper_pattern false s = None.
Proof. reflexivity. Qed.

Lemma sub_go_copies (icase : bool) (r : regex) (repl : option text -> text)
      (skip : nat) (s : text) :
  (forall t, match_at icase r false t = None) ->
  sub_go icase r repl false skip s = skipn skip s.
Proof.
  intros Hr. revert skip. induction s as [|c s IH]; intros skip.
  - destruct skip; cbn [sub_go skipn]; [now rewrite Hr | reflexivity].
  - destruct skip as [|n]; cbn [sub_go skipn].
    + rewrite Hr. now rewrite (IH 0).
    + apply IH.
Qed.

Lemma wrapper_match_bound (s : text) (found : cursor) :
  match_at false result_wrapper_pattern true s = Some found ->
  length (repl_group1 (group1 found)) + length (rest found) < length s.
Proof.
  unfold match_at, result_wrapper_pattern.
  match goal with
  | |- context [Seq (Lit _) ?tail] => set (after_literal := tail); clearbody after_literal
  end.
  cbn [Re.run at_start rest group1].
  destruct (prefix_match false (jq "{'result':") s) as [s'|] eqn:E; [|discriminate].
  apply prefix_match_length in E.
  apply run_moves_forward with (bound := length s').
  - split; cbn [rest group1]; [lia | discriminate].
  - intros c1 [Hc1 Hg] _ [= <-]. change (length (jq "{'result':")) with 10 in E.
    unfold repl_group1. destruct (group1 c1) as [g|].
    + specialize (Hg g eq_refl). lia.
    + cbn [length]. lia.
Qed.

Lemma wrapper_sub_length (s : text) :
  length (sub false result_wrapper_pattern repl_group1 s) <= length s
  /\ (search false result_wrapper_pattern s = true ->
      length (sub false result_wrapper_pattern repl_group1 s) < length s).
Proof.
  unfold sub, search.
  destruct s as [|c s].
  - cbn [sub_go search_go].
    destruct (match_at false result_wrapper_pattern true []) as [found|] eqn:E.
    + apply wrapper_match_bound in E. cbn [length] in E. lia.
    + split; [cbn; lia | discriminate].
  - cbn [sub_go search_go].
    destruct (match_at false result_wrapper_pattern true (c :: s)) as [found|] eqn:E.
    + apply wrapper_match_bound in E.
      destruct (length (c :: s) - length (rest found)) as [|n] eqn:En; [lia|].
      rewrite sub_go_copies by apply wrapper_only_at_start.
      rewrite length_app, length_skipn. cbn [length] in *. lia.
    + rewrite sub_go_copies by apply wrapper_only_at_start. cbn [skipn length].
      split; [lia|].
      assert (H : forall t, search_go false result_wrapper_pattern false t = false).
      { induction t as [|x t IHt]; cbn [search_go]; rewrite wrapper_only_at_start;
          [reflexivity | exact IHt]. }
      rewrite H. discriminate.
Qed.

Lemma star_succeeds (p : ascii -> bool) (s : text) (moved : bool)
      (k : bool -> text -> option cursor) :
  (forall m s1, k m s1 <> None) -> star p moved s k <> None.
Proof.
  intros Hk. revert moved. induction s as [|x s IH]; intros moved; cbn [star].
  - apply Hk.
  - destruct (p x); [|apply Hk].
    destruct (star p true s k) eqn:E; [discriminate|]. now apply IH in E.
Qed.

Lemma fence_matches (s s' : text) (start : bool) :
  prefix_match false "```" s = Some s' ->
  match_at false fence_pattern start s <> None.
Proof.
  intros E. unfold match_at, fence_pattern. cbn [Re.run rest group1]. rewrite E.
  match goal with
  | |- match ?m with Some res => Some res | None => ?d end <> None =>
      destruct m; [discriminate|]
  end.
  apply star_succeeds. discriminate.
Qed.

Lemma fence_found_from (s : text) (start : bool) :
  contains s "```" = true -> search_go false fence_pattern start s = true.
Proof.
  revert start. induction s as [|c s IH]; intros start; cbn [contains search_go].
  - rewrite orb_false_r. unfold startswith.
    destruct (prefix_match false "```" []) eqn:E; [|discriminate]. discriminate.
  - intros H.
    destruct (match_at false fence_pattern start (c :: s)) eqn:Em; [reflexivity|].
    apply orb_prop in H as [H|H]; [|now apply IH].
    unfold startswith in H.
    destruct (prefix_match false "```" (c :: s)) as [s'|] eqn:E; [|discriminate].
    now apply (fence_matches _ start) in E.
Qed.

Lemma sub_by_nothing_length (icase : bool) (r : regex) (s : text) :
  length (sub icase r repl_empty s) <= length s.
Proof. apply sub_go_by_nothing_length. Qed.

Lemma sub_shortens (icase : bool) (r : regex) (s : text) :
  consuming r -> search icase r s = true ->
  length (sub icase r repl_empty s) < length s.
Proof. intros Hr. apply sub_go_shortens, Hr. Qed.

Lemma replace_by_nothing_length (s old : text) :
  length (replace s old empty) <= length s.
Proof. apply replace_go_by_nothing_length. Qed.

Lemma fence_found (s : text) :
  contains s "```" = true -> search false fence_pattern s = true.
Proof. apply fence_found_from. Qed.

Lemma disclaimers_consuming : Forall consuming disclaimers.
Proof.
  unfold disclaimers. repeat constructor.
  - apply literal_first_consuming.
  - apply literal_consuming.
  - apply literal_consuming.
Qed.

(** Each disclaimer pattern in turn: never longer, and shorter as soon as
    one of them is found in the text it is applied to. *)
Lemma disclaimers_removed_length (patterns : list regex) (t : text) :
  Forall consuming patterns ->
  length (fold_left (fun t pattern => sub true pattern repl_empty t) patterns t)
  <= length t
  /\ (forallb (fun d => negb (search true d t)) patterns = false ->
      length (fold_left (fun t pattern => sub true pattern repl_empty t) patterns t)
      < length t).
Proof.
  intros Hp. revert t. induction Hp as [|d patterns Hd Hp IH]; intros t.
  - cbn. split; [lia | discriminate].
  - cbn [fold_left forallb].
    destruct (IH (sub true d repl_empty t)) as [Hle _].
    pose proof (sub_by_nothing_length true d t) as Hd1.
    split; [lia|].
    destruct (search true d t) eqn:Es; cbn [negb andb].
    + intros _. pose proof (@sub_shortens true d t Hd Es). lia.
    + rewrite sub_without_match by exact Es. apply IH.
Qed.

Lemma cleanup_shortens_residue (y : text) :
  strip y = y -> residue_free y = false ->
  length (_cleanup_common_artifacts y) < length y.
Proof.
  intros Hs Hr. unfold _cleanup_common_artifacts.
  pose proof (sub_by_nothing_length false fence_pattern y) as L1.
  pose proof (replace_by_nothing_length (sub false fence_pattern repl_empty y) "```") as L2.
  pose proof (strip_length (replace (sub false fence_pattern repl_empty y) "```" empty)) as L3.
  set (t3 := strip (replace (sub false fence_pattern repl_empty y) "```" empty)) in *.
  destruct (wrapper_sub_length t3) as [L4 S4].
  set (t4 := sub false result_wrapper_pattern repl_group1 t3) in *.
  destruct (@disclaimers_removed_length disclaimers t4 disclaimers_consuming) as [L5 S5].
  set (t7 := fold_left (fun t pattern => sub true pattern repl_empty t) disclaimers t4) in *.
  pose proof (strip_length t7) as L6.
  unfold residue_free in Hr.
  destruct (contains y "```") eqn:Ef.
  { pose proof (@sub_shortens false fence_pattern y (literal_first_consuming _ _ _)
                              (fence_found y Ef)). lia. }
  assert (E3 : t3 = y).
  { subst t3. rewrite sub_without_match by (apply no_fence_no_match; exact Ef).
    rewrite replace_absent by exact Ef. exact Hs. }
  cbn [negb andb] in Hr.
  destruct (search false result_wrapper_pattern y) eqn:Ew.
  { rewrite E3 in S4. specialize (S4 Ew). rewrite E3 in *. lia. }
  assert (E4 : t4 = y).
  { subst t4. rewrite E3. apply sub_without_match. exact Ew. }
  cbn [negb andb] in Hr. rewrite E4 in S5. specialize (S5 Hr). rewrite E4, E3 in *. lia.
Qed.

(** C2, as stated, fails: a ["result"] wrapper inside a ["result"] wrapper
    is unwrapped once by each application, so the second application
    changes the result of the first. *)
Lemma cleanup_is_not_idempotent :
  _cleanup_common_artifacts (_cleanup_common_artifacts (jq "{'result': {'result': 1}}"))
  <> _cleanup_common_artifacts (jq "{'result': {'result': 1}}").
Proof. vm_compute. discriminate. Qed.

(** C2, amended: applying [_cleanup_common_artifacts] twice yields the same
    text as applying it once exactly when the first application leaves no
    residue, that is no code fence, no enclosing ["result"] wrapper and no
    disclaimer phrase. *)
Theorem cleanup_idempotent_iff_no_residue (x : text) :
  _cleanup_common_artifacts (_cleanup_common_artifacts x) = _cleanup_common_artifacts x
  <-> residue_free (_cleanup_common_artifacts x) = true.
Proof.
  split.
  - intros H. destruct (residue_free (_cleanup_common_artifacts x)) eqn:E; [reflexivity|].
    pose proof (cleanup_shortens_residue (cleanup_is_stripped x) E) as Hl.
    rewrite H in Hl. lia.
  - intros H. apply cleanup_fixed; [apply cleanup_is_stripped | exact H].
Qed.

Lemma cleanup_idempotent_iff_no_residue_witness :
  _cleanup_common_artifacts
    (_cleanup_common_artifacts ("```json" ++ nl :: jq "{'a': 1}" ++ nl :: "```"))
  = _cleanup_common_artifacts ("```json" ++ nl :: jq "{'a': 1}" ++ nl :: "```").
Proof.
  apply (proj2 (cleanup_idempotent_iff_no_residue
                  ("```json" ++ nl :: jq "{'a': 1}" ++ nl :: "```"))).
  vm_compute. reflexivity.
Defined.

(** ** Extraction *)

Lemma slice_middle (before middle after : text) :
  slice (before ++ middle ++ after) (Z.of_nat (length before))
        (Z.of_nat (length before + length middle)) = middle.
Proof.
  unfold slice, clamp_index.
  rewrite !length_app.
  destruct (Z.ltb_spec (Z.of_nat (length before)) 0); [lia|].
  destruct (Z.ltb_spec (Z.of_nat (length before + length middle)) 0); [lia|].
  rewrite !Z.min_l by lia.
  replace (Z.to_nat (Z.of_nat (length before + length middle) - Z.of_nat (length before)))
    with (length middle) by lia.
  rewrite Nat2Z.id, skipn_app, skipn_all, Nat.sub_diag. simpl.
  now rewrite firstn_app, firstn_all, Nat.sub_diag, firstn_O, app_nil_r.
Qed.

Section Extraction.
Context {lib : PyLib}.
Variables opening closing : ascii.

(** The loop and the index-free description agree from any state in which
    the stack holds [depth] opening brackets and, when a region is open,
    [start_index] is where it opened and [current] is the text since. *)
Lemma scan_balanced_from (rest done : text) (depth : nat) (current before : text)
      (start_index : Z) :
  done = before ++ rev current ->
  (depth = 0 -> current = []) ->
  (depth <> 0 -> start_index = Z.of_nat (length before)) ->
  scan_balanced opening closing (done ++ rest) (Z.of_nat (length done)) rest
                (repeat opening depth) start_index
  = first_parsed (regions_from opening closing depth current rest).
Proof.
  revert done depth current before start_index.
  induction rest as [|x rest IH]; intros done depth current before start_index Hd H0 Hs.
  - reflexivity.
  - assert (Hnext : forall stack start,
               scan_balanced opening closing (done ++ x :: rest)
                             (Z.of_nat (length done) + 1) rest stack start
               = scan_balanced opening closing ((done ++ [x]) ++ rest)
                               (Z.of_nat (length (done ++ [x]))) rest stack start).
    { intros. rewrite <- app_assoc, length_app. simpl.
      now replace (Z.of_nat (length done + 1)) with (Z.of_nat (length done) + 1)%Z by lia. }
    cbn [scan_balanced regions_from].
    destruct (Ascii.eqb x opening) eqn:Eo.
    + rewrite Hnext.
      change (x :: repeat opening depth) with (repeat x 1 ++ repeat opening depth).
      apply Ascii.eqb_eq in Eo. subst x.
      rewrite <- repeat_app.
      destruct depth as [|d].
      * rewrite (H0 eq_refl) in *. simpl in Hd. rewrite app_nil_r in Hd. subst before.
        apply (IH (done ++ [opening]) 1 [opening] done); try reflexivity. discriminate.
      * apply (IH (done ++ [opening]) (S (S d)) (opening :: current) before).
        -- simpl. now rewrite Hd, app_assoc.
        -- discriminate.
        -- intros _. now apply Hs.
    + destruct (Ascii.eqb x closing) eqn:Ec.
      * apply Ascii.eqb_eq in Ec. subst x.
        destruct depth as [|[|d]]; cbn [repeat].
        -- rewrite Hnext. apply (IH (done ++ [closing]) 0 [] (done ++ [closing]));
             [now rewrite app_nil_r | reflexivity | congruence].
        -- rewrite Ascii.eqb_refl.
           assert (Hslice : slice (done ++ closing :: rest) start_index
                                  (Z.of_nat (length done) + 1)
                            = rev (closing :: current)).
           { rewrite (Hs ltac:(discriminate)), Hd.
             rewrite <- app_assoc. simpl rev.
             replace (rev current ++ closing :: rest)
               with ((rev current ++ [closing]) ++ rest) by now rewrite <- app_assoc.
             replace (Z.of_nat (length (before ++ rev current)) + 1)%Z
               with (Z.of_nat (length before + length (rev current ++ [closing]))).
             - apply slice_middle.
             - rewrite !length_app. simpl. lia. }
           rewrite Hslice. cbn [first_parsed].
           destruct (json_loads (rev (closing :: current))); try reflexivity.
           rewrite Hnext. apply (IH (done ++ [closing]) 0 [] (done ++ [closing]));
             [now rewrite app_nil_r | reflexivity | congruence].
        -- rewrite Ascii.eqb_refl. rewrite Hnext.
           apply (IH (done ++ [closing]) (S d) (closing :: current) before).
           ++ simpl. now rewrite Hd, app_assoc.
           ++ discriminate.
           ++ intros _. apply Hs. discriminate.
      * rewrite Hnext. destruct depth as [|d].
        -- apply (IH (done ++ [x]) 0 [] (done ++ [x]));
             [now rewrite app_nil_r | reflexivity | congruence].
        -- apply (IH (done ++ [x]) (S d) (x :: current) before).
           ++ simpl. now rewrite Hd, app_assoc.
           ++ discriminate.
           ++ intros _. apply Hs. discriminate.
Qed.

Lemma scan_balanced_regions (t : text) :
  scan_balanced opening closing t 0 t [] (-1)
  = first_parsed (top_level_regions opening closing t).
Proof.
  apply (@scan_balanced_from t [] 0 [] [] (-1)%Z); [reflexivity | reflexivity | congruence].
Qed.

End Extraction.

Lemma extract_json_robust_regions {lib : PyLib} (t : text) :
  extract_json_robust t
  = match first_parsed (top_level_regions "{" "}" t) with
    | Returns None => first_parsed (top_level_regions "[" "]" t)
    | found => found
    end.
Proof.
  unfold extract_json_robust. rewrite !scan_balanced_regions.
  destruct (first_parsed (top_level_regions "{" "}" t)) as [[v|]|e]; reflexivity.
Qed.





(** C6: on [noise {"a":1} trailing junk [1,2]] the function returns the
    object [{"a":1}]; and for every text, the result is the value of the
    first top-level brace region that parses, and only when no top-level
    brace region parses the value of the first top-level bracket region
    that parses: an object region is preferred to an array region, and
    an earlier region to a later one of the same bracket kind. *)
Theorem extract_prefers_objects_then_earlier_regions :
  extract_json_robust (lib:=ref_lib) (jq "noise {'a':1} trailing junk [1,2]")
  = Returns (Some (JDict [(lit "a", JInt 1)]))
  /\ forall (lib : PyLib) (t : text),
       extract_json_robust t
       = match first_parsed (top_level_regions "{" "}" t) with
         | Returns None => first_parsed (top_level_regions "[" "]" t)
         | found => found
         end.
Proof.
  split.
  - vm_compute. reflexivity.
  - intros lib t. apply extract_json_robust_regions.
Qed.

(** ** Validation *)

(** C7: [validate_output] returns for every output, every format name and
    every expected structure; what it returns is [True] or a dict with
    [valid] false; an exception escaping the check of the format is
    reported with the error type [UnexpectedError] and its message; an
    unknown format name is reported with the error type [UnknownFormat]. *)
Theorem validate_output_never_raises {lib : PyLib} (transformed_output
        requested_format : text) (expected_structure : option text) :
  exists result,
    validate_output transformed_output requested_format expected_structure
    = Returns result
    /\ (result = VBool true \/ exists d, result = VDict d /\ valid d = Some false)
    /\ match format_check transformed_output requested_format expected_structure with
       | Raises e => result = VDict (invalid "UnexpectedError" (exn_msg e))
       | Returns checked => result = checked
       end
    /\ if known_format requested_format then True
       else result = VDict (invalid "UnknownFormat"
                                    ("Unknown format for validation: " ++ requested_format)).
Proof.
  unfold validate_output, known_format, format_check.
  destruct (text_eqb requested_format "json") eqn:Ej; cbn [orb].
  { unfold validate_json.
    destruct (json_loads transformed_output) as [parsed|e|e].
    - destruct (nonempty expected_structure);
        [destruct (is_str expected_structure "array" && negb (is_list parsed));
         [|destruct (is_str expected_structure "object" && negb (is_dict parsed))]|];
        eexists; (split; [reflexivity|]); (split; [|split; [reflexivity | exact I]]);
        first [ left; reflexivity | right; eexists; split; reflexivity ].
    - eexists; split; [reflexivity|]; split; [|split; [reflexivity | exact I]].
      right; eexists; split; reflexivity.
    - eexists; split; [reflexivity|]; split; [|split; [reflexivity | exact I]].
      right; eexists; split; reflexivity. }
  destruct (text_eqb requested_format "html") eqn:Eh; cbn [orb].
  { unfold validate_html.
    destruct (BeautifulSoup transformed_output) as [soup|e];
      [destruct (soup_find soup); cbn [negb]|];
      eexists; (split; [reflexivity|]); (split; [|split; [reflexivity | exact I]]);
      first [ left; reflexivity | right; eexists; split; reflexivity ]. }
  destruct (text_eqb requested_format "python") eqn:Ep; cbn [orb].
  { unfold validate_python.
    destruct (py_compile transformed_output);
      eexists; (split; [reflexivity|]); (split; [|split; [reflexivity | exact I]]);
      first [ left; reflexivity | right; eexists; split; reflexivity ]. }
  destruct (text_eqb requested_format "plaintext") eqn:Et.
  { eexists; split; [reflexivity|]; split; [left; reflexivity|]; split;
      [reflexivity | exact I]. }
  eexists; split; [reflexivity|]; split; [|split; reflexivity].
  right; eexists; split; reflexivity.
Qed.

(** The [UnexpectedError] report is reachable: the decoder raising anything
    but [JSONDecodeError] escapes [validate_json]. *)
Example unexpected_error_reported :
  validate_output (lib:=shallow_lib) "[[1]]" "json" None
  = Returns (VDict (invalid "UnexpectedError" "maximum recursion depth exceeded")).
Proof. reflexivity. Qed.

(** C8: validating [{"a":1}] with the expected structure ["array"] reports
    [JSONStructureError] with a message that names the array and the
    object; and whenever the text parses and the expected structure is
    ["array"] for a value that is no list, or ["object"] for a value that
    is no dict, [validate_json] reports [JSONStructureError] and not
    [True]. *)
Theorem validate_json_reports_structure_mismatch :
  (validate_json (lib:=ref_lib) (jq "{'a':1}") (Some (lit "array"))
   = Returns (VDict (invalid "JSONStructureError"
                             "Expected a JSON array, but got a JSON object."))
   /\ contains "Expected a JSON array, but got a JSON object." "array" = true
   /\ contains "Expected a JSON array, but got a JSON object." "object" = true)
  /\ forall (lib : PyLib) (output expected : text) (parsed : json),
       json_loads output = Parsed parsed ->
       (expected = lit "array" /\ is_list parsed = false)
       \/ (expected = lit "object" /\ is_dict parsed = false) ->
       exists d,
         validate_json output (Some expected) = Returns (VDict d)
         /\ valid d = Some false
         /\ error_type d = Some (lit "JSONStructureError").
Proof.
  split; [vm_compute; repeat split|].
  intros lib output expected parsed Hp [[-> Hk]|[-> Hk]];
    unfold validate_json; rewrite Hp.
  - change (is_str (Some (lit "array")) "array") with true.
    change (nonempty (Some (lit "array"))) with true.
    rewrite Hk. eexists; repeat split.
  - change (is_str (Some (lit "object")) "array") with false.
    change (is_str (Some (lit "object")) "object") with true.
    change (nonempty (Some (lit "object"))) with true.
    rewrite Hk. eexists; repeat split.
Qed.

Lemma validate_json_reports_structure_mismatch_witness :
  exists d,
    validate_json (lib:=ref_lib) "[1, 2]" (Some (lit "object")) = Returns (VDict d)
    /\ valid d = Some false
    /\ error_type d = Some (lit "JSONStructureError").
Proof.
  apply (proj2 validate_json_reports_structure_mismatch ref_lib "[1, 2]" "object"
               (JList [JInt 1; JInt 2])).
  - vm_compute. reflexivity.
  - right. split; reflexivity.
Defined.

(** ** Rendering *)

Lemma row_cells_of_record (keys : list text) (record : list (text * json)) :
  row_cells keys (JDict record)
  = Returns (flat_map (fun key => "      <td>" ++ cell record key ++ "</td>" ++ [nl]) keys).
Proof.
  induction keys as [|key keys IH]; [reflexivity|].
  cbn [row_cells flat_map]. rewrite IH. cbn [bind]. unfold cell.
  now rewrite <- !app_assoc.
Qed.

Lemma body_rows_of_records (keys : list text)
      (records : list (list (text * json))) :
  body_rows keys (map JDict records)
  = Returns (flat_map (fun record =>
                         "    <tr>" ++ nl
                         :: flat_map (fun key => "      <td>" ++ cell record key
                                                 ++ "</td>" ++ [nl]) keys
                         ++ "    </tr>" ++ [nl])
                      records).
Proof.
  induction records as [|record records IH]; [reflexivity|].
  cbn [map body_rows flat_map]. rewrite row_cells_of_record, IH. cbn [bind].
  f_equal. rewrite <- !app_assoc. cbn [app]. f_equal.
  now rewrite <- !app_assoc.
Qed.

Lemma table_is_delimited (first : list (text * json))
      (others : list (list (text * json))) :
  exists middle, table_of_records first others = "<"%char :: middle ++ [">"%char].
Proof.
  unfold table_of_records.
  change (lit "</table>") with (lit "</table" ++ [">"%char]).
  change (lit "<table>") with ("<"%char :: lit "table>").
  eexists. cbn [app]. f_equal.
  rewrite !app_comm_cons, !app_assoc. reflexivity.
Qed.

(** C9: for the records [[{"a":1},{"a":2}]] and no markup content the
    renderer returns a table with one header cell, [a], and two body rows,
    [1] then [2]; and for every sequence of records the table has one
    header cell per key of the first record and one row per record, with
    an empty cell where a record lacks a key of the first. *)
Theorem html_transformer_renders_records :
  (let rendered :=
     join [nl] (map lit
       [ "<table>"; "  <thead>"; "    <tr>"; "      <th>a</th>"; "    </tr>";
         "  </thead>"; "  <tbody>"; "    <tr>"; "      <td>1</td>"; "    </tr>";
         "    <tr>"; "      <td>2</td>"; "    </tr>"; "  </tbody>"; "</table>" ]) in
   HTMLTransformer_transform
     (set_json_fields universal_representation
        (Some (JList [JDict [(lit "a", JInt 1)]; JDict [(lit "a", JInt 2)]])))
     (Context None None None)
   = Returns rendered
   /\ occurrences "<th>" rendered = 1
   /\ occurrences "<td>" rendered = 2)
  /\ forall (rep : representation) (ctx : context) (first : list (text * json))
            (others : list (list (text * json))),
       html_content rep = None ->
       json_fields rep = Some (JList (map JDict (first :: others))) ->
       HTMLTransformer_transform rep ctx = Returns (table_of_records first others)
       /\ forall record key, dict_get record key = None -> cell record key = [].
Proof.
  split; [vm_compute; repeat split|].
  intros rep ctx first others Hh Hj. split.
  - unfold HTMLTransformer_transform. rewrite Hh, Hj. cbn [map].
    change (JDict first :: map JDict others) with (map JDict (first :: others)).
    rewrite body_rows_of_records. cbn [bind].
    destruct (table_is_delimited first others) as [middle Hm].
    unfold table_of_records in Hm. unfold header_cells.
    rewrite Hm. rewrite strip_delimited by reflexivity.
    rewrite <- Hm. reflexivity.
  - intros record key H. unfold cell. now rewrite H.
Qed.

Lemma html_transformer_renders_records_witness :
  HTMLTransformer_transform
    (set_json_fields universal_representation
       (Some (JList (map JDict [ [(lit "a", JInt 1); (lit "b", JStr "x")];
                                 [(lit "b", JNull)] ]))))
    (Context None None None)
  = Returns (join [nl] (map lit
      [ "<table>"; "  <thead>"; "    <tr>"; "      <th>a</th>"; "      <th>b</th>";
        "    </tr>"; "  </thead>"; "  <tbody>"; "    <tr>"; "      <td>1</td>";
        "      <td>x</td>"; "    </tr>"; "    <tr>"; "      <td></td>";
        "      <td>None</td>"; "    </tr>"; "  </tbody>"; "</table>" ])).
Proof.
  refine (eq_trans
            (proj1 (proj2 html_transformer_renders_records _ (Context None None None)
                          [(lit "a", JInt 1); (lit "b", JStr "x")]
                          [[(lit "b", JNull)]] _ _)) _).
  - reflexivity.
  - reflexivity.
  - vm_compute. reflexivity.
Defined.

Lemma json_transformer_returns {lib : PyLib} (rep : representation) (ctx : context) :
  exists rendered, transform JSONTransformer rep ctx = Returns rendered.
Proof.
  cbn [transform]. unfold JSONTransformer_transform.
  destruct (json_fields rep); [eexists; reflexivity|].
  destruct (text_content rep) as [t|]; [|eexists; reflexivity].
  destruct (json_loads t); eexists; reflexivity.
Qed.

Lemma html_transformer_returns {lib : PyLib} (rep : representation) (ctx : context) :
  exists rendered, transform HTMLTransformer rep ctx = Returns rendered.
Proof.
  cbn [transform]. unfold HTMLTransformer_transform.
  destruct (html_content rep); [eexists; reflexivity|].
  destruct (json_fields rep) as [v|].
  - destruct v as [| | | | |items|pairs]; try (eexists; reflexivity).
    destruct items as [|first items]; [eexists; reflexivity|].
    destruct first; try (eexists; reflexivity).
    destruct (body_rows (map fst pairs) (JDict pairs :: items)); eexists; reflexivity.
  - destruct (text_content rep); eexists; reflexivity.
Qed.

Lemma default_transformer_returns {lib : PyLib} (rep : representation) (ctx : context) :
  exists rendered, transform DefaultTransformer rep ctx = Returns rendered.
Proof. eexists; reflexivity. Qed.

(** On the path of a request for Java code only, the parser leaves
    [code_snippets] at [None] and the renderer raises. *)
Lemma java_code_only_rendering_raises {lib : PyLib} (extract : text -> list text)
      (profile : json) (response : text) (prompt : text) :
  let ctx := Context (Some prompt) (Some (lit "code_only")) None in
  (rep <- parse_llm_output extract (fun _ _ => Returns profile) response "java" ctx ;;
   transform (get_transformer "java") rep ctx)
  = Raises (TypeError "can only join an iterable").
Proof. reflexivity. Qed.

(** C4, evaluated where it fails: the transformer selected for
    ["plaintext"], and for every unknown format name, is
    [PlainTextTransformer], and on the representation whose fields are all
    [None] its [transform] raises [AttributeError]; and on a request for
    Java code only, what [parse_llm_output] returns makes the transformer
    selected for ["java"] raise [TypeError]. *)
Theorem plaintext_transformer_raises_without_text {lib : PyLib} (ctx : context) :
  get_transformer "plaintext" = PlainTextTransformer
  /\ get_transformer "no such format" = PlainTextTransformer
  /\ transform (get_transformer "plaintext") universal_representation ctx
     = Raises (AttributeError "NoneType" "strip")
  /\ forall (extract : text -> list text) (profile : json) (response prompt : text),
       (rep <- parse_llm_output extract (fun _ _ => Returns profile) response "java"
                 (Context (Some prompt) (Some (lit "code_only")) None) ;;
        transform (get_transformer "java") rep
                  (Context (Some prompt) (Some (lit "code_only")) None))
       = Raises (TypeError "can only join an iterable").
Proof.
  split; [reflexivity|]. split; [reflexivity|]. split; [reflexivity|].
  intros extract profile response prompt.
  apply java_code_only_rendering_raises.
Qed.

Lemma plaintext_with_text_validates {lib : PyLib} (rep : representation)
      (ctx : context) (t : text) :
  text_content rep = Some t ->
  (rendered <- transform (get_transformer "plaintext") rep ctx ;;
   validate_output rendered "plaintext" None)
  = Returns (VBool true).
Proof.
  intros H. change (get_transformer "plaintext") with PlainTextTransformer.
  cbn [transform]. unfold PlainTextTransformer_transform. rewrite H. reflexivity.
Qed.

(** C5, evaluated where it fails: on the representation whose fields are
    all [None], rendering as plaintext and validating the result raises
    [AttributeError] in the renderer, and nothing is validated. *)
Theorem plaintext_render_then_validate_raises_without_text {lib : PyLib}
        (ctx : context) :
  (rendered <- transform (get_transformer "plaintext") universal_representation ctx ;;
   validate_output rendered "plaintext" None)
  = Raises (AttributeError "NoneType" "strip").
Proof. reflexivity. Qed.

(** ** The heuristic correction *)

Lemma update_nth_last {A : Type} (l : list A) (x : A) (f : A -> A) :
  update_nth (l ++ [x]) (length l) f = l ++ [f x].
Proof. induction l as [|y l IH]; simpl; [reflexivity | now rewrite IH]. Qed.

Lemma heuristic_correction_applies {lib : PyLib} (w : world) (a : address)
      (rep : representation) (requested_format : text) (v : json) :
  nth_error (heap w) a = Some rep ->
  heuristic_candidate rep requested_format = true ->
  json_loads (strip (or_default (text_content rep) empty)) = Parsed v ->
  _heuristic_correction a requested_format w
  = (Returns (Some (length (heap w))),
     World (heap w ++ [heuristically_corrected rep v]) (sent w)).
Proof.
  intros Ha Hc Hp. unfold heuristic_candidate in Hc.
  apply andb_prop in Hc as [Hc He]. apply andb_prop in Hc as [Hc Hs].
  apply andb_prop in Hc as [Hf Hn].
  unfold _heuristic_correction. rewrite Hf.
  unfold then_ at 1. unfold deref at 1. rewrite Ha, Hn, Hs, He. cbn [andb].
  rewrite Hp. unfold copy, then_, deref, alloc, modify, ret. rewrite Ha.
  cbn [heap sent]. rewrite !update_nth_last. reflexivity.
Qed.

Lemma heuristic_correction_declines {lib : PyLib} (w : world) (a : address)
      (rep : representation) (requested_format : text) :
  nth_error (heap w) a = Some rep ->
  heuristic_candidate rep requested_format = false
  \/ (exists e, json_loads (strip (or_default (text_content rep) empty)) = Undecodable e) ->
  _heuristic_correction a requested_format w = (Returns None, w).
Proof.
  intros Ha H. unfold _heuristic_correction, heuristic_candidate in *.
  destruct (text_eqb requested_format "json"); [|reflexivity].
  unfold then_ at 1. unfold deref at 1. rewrite Ha.
  destruct (nonempty (text_content rep)); [|reflexivity].
  destruct (startswith (strip (or_default (text_content rep) empty)) "{"
            && endswith (strip (or_default (text_content rep) empty)) "}") eqn:E;
    [|reflexivity].
  destruct H as [H|[e H]].
  - cbn [andb] in H. congruence.
  - now rewrite H.
Qed.

(** When [json.loads] raises anything but [JSONDecodeError], the heuristic
    raises it, and the store is as it was. *)
Lemma heuristic_correction_propagates {lib : PyLib} (w : world) (a : address)
      (rep : representation) (requested_format : text) (e : exn) :
  nth_error (heap w) a = Some rep ->
  heuristic_candidate rep requested_format = true ->
  json_loads (strip (or_default (text_content rep) empty)) = LoadsFault e ->
  _heuristic_correction a requested_format w = (Raises e, w).
Proof.
  intros Ha Hc Hp. unfold heuristic_candidate in Hc.
  apply andb_prop in Hc as [Hc He]. apply andb_prop in Hc as [Hc Hs].
  apply andb_prop in Hc as [Hf Hn].
  unfold _heuristic_correction. rewrite Hf.
  unfold then_ at 1. unfold deref at 1. rewrite Ha, Hn, Hs, He. cbn [andb].
  rewrite Hp. reflexivity.
Qed.

(** C10, as the claim states it, fails: on a text delimited by braces that
    holds an integer of 4301 digits, [json.loads] raises [ValueError],
    which is no [JSONDecodeError]; the heuristic does not return [None],
    it raises. *)
Lemma heuristic_correction_raises_on_long_integer :
  heuristic_candidate
    (set_text_content universal_representation
       (Some (jq "{'n': " ++ repeat "1"%char 4301 ++ "}"))) "json" = true
  /\ _heuristic_correction (lib:=digit_limit_lib) 0 "json"
       (World [set_text_content universal_representation
                 (Some (jq "{'n': " ++ repeat "1"%char 4301 ++ "}"))] [])
     = (Raises (Exn "ValueError"
          ("Exceeds the limit (4300 digits) for integer string conversion: value has "
           ++ "4301 digits; use sys.set_int_max_str_digits() to increase the limit")),
        World [set_text_content universal_representation
                 (Some (jq "{'n': " ++ repeat "1"%char 4301 ++ "}"))] []).
Proof. split; vm_compute; reflexivity. Qed.

(** C10, amended: the heuristic applies exactly when the format is
    ["json"] and the trimmed [text_content] opens with a brace, closes with
    a brace and parses; it then returns a new object, at an address no
    object had, whose [json_fields] is the parsed value and whose
    [text_content] is [None], the other fields being those of the input.
    It returns [None] for another format, without text, without the
    braces, and when the parse raises [JSONDecodeError]; every other
    exception of the parse is raised to the caller.  In each of these cases
    every object that existed, the input among them, is unchanged. *)
Theorem heuristic_correction_copies {lib : PyLib} (w : world) (a : address)
        (rep : representation) (requested_format : text) :
  nth_error (heap w) a = Some rep ->
  (forall v,
     heuristic_candidate rep requested_format = true ->
     json_loads (strip (or_default (text_content rep) empty)) = Parsed v ->
     exists a' w',
       _heuristic_correction a requested_format w = (Returns (Some a'), w')
       /\ a' <> a
       /\ nth_error (heap w) a' = None
       /\ nth_error (heap w') a' = Some (heuristically_corrected rep v)
       /\ (forall b r, nth_error (heap w) b = Some r -> nth_error (heap w') b = Some r)
       /\ sent w' = sent w)
  /\ (heuristic_candidate rep requested_format = false
      \/ (exists e, json_loads (strip (or_default (text_content rep) empty)) = Undecodable e) ->
      _heuristic_correction a requested_format w = (Returns None, w))
  /\ (forall a' w',
        _heuristic_correction a requested_format w = (Returns (Some a'), w') ->
        heuristic_candidate rep requested_format = true
        /\ exists v, json_loads (strip (or_default (text_content rep) empty)) = Parsed v)
  /\ (forall e,
        heuristic_candidate rep requested_format = true ->
        json_loads (strip (or_default (text_content rep) empty)) = LoadsFault e ->
        _heuristic_correction a requested_format w = (Raises e, w))
  /\ (forall w',
        _heuristic_correction a requested_format w = (Returns None, w') ->
        w' = w
        /\ (heuristic_candidate rep requested_format = false
            \/ exists e, json_loads (strip (or_default (text_content rep) empty))
                         = Undecodable e)).
Proof.
  intros Ha. split; [|split; [|split; [|split]]].
  - intros v Hc Hp. eexists; eexists.
    split; [eapply heuristic_correction_applies; eassumption|].
    cbn [heap sent]. repeat split.
    + intros E. assert (nth_error (heap w) a = None) by (apply nth_error_None; lia).
      congruence.
    + apply nth_error_None, Nat.le_refl.
    + now rewrite nth_error_app2, Nat.sub_diag by apply Nat.le_refl.
    + intros b r Hb. rewrite nth_error_app1; [exact Hb|].
      apply nth_error_Some. congruence.
  - apply heuristic_correction_declines, Ha.
  - intros a' w' H.
    destruct (heuristic_candidate rep requested_format) eqn:Hc.
    + split; [reflexivity|].
      destruct (json_loads (strip (or_default (text_content rep) empty))) as [v|e|e] eqn:Hp.
      * now exists v.
      * rewrite (@heuristic_correction_declines lib w a rep requested_format Ha) in H by (right; now exists e).
        discriminate.
      * rewrite (@heuristic_correction_propagates lib w a rep requested_format e Ha Hc Hp)
          in H. discriminate.
    + rewrite (@heuristic_correction_declines lib w a rep requested_format Ha) in H by now left.
      discriminate.
  - intros e Hc Hp. exact (@heuristic_correction_propagates lib w a rep requested_format e
                             Ha Hc Hp).
  - intros w' H.
    destruct (heuristic_candidate rep requested_format) eqn:Hc.
    + destruct (json_loads (strip (or_default (text_content rep) empty))) as [v|e|e] eqn:Hp.
      * rewrite (@heuristic_correction_applies lib w a rep requested_format v Ha Hc Hp) in H.
        discriminate.
      * rewrite (@heuristic_correction_declines lib w a rep requested_format Ha) in H
          by (right; now exists e).
        injection H as <-. split; [reflexivity | right; now exists e].
      * rewrite (@heuristic_correction_propagates lib w a rep requested_format e Ha Hc Hp)
          in H. discriminate.
    + rewrite (@heuristic_correction_declines lib w a rep requested_format Ha) in H by now left.
      injection H as <-. split; [reflexivity | now left].
Qed.

Lemma heuristic_correction_copies_witness :
  exists a' w',
    _heuristic_correction (lib:=ref_lib) 0 "json"
      (World [set_text_content universal_representation (Some (jq " {'x': 1} "))] [])
    = (Returns (Some a'), w')
    /\ a' <> 0
    /\ nth_error (heap w') 0
       = Some (set_text_content universal_representation (Some (jq " {'x': 1} "))).
Proof.
  destruct (proj1 (@heuristic_correction_copies ref_lib
              (World [set_text_content universal_representation (Some (jq " {'x': 1} "))] [])
              0 (set_text_content universal_representation (Some (jq " {'x': 1} ")))
              "json" eq_refl)
              (JDict [(lit "x", JInt 1)]) eq_refl eq_refl)
    as (a' & w' & H & Hfresh & _ & _ & Hframe & _).
  exists a', w'. split; [exact H|]. split; [exact Hfresh|].
  apply Hframe. reflexivity.
Defined.

(** ** The correction loop *)

Section CorrectionLoop.
Context {lib : PyLib}.
Variable extract : text -> list text.
Variable analyze : text -> text -> outcome json.
Variable llm : list text -> text -> text.
Variables requested_format raw_llm_response : text.
Variable ctx : context.
Variable expected_structure : option text.

(** The body of the loop, case by case: it sends its prompt first, and
    everything after is decided by the answer. *)
Lemma attempt_unfolded (vars : loop_vars) (w : world) :
  let prompt := correction_prompt requested_format raw_llm_response ctx vars in
  let response := llm (sent w) prompt in
  attempt extract analyze llm requested_format raw_llm_response ctx expected_structure
          vars w
  = if startswith response "Error:" then (Returns Break, World (heap w) (prompt :: sent w))
    else
      match parse_llm_output extract analyze response requested_format ctx with
      | Raises e => (Raises e, World (heap w) (prompt :: sent w))
      | Returns parsed =>
          let w' := World (heap w ++ [parsed]) (prompt :: sent w) in
          match transform (get_transformer requested_format) parsed ctx with
          | Raises e => (Raises e, w')
          | Returns rendered =>
              match validate_output rendered requested_format expected_structure with
              | Raises e => (Raises e, w')
              | Returns v =>
                  if is_valid v then (Returns (Return_ rendered), w')
                  else
                    (Returns (Next (LoopVars v
                       match v with
                       | VDict d =>
                           or_default (message d) "Iterative Correction Failed Validation"
                       | VBool _ => lit "Iterative Correction Failed Validation"
                       end rendered)), w')
              end
          end
      end.
Proof.
  intros prompt response. unfold attempt. fold prompt.
  unfold then_ at 1. unfold send_prompt_to_llm. cbn [heap sent]. fold response.
  destruct (startswith response "Error:"); [reflexivity|].
  unfold then_ at 1. unfold lift at 1.
  destruct (parse_llm_output extract analyze response requested_format ctx)
    as [parsed|e]; [|reflexivity].
  unfold then_ at 1. unfold alloc. cbn [heap sent].
  unfold then_ at 1. unfold deref. cbn [heap sent].
  rewrite nth_error_app2, Nat.sub_diag by apply Nat.le_refl. cbn [nth_error].
  unfold then_ at 1. unfold lift at 1.
  destruct (transform (get_transformer requested_format) parsed ctx)
    as [rendered|e]; [|reflexivity].
  unfold then_ at 1. unfold lift at 1.
  destruct (validate_output rendered requested_format expected_structure)
    as [v|e]; [|reflexivity].
  destruct (is_valid v); reflexivity.
Qed.

(** Exactly one round trip to the model per attempt, however it ends. *)
Lemma attempt_sends_one_prompt (vars : loop_vars) (w : world) :
  sent (snd (attempt extract analyze llm requested_format raw_llm_response ctx
                     expected_structure vars w))
  = correction_prompt requested_format raw_llm_response ctx vars :: sent w.
Proof.
  rewrite attempt_unfolded. cbv zeta.
  repeat match goal with
         | |- context [if ?b then _ else _] => destruct b
         | |- context [match ?x with Returns _ => _ | Raises _ => _ end] => destruct x
         end; reflexivity.
Qed.

Lemma attempt_failed (vars vars' : loop_vars) (w w' : world) :
  attempt extract analyze llm requested_format raw_llm_response ctx expected_structure
          vars w = (Returns (Next vars'), w') ->
  rendered_by_latest_attempt extract analyze llm requested_format ctx
                             expected_structure vars' w'.
Proof.
  rewrite attempt_unfolded. cbv zeta. unfold rendered_by_latest_attempt.
  set (prompt := correction_prompt requested_format raw_llm_response ctx vars).
  destruct (startswith (llm (sent w) prompt) "Error:") eqn:Et; [discriminate|].
  destruct (parse_llm_output extract analyze (llm (sent w) prompt) requested_format ctx)
    as [parsed|e] eqn:Ep; [|discriminate].
  destruct (transform (get_transformer requested_format) parsed ctx)
    as [rendered|e] eqn:Er; [|discriminate].
  destruct (validate_output rendered requested_format expected_structure)
    as [v|e] eqn:Ev; [|discriminate].
  destruct (is_valid v) eqn:Ei; [discriminate|].
  intros H. injection H as <- <-. cbn [sent transformed_output validation_result].
  exists prompt, (sent w), parsed. repeat split; assumption.
Qed.

(** The loop never makes more round trips than it has attempts. *)
Lemma iterate_sends_at_most (n : nat) (vars : loop_vars) (w : world) :
  length (sent (snd (iterate extract analyze llm n requested_format raw_llm_response
                             ctx expected_structure vars w)))
  <= length (sent w) + n.
Proof.
  revert vars w. induction n as [|n IH]; intros vars w.
  - cbn. lia.
  - cbn [iterate]. unfold then_.
    pose proof (attempt_sends_one_prompt vars w) as Hs.
    destruct (attempt extract analyze llm requested_format raw_llm_response ctx
                      expected_structure vars w) as [[ending|e] w1].
    + cbn [snd] in Hs. destruct ending as [| output | vars1].
      * cbn. rewrite Hs. cbn. lia.
      * cbn. rewrite Hs. cbn. lia.
      * specialize (IH vars1 w1). rewrite Hs in IH. cbn [length] in IH. lia.
    + cbn [snd] in *. rewrite Hs. cbn. lia.
Qed.

Lemma iterate_when_every_attempt_fails (n : nat) (vars : loop_vars) (w : world) :
  every_attempt_fails extract analyze llm n requested_format raw_llm_response ctx
                      expected_structure vars w = true ->
  exists last w',
    iterate extract analyze llm n requested_format raw_llm_response ctx
            expected_structure vars w
    = (Returns (transformed_output last), w')
    /\ length (sent w') = length (sent w) + n
    /\ (n = 0 -> last = vars /\ w' = w)
    /\ (n <> 0 ->
        rendered_by_latest_attempt extract analyze llm requested_format ctx
                                   expected_structure last w').
Proof.
  revert vars w. induction n as [|n IH]; intros vars w H.
  - exists vars, w. repeat split; [cbn; lia | congruence].
  - cbn [every_attempt_fails] in H. cbn [iterate]. unfold then_.
    pose proof (attempt_sends_one_prompt vars w) as Hs.
    destruct (attempt extract analyze llm requested_format raw_llm_response ctx
                      expected_structure vars w) as [[[| output | vars1]|e] w1] eqn:Ea;
      try discriminate.
    cbn [snd] in Hs.
    destruct (IH vars1 w1 H) as (last & w' & Hi & Hl & H0 & Hn).
    exists last, w'. split; [exact Hi|]. split; [rewrite Hl, Hs; cbn; lia|].
    split; [discriminate|]. intros _.
    destruct n as [|n].
    + destruct (H0 eq_refl) as [-> ->]. exact (attempt_failed _ _ Ea).
    + apply Hn. discriminate.
Qed.

End CorrectionLoop.

Lemma heuristic_correction_sends_nothing {lib : PyLib} (a : address)
      (requested_format : text) (w : world) :
  sent (snd (_heuristic_correction a requested_format w)) = sent w.
Proof.
  unfold _heuristic_correction, copy, then_, deref, alloc, modify, ret, raise.
  repeat match goal with
         | |- context [if ?b then _ else _] => destruct b
         | |- context [match nth_error ?l ?n with _ => _ end] => destruct (nth_error l n)
         | |- context [match json_loads ?t with _ => _ end] => destruct (json_loads t)
         end; reflexivity.
Qed.

(** The heuristic phase makes no round trip to the model. *)
Lemma heuristic_phase_sends_nothing {lib : PyLib} (a : address)
      (requested_format : text) (ctx : context) (v : validation) (w : world) :
  sent (snd (heuristic_phase a requested_format ctx v w)) = sent w.
Proof.
  unfold heuristic_phase. unfold then_ at 1.
  pose proof (heuristic_correction_sends_nothing a requested_format w) as Hs.
  destruct (_heuristic_correction a requested_format w) as [[[corrected|]|e] w1];
    cbn [snd] in Hs; try exact Hs.
  unfold then_, deref, lift, ret, getitem.
  repeat match goal with
         | |- context [match nth_error ?l ?n with _ => _ end] => destruct (nth_error l n)
         | |- context [match transform ?t ?r ?c with _ => _ end] => destruct (transform t r c)
         | |- context [match validate_output ?o ?f ?e with _ => _ end] =>
             destruct (validate_output o f e) as [[[|]|[[[|]|] ? ? ? ? ? ? ?]]|]
         end; exact Hs.
Qed.

(** C1: in a run of [correct_output] whose heuristic phase does not return
    and whose attempts all end in a failed re-validation (no transport
    error, no exception), the model client is called exactly
    [ERROR_CORRECTION_RETRIES] times, and the function returns, without
    raising, the text the last attempt rendered. *)
Theorem correct_output_spends_the_budget {lib : PyLib} (extract : text -> list text)
        (analyze : text -> text -> outcome json) (llm : list text -> text -> text)
        (a : address) (requested_format raw_llm_response : text) (ctx : context)
        (v0 : validation) (w : world) (vars : loop_vars) (w1 : world) :
  heuristic_phase a requested_format ctx v0 w = (Returns (inr vars), w1) ->
  every_attempt_fails extract analyze llm ERROR_CORRECTION_RETRIES requested_format
                      raw_llm_response ctx (expected_structure_of requested_format ctx)
                      vars w1 = true ->
  exists last w',
    correct_output extract analyze llm a requested_format raw_llm_response ctx v0 w
    = (Returns (transformed_output last), w')
    /\ length (sent w') = length (sent w) + ERROR_CORRECTION_RETRIES
    /\ ERROR_CORRECTION_RETRIES = 4
    /\ rendered_by_latest_attempt extract analyze llm requested_format ctx
                                  (expected_structure_of requested_format ctx) last w'.
Proof.
  intros Hh Hf.
  destruct (iterate_when_every_attempt_fails _ _ _ _ _ _ _ _ _ _ Hf)
    as (last & w' & Hi & Hl & _ & Hn).
  exists last, w'. split; [|split; [|split]].
  - unfold correct_output, then_. rewrite Hh. exact Hi.
  - pose proof (heuristic_phase_sends_nothing a requested_format ctx v0 w) as Hs.
    rewrite Hh in Hs. cbn [snd] in Hs. now rewrite Hl, Hs.
  - reflexivity.
  - apply Hn. discriminate.
Qed.

(** No run makes more than [ERROR_CORRECTION_RETRIES] round trips. *)
Lemma correct_output_sends_at_most {lib : PyLib} (extract : text -> list text)
      (analyze : text -> text -> outcome json) (llm : list text -> text -> text)
      (a : address) (requested_format raw_llm_response : text) (ctx : context)
      (v0 : validation) (w : world) :
  length (sent (snd (correct_output extract analyze llm a requested_format
                                    raw_llm_response ctx v0 w)))
  <= length (sent w) + ERROR_CORRECTION_RETRIES.
Proof.
  unfold correct_output, then_.
  pose proof (heuristic_phase_sends_nothing a requested_format ctx v0 w) as Hs.
  destruct (heuristic_phase a requested_format ctx v0 w) as [[[output|vars]|e] w1];
    cbn [snd] in Hs.
  - cbn. rewrite Hs. lia.
  - rewrite <- Hs. apply iterate_sends_at_most.
  - cbn. rewrite Hs. lia.
Qed.

Lemma correct_output_spends_the_budget_witness :
  exists last w',
    correct_output (lib:=ref_lib) (fun _ => []) (fun _ _ => Returns JNull)
      (fun _ _ => jq "{'a':1}") 0 "json" (jq "{'a':1}")
      (Context (Some (lit "List the items as a JSON array")) None None)
      (VDict (invalid "JSONStructureError"
                      "Expected a JSON array, but got a JSON object."))
      (World [set_json_fields universal_representation
                (Some (JDict [(lit "a", JInt 1)]))] [])
    = (Returns (transformed_output last), w')
    /\ length (sent w') = 4.
Proof.
  edestruct (@correct_output_spends_the_budget ref_lib (fun _ => [])
               (fun _ _ => Returns JNull) (fun _ _ => jq "{'a':1}") 0 "json"
               (jq "{'a':1}")
               (Context (Some (lit "List the items as a JSON array")) None None)
               (VDict (invalid "JSONStructureError"
                               "Expected a JSON array, but got a JSON object."))
               (World [set_json_fields universal_representation
                         (Some (JDict [(lit "a", JInt 1)]))] []))
    as (last & w' & H & Hl & _).
  - vm_compute. reflexivity.
  - vm_compute. reflexivity.
  - exists last, w'. split; [exact H | exact Hl].
Defined.

(* ================================================================== *)
(** * Further properties of the normalizer *)
(* ================================================================== *)

Lemma text_eqb_eq (a b : text) : text_eqb a b = true <-> a = b.
Proof.
  revert b. induction a as [|x a IH]; intros [|y b]; cbn [text_eqb];
    try (split; [discriminate | discriminate]); [split; reflexivity|].
  rewrite andb_true_iff, Ascii.eqb_eq, IH. split.
  - intros [-> ->]. reflexivity.
  - intros [= -> ->]. split; reflexivity.
Qed.

Lemma replace_at_occurrence (x y z : ascii) (s new : text) :
  replace (x :: y :: z :: s) [x; y; z] new = new ++ replace s [x; y; z] new.
Proof.
  unfold replace. cbn [replace_go]. unfold startswith. cbn [prefix_match char_eq].
  rewrite !Ascii.eqb_refl. reflexivity.
Qed.

Lemma replace_elsewhere (old new : text) (c : ascii) (s : text) :
  startswith (c :: s) old = false ->
  replace (c :: s) old new = c :: replace s old new.
Proof. unfold replace. cbn [replace_go]. now intros ->. Qed.

Lemma fence_start_iff (s : text) :
  startswith s "```" = true <-> 3 <= leading_backticks s.
Proof.
  unfold startswith.
  destruct s as [|a [|b [|c s']]];
    cbn [lit list_ascii_of_string prefix_match char_eq leading_backticks];
    repeat match goal with
           | |- context [Ascii.eqb ?u ?v] => destruct (Ascii.eqb u v)
           end;
    split; intros H; try discriminate; try lia; reflexivity.
Qed.

Lemma fence_start_shape (s : text) :
  startswith s "```" = true ->
  exists s', s = "`"%char :: "`"%char :: "`"%char :: s'.
Proof.
  unfold startswith.
  destruct s as [|a [|b [|c s']]];
    cbn [lit list_ascii_of_string prefix_match char_eq]; try discriminate;
    destruct (Ascii.eqb_spec "`" a); try discriminate;
    destruct (Ascii.eqb_spec "`" b); try discriminate;
    destruct (Ascii.eqb_spec "`" c); try discriminate.
  subst. intros _. now exists s'.
Qed.

(** Removing the triple backticks of a text leaves the backtick runs
    apart, each cut down to fewer than three. *)
Lemma replace_fences_runs (n : nat) (s : text) :
  length s <= n ->
  leading_backticks (replace s "```" empty) = leading_backticks s mod 3
  /\ contains (replace s "```" empty) "```" = false.
Proof.
  revert s. induction n as [|n IH]; intros s Hn.
  - destruct s; [|cbn in Hn; lia]. split; reflexivity.
  - destruct (startswith s "```") eqn:E.
    + destruct (fence_start_shape s E) as [s' ->].
      change (lit "```") with ["`"%char; "`"%char; "`"%char].
      rewrite replace_at_occurrence. cbn [empty app].
      change ["`"%char; "`"%char; "`"%char] with (lit "```").
      destruct (IH s') as [H1 H2]; [cbn [length] in Hn; lia|].
      split; [|exact H2]. rewrite H1. cbn [leading_backticks Ascii.eqb Bool.eqb].
      replace (S (S (S (leading_backticks s')))) with (leading_backticks s' + 1 * 3) by lia.
      now rewrite Nat.Div0.mod_add.
    + destruct s as [|c s']; [split; reflexivity|].
      rewrite replace_elsewhere by exact E.
      destruct (IH s') as [H1 H2]; [cbn [length] in Hn; lia|].
      assert (Hlt : leading_backticks (c :: s') < 3).
      { destruct (Nat.lt_ge_cases (leading_backticks (c :: s')) 3) as [H|H]; [exact H|].
        apply fence_start_iff in H. congruence. }
      assert (Hlead : leading_backticks (c :: replace s' "```" empty)
                      = leading_backticks (c :: s') mod 3).
      { rewrite (Nat.mod_small _ 3 Hlt). cbn [leading_backticks] in *.
        destruct (Ascii.eqb "`" c); [|reflexivity].
        rewrite H1. rewrite Nat.mod_small by lia. reflexivity. }
      split; [exact Hlead|].
      cbn [contains]. rewrite H2, orb_false_r.
      destruct (startswith (c :: replace s' "```" empty) "```") eqn:E'; [|reflexivity].
      apply fence_start_iff in E'. rewrite Hlead in E'.
      pose proof (Nat.mod_upper_bound (leading_backticks (c :: s')) 3). lia.
Qed.

(** X1: what [_remove_triple_backticks] returns holds no triple backtick,
    and applying it again changes nothing. *)
Theorem remove_triple_backticks_leaves_none (t : text) :
  contains (_remove_triple_backticks t) "```" = false
  /\ _remove_triple_backticks (_remove_triple_backticks t) = _remove_triple_backticks t.
Proof.
  assert (H : contains (_remove_triple_backticks t) "```" = false).
  { unfold _remove_triple_backticks.
    exact (proj2 (@replace_fences_runs _ (sub false fence_pattern repl_empty t)
                                       (Nat.le_refl _))). }
  split; [exact H|].
  unfold _remove_triple_backticks at 1.
  rewrite sub_without_match by (apply no_fence_no_match; exact H).
  apply replace_absent. exact H.
Qed.

(** X2: [_cleanup_common_artifacts] never returns a longer text than it
    was given, and what it returns has no leading or trailing
    whitespace. *)
Theorem cleanup_never_lengthens (x : text) :
  length (_cleanup_common_artifacts x) <= length x
  /\ strip (_cleanup_common_artifacts x) = _cleanup_common_artifacts x.
Proof.
  split; [|apply cleanup_is_stripped].
  unfold _cleanup_common_artifacts.
  pose proof (sub_by_nothing_length false fence_pattern x) as L1.
  pose proof (replace_by_nothing_length (sub false fence_pattern repl_empty x) "```") as L2.
  pose proof (strip_length (replace (sub false fence_pattern repl_empty x) "```" empty)) as L3.
  set (t3 := strip (replace (sub false fence_pattern repl_empty x) "```" empty)) in *.
  destruct (wrapper_sub_length t3) as [L4 _].
  set (t4 := sub false result_wrapper_pattern repl_group1 t3) in *.
  destruct (@disclaimers_removed_length disclaimers t4 disclaimers_consuming) as [L5 _].
  set (t7 := fold_left (fun t pattern => sub true pattern repl_empty t) disclaimers t4) in *.
  pose proof (strip_length t7) as L6. lia.
Qed.

Lemma replace_char_by_itself (s : text) (c : ascii) : replace s [c] [c] = s.
Proof.
  unfold replace. induction s as [|x s IH]; cbn [replace_go].
  - unfold startswith. reflexivity.
  - unfold startswith. cbn [prefix_match char_eq length].
    destruct (Ascii.eqb_spec c x) as [->|_]; cbn [app]; now rewrite IH.
Qed.

Lemma replace_char_removes_it (s new : text) (c : ascii) :
  ~ In c new -> ~ In c (replace s [c] new).
Proof.
  intros Hn. unfold replace. induction s as [|x s IH]; cbn [replace_go].
  - unfold startswith. cbn. tauto.
  - unfold startswith. cbn [prefix_match char_eq length].
    destruct (Ascii.eqb_spec c x) as [->|Hx].
    + intros H. apply in_app_or in H as [H|H]; [exact (Hn H) | exact (IH H)].
    + intros [H|H]; [congruence | exact (IH H)].
Qed.

(** X3: [_minimal_html] escapes nothing: its two replacements put each
    angle bracket back, so the paragraph holds the text as
    [_remove_triple_backticks] leaves it, markup characters included. *)
Theorem minimal_html_embeds_text_unescaped (original_text : text) :
  _minimal_html original_text
  = "<html><body><p>" ++ _remove_triple_backticks original_text ++ "</p></body></html>".
Proof.
  unfold _minimal_html.
  change (lit "<") with ["<"%char]. change (lit ">") with [">"%char].
  now rewrite !replace_char_by_itself.
Qed.

(** X4: for a representation that holds only text, the markup renderer
    returns one paragraph in which each line break has become [<br>] and
    nothing else has changed: no markup character is escaped, and no line
    break is left. *)
Theorem html_transformer_wraps_text_unescaped (rep : representation) (ctx : context)
        (t : text) :
  html_content rep = None -> json_fields rep = None -> text_content rep = Some t ->
  HTMLTransformer_transform rep ctx = Returns ("<p>" ++ replace t [nl] "<br>" ++ "</p>")
  /\ ~ In nl ("<p>" ++ replace t [nl] "<br>" ++ "</p>").
Proof.
  intros Hh Hj Ht. split.
  - unfold HTMLTransformer_transform. rewrite Hh, Hj, Ht.
    change (lit "<") with ["<"%char]. change (lit ">") with [">"%char].
    change (lit "&") with ["&"%char].
    rewrite !replace_char_by_itself. f_equal.
    change (lit "<p>") with ("<"%char :: lit "p>").
    change (lit "</p>") with (lit "</p" ++ [">"%char]).
    cbn [app]. rewrite !app_assoc. now apply strip_delimited.
  - intros H. apply in_app_or in H as [H|H].
    + cbv in H. intuition discriminate.
    + apply in_app_or in H as [H|H].
      * revert H. apply replace_char_removes_it. cbv. intuition discriminate.
      * cbv in H. intuition discriminate.
Qed.

Lemma html_transformer_wraps_text_unescaped_witness :
  HTMLTransformer_transform
    (set_text_content universal_representation (Some ("a < b" ++ nl :: "c & d")))
    (Context None None None)
  = Returns (lit "<p>a < b<br>c & d</p>").
Proof.
  refine (eq_trans
            (proj1 (@html_transformer_wraps_text_unescaped _ (Context None None None)
                      ("a < b" ++ nl :: "c & d") _ _ _)) _).
  - reflexivity.
  - reflexivity.
  - reflexivity.
  - vm_compute. reflexivity.
Defined.

(* ================================================================== *)
(** * Further properties of the transformers *)
(* ================================================================== *)

(** X5: with the intent [code_only], each of the sixteen transformers that
    render code returns the snippets joined by line breaks and trimmed,
    whatever the text content is, and so the empty string when there is no
    snippet; when [code_snippets] is [None] it raises [TypeError]. *)
Theorem code_only_renders_snippets_alone {lib : PyLib} (t : transformer)
        (rep : representation) (ctx : context) :
  renders_code t = true ->
  code_only ctx = true ->
  transform t rep ctx
  = match code_snippets rep with
    | Some snippets => Returns (strip (join [nl] snippets))
    | None => Raises (TypeError "can only join an iterable")
    end.
Proof.
  intros Ht Hc.
  destruct t; try discriminate Ht; cbn [transform];
    unfold PythonTransformer_transform, commented_transform; rewrite Hc;
    destruct (code_snippets rep); reflexivity.
Qed.

Lemma code_only_renders_snippets_alone_witness :
  transform (lib:=ref_lib) SwiftTransformer
    (set_text_content (set_code_snippets universal_representation (Some []))
                      (Some (lit "no code here")))
    (Context None (Some (lit "code_only")) None)
  = Returns empty.
Proof.
  exact (@code_only_renders_snippets_alone ref_lib SwiftTransformer
           (set_text_content (set_code_snippets universal_representation (Some []))
                             (Some (lit "no code here")))
           (Context None (Some (lit "code_only")) None) eq_refl eq_refl).
Defined.

Lemma parse_then_render_for_language {lib : PyLib} (extract : text -> list text)
      (analyze : text -> text -> outcome json) (response requested_format : text)
      (ctx : context) (profile : json) :
  In (lower requested_format) (lit "htmljavascript" :: comment_languages) ->
  analyze (_cleanup_common_artifacts response) requested_format = Returns profile ->
  (rep <- parse_llm_output extract analyze response requested_format ctx ;;
   transform (get_transformer requested_format) rep ctx)
  = transform (get_transformer requested_format)
      (Representation (Some (_cleanup_common_artifacts response)) None None None
                      (Some profile) None) ctx.
Proof.
  intros Hin Ha. unfold parse_llm_output.
  assert (E : text_eqb (lower requested_format) "json" = false
              /\ text_eqb (lower requested_format) "html" = false
              /\ text_eqb (lower requested_format) "python" = false).
  { cbv [comment_languages map] in Hin. cbn [In] in Hin.
    repeat (destruct Hin as [<-|Hin]; [repeat split|]). contradiction. }
  destruct E as (-> & -> & ->). cbn [bind]. rewrite Ha. reflexivity.
Qed.

(** X6: rendering what [parse_llm_output] returns raises [TypeError] for
    the format [htmljavascript], whatever the intent, and for each of the
    fifteen other languages when the intent is [code_only]: the parser
    fills [code_snippets] for no format but [python]. *)
Theorem rendering_parsed_output_raises {lib : PyLib} (extract : text -> list text)
        (analyze : text -> text -> outcome json) (response requested_format : text)
        (ctx : context) (profile : json) :
  analyze (_cleanup_common_artifacts response) requested_format = Returns profile ->
  lower requested_format = lit "htmljavascript"
  \/ (In (lower requested_format) comment_languages /\ code_only ctx = true) ->
  (rep <- parse_llm_output extract analyze response requested_format ctx ;;
   transform (get_transformer requested_format) rep ctx)
  = Raises (TypeError "can only join an iterable").
Proof.
  intros Ha H.
  rewrite (@parse_then_render_for_language lib extract analyze response requested_format
             ctx profile); [|destruct H as [<-|[H _]]; [now left | now right] | exact Ha].
  unfold get_transformer.
  destruct H as [->|[Hin Hc]]; [reflexivity|].
  cbv [comment_languages map] in Hin. cbn [In] in Hin.
  repeat (destruct Hin as [<-|Hin];
          [match goal with
           | |- context [dict_get TRANSFORMER_MAP ?k] =>
               let v := eval vm_compute in (dict_get TRANSFORMER_MAP k) in
               change (dict_get TRANSFORMER_MAP k) with v
           end;
           cbn [transform]; unfold commented_transform; rewrite Hc; reflexivity|]).
  contradiction.
Qed.

Lemma rendering_parsed_output_raises_witness :
  (rep <- parse_llm_output (lib:=ref_lib) (fun _ => []) (fun _ _ => Returns JNull)
            "<div>hi</div>" "HTMLJavaScript" (Context None None None) ;;
   transform (lib:=ref_lib) (get_transformer "HTMLJavaScript") rep
             (Context None None None))
  = Raises (TypeError "can only join an iterable").
Proof.
  apply (@rendering_parsed_output_raises ref_lib (fun _ => []) (fun _ _ => Returns JNull)
           "<div>hi</div>" "HTMLJavaScript" (Context None None None) JNull).
  - reflexivity.
  - left. vm_compute. reflexivity.
Defined.

(** X7: for each of the fifteen languages other than Python, and an
    intent other than [code_only], rendering what [parse_llm_output]
    returns yields no code: it is the whole cleaned response turned into a
    comment in the language's style, or the empty string when the cleaned
    response is empty. *)
Theorem rendering_parsed_output_comments_everything {lib : PyLib}
        (extract : text -> list text) (analyze : text -> text -> outcome json)
        (response requested_format : text) (ctx : context) (profile : json) :
  analyze (_cleanup_common_artifacts response) requested_format = Returns profile ->
  In (lower requested_format) comment_languages ->
  code_only ctx = false ->
  exists opens continues closes,
    comment_style (get_transformer requested_format) = Some (opens, continues, closes)
    /\ (rep <- parse_llm_output extract analyze response requested_format ctx ;;
        transform (get_transformer requested_format) rep ctx)
       = Returns (strip match _cleanup_common_artifacts response with
                        | [] => []
                        | cleaned =>
                            opens ++ replace cleaned [nl] (nl :: continues) ++ closes
                        end).
Proof.
  intros Ha Hin Hc.
  rewrite (@parse_then_render_for_language lib extract analyze response requested_format
             ctx profile); [|now right | exact Ha].
  unfold get_transformer.
  cbv [comment_languages map] in Hin. cbn [In] in Hin.
  repeat (destruct Hin as [<-|Hin];
          [match goal with
           | |- context [dict_get TRANSFORMER_MAP ?k] =>
               let v := eval vm_compute in (dict_get TRANSFORMER_MAP k) in
               change (dict_get TRANSFORMER_MAP k) with v
           end;
           do 3 eexists; split; [reflexivity|];
           cbn [transform]; unfold commented_transform; rewrite Hc;
           cbn [code_snippets text_content nonempty];
           destruct (_cleanup_common_artifacts response); reflexivity|]).
  contradiction.
Qed.

Lemma rendering_parsed_output_comments_everything_witness :
  (rep <- parse_llm_output (lib:=ref_lib) (fun _ => []) (fun _ _ => Returns JNull)
            ("```sql" ++ nl :: "SELECT 1;" ++ nl :: "```" ++ nl :: "It selects one.")
            "SQL" (Context None (Some (lit "code_with_explanation")) None) ;;
   transform (lib:=ref_lib) (get_transformer "SQL") rep
             (Context None (Some (lit "code_with_explanation")) None))
  = Returns ("-- SELECT 1;" ++ nl :: "-- It selects one.").
Proof.
  destruct (@rendering_parsed_output_comments_everything ref_lib (fun _ => [])
              (fun _ _ => Returns JNull)
              ("```sql" ++ nl :: "SELECT 1;" ++ nl :: "```" ++ nl :: "It selects one.")
              "SQL" (Context None (Some (lit "code_with_explanation")) None) JNull)
    as (opens & continues & closes & Hs & Hr).
  - reflexivity.
  - vm_compute. do 3 right. left. reflexivity.
  - reflexivity.
  - rewrite Hr. vm_compute in Hs. injection Hs as <- <- <-. vm_compute. reflexivity.
Defined.

(** X8: the JSON renderer returns on every representation, and what it
    returns is always the trimmed output of [json.dumps]: of [json_fields]
    when there is one, of something else otherwise, an error object when
    [json.loads] raises anything but [JSONDecodeError]. *)
Theorem json_transformer_always_dumps {lib : PyLib} (rep : representation)
        (ctx : context) :
  exists v,
    transform JSONTransformer rep ctx = Returns (strip (json_dumps v))
    /\ match json_fields rep, text_content rep with
       | Some fields, _ => v = fields
       | None, None => v = JDict [(lit "error", JStr "No data to transform to JSON.")]
       | None, Some t =>
           match json_loads t with
           | Parsed parsed => v = parsed
           | Undecodable _ => v = JDict [(lit "result", JStr t)]
           | LoadsFault e => v = JDict [(lit "error", JStr (exn_msg e))]
           end
       end.
Proof.
  cbn [transform]. unfold JSONTransformer_transform.
  destruct (json_fields rep) as [fields|]; [eexists; split; reflexivity|].
  destruct (text_content rep) as [t|]; [|eexists; split; reflexivity].
  destruct (json_loads t); eexists; split; reflexivity.
Qed.

(** X9: when [json_fields] is a list whose first element is not a record,
    or that holds a later element that is not a record while the first has
    a key, the markup renderer does not raise and returns no table: it
    returns one paragraph carrying the message of the [AttributeError]. *)
Theorem html_transformer_reports_malformed_records (rep : representation)
        (ctx : context) (first : json) (others : list json) :
  html_content rep = None ->
  json_fields rep = Some (JList (first :: others)) ->
  (is_dict first = false ->
   HTMLTransformer_transform rep ctx
   = Returns ("<p>Error converting JSON to HTML: '" ++ type_name first
              ++ "' object has no attribute 'keys'</p>"))
  /\ (forall key value pairs records odd later,
        first = JDict ((key, value) :: pairs) ->
        others = map JDict records ++ odd :: later ->
        is_dict odd = false ->
        HTMLTransformer_transform rep ctx
        = Returns ("<p>Error converting JSON to HTML: '" ++ type_name odd
                   ++ "' object has no attribute 'get'</p>")).
Proof.
  intros Hh Hj. unfold HTMLTransformer_transform. rewrite Hh, Hj. split.
  - intros Hd. destruct first; try discriminate Hd; reflexivity.
  - intros key value pairs records odd later -> -> Hd.
    assert (Hrows : forall keys k rs,
               body_rows (k :: keys) (map JDict rs ++ odd :: later)
               = Raises (AttributeError (type_name odd) "get")).
    { intros keys k rs. induction rs as [|r rs IH]; cbn [map app body_rows].
      - destruct odd; try discriminate Hd; reflexivity.
      - rewrite row_cells_of_record. cbn [bind]. rewrite IH. reflexivity. }
    cbn [map fst].
    change (JDict ((key, value) :: pairs) :: map JDict records ++ odd :: later)
      with (map JDict (((key, value) :: pairs) :: records) ++ odd :: later).
    rewrite Hrows. cbn [bind]. destruct odd; try discriminate Hd; reflexivity.
Qed.

Lemma html_transformer_reports_malformed_records_witness :
  HTMLTransformer_transform
    (set_json_fields universal_representation (Some (JList [JInt 1; JInt 2])))
    (Context None None None)
  = Returns (lit "<p>Error converting JSON to HTML: 'int' object has no attribute 'keys'</p>").
Proof.
  exact (proj1 (@html_transformer_reports_malformed_records
                  (set_json_fields universal_representation
                                   (Some (JList [JInt 1; JInt 2])))
                  (Context None None None) (JInt 1) [JInt 2] eq_refl eq_refl) eq_refl).
Defined.

(* ================================================================== *)
(** * Further properties of the validator *)
(* ================================================================== *)

Lemma lower_char_idempotent (c : ascii) : lower_char (lower_char c) = lower_char c.
Proof. destruct c as [[] [] [] [] [] [] [] []]; reflexivity. Qed.

Lemma lower_idempotent (s : text) : lower (lower s) = lower s.
Proof.
  unfold lower. rewrite map_map. apply map_ext. apply lower_char_idempotent.
Qed.

Lemma known_format_is_lower_case (requested_format : text) :
  known_format requested_format = true -> lower requested_format = requested_format.
Proof.
  unfold known_format. rewrite !orb_true_iff, !text_eqb_eq.
  intros [[[->| ->]| ->]| ->]; reflexivity.
Qed.

Lemma unknown_format_reported {lib : PyLib} (transformed_output
      requested_format : text) (expected_structure : option text) :
  known_format requested_format = true
  \/ validate_output transformed_output requested_format expected_structure
     = Returns (VDict (invalid "UnknownFormat"
                               ("Unknown format for validation: " ++ requested_format))).
Proof.
  unfold known_format, validate_output, format_check.
  destruct (text_eqb requested_format "json"); [now left|].
  destruct (text_eqb requested_format "html"); [now left|].
  destruct (text_eqb requested_format "python"); [now left|].
  destruct (text_eqb requested_format "plaintext"); [now left|].
  now right.
Qed.

(** X10: [get_transformer] looks a format name up without regard to case,
    [validate_output] compares it exactly: a name with an upper-case
    letter, such as [JSON], selects the transformer of its lower-case form,
    and whatever that transformer renders is reported as [UnknownFormat]. *)
Theorem format_name_case_is_validated_exactly {lib : PyLib} (transformed_output
        requested_format : text) (expected_structure : option text) :
  lower requested_format <> requested_format ->
  get_transformer requested_format = get_transformer (lower requested_format)
  /\ validate_output transformed_output requested_format expected_structure
     = Returns (VDict (invalid "UnknownFormat"
                               ("Unknown format for validation: " ++ requested_format))).
Proof.
  intros Hl. split.
  - unfold get_transformer. now rewrite lower_idempotent.
  - destruct (unknown_format_reported transformed_output requested_format
                expected_structure) as [Hk|Hu]; [|exact Hu].
    now apply known_format_is_lower_case in Hk.
Qed.

Lemma format_name_case_is_validated_exactly_witness :
  get_transformer "JSON" = JSONTransformer
  /\ validate_output (lib:=ref_lib) (jq "{'a': 1}") "JSON" None
     = Returns (VDict (invalid "UnknownFormat" "Unknown format for validation: JSON")).
Proof.
  destruct (@format_name_case_is_validated_exactly ref_lib (jq "{'a': 1}") "JSON" None)
    as [Ht Hv].
  - vm_compute. discriminate.
  - split; [rewrite Ht; reflexivity | exact Hv].
Defined.

(** X11: [validate_json] returns [True] exactly when the text parses and
    the expected structure does not contradict the value: ["array"] for a
    value that is no list, ["object"] for a value that is no dict.  Any
    other expected structure, the empty string included, is ignored. *)
Theorem validate_json_accepts_exactly {lib : PyLib} (output : text)
        (expected_structure : option text) :
  validate_json output expected_structure = Returns (VBool true)
  <-> exists parsed,
        json_loads output = Parsed parsed
        /\ (expected_structure = Some (lit "array") -> is_list parsed = true)
        /\ (expected_structure = Some (lit "object") -> is_dict parsed = true).
Proof.
  unfold validate_json. split.
  - destruct (json_loads output) as [parsed|e|e]; try discriminate.
    intros H. exists parsed. split; [reflexivity|].
    split; intros ->; cbn in H.
    + destruct (is_list parsed); [reflexivity | discriminate].
    + destruct (is_dict parsed); [reflexivity | discriminate].
  - intros (parsed & -> & Ha & Ho).
    destruct (nonempty expected_structure); [|reflexivity].
    destruct (is_str expected_structure "array") eqn:Ea.
    + destruct expected_structure as [e|]; [|discriminate].
      cbn [is_str] in Ea. apply text_eqb_eq in Ea. subst e.
      rewrite (Ha eq_refl). reflexivity.
    + cbn [andb]. destruct (is_str expected_structure "object") eqn:Eo; [|reflexivity].
      destruct expected_structure as [e|]; [|discriminate].
      cbn [is_str] in Eo. apply text_eqb_eq in Eo. subst e.
      rewrite (Ho eq_refl). reflexivity.
Qed.

Lemma validate_json_accepts_exactly_witness :
  validate_json (lib:=ref_lib) "[1, 2]" (Some (lit "list")) = Returns (VBool true).
Proof.
  apply (proj2 (@validate_json_accepts_exactly ref_lib "[1, 2]" (Some (lit "list")))).
  exists (JList [JInt 1; JInt 2]). split; [vm_compute; reflexivity|].
  split; discriminate.
Defined.

(** X12: a report of [validate_output] allows the fallback exactly when
    the requested format is [html]: both reports of the markup check carry
    [fallback_ok] true, and no other report carries the key. *)
Theorem fallback_is_allowed_for_html_only {lib : PyLib} (transformed_output
        requested_format : text) (expected_structure : option text) (d : report) :
  validate_output transformed_output requested_format expected_structure
  = Returns (VDict d) ->
  (requested_format = lit "html" -> fallback_ok d = Some true)
  /\ (requested_format <> lit "html" -> fallback_ok d = None).
Proof.
  unfold validate_output, format_check.
  destruct (text_eqb requested_format "json") eqn:Ej.
  { apply text_eqb_eq in Ej. subst. unfold validate_json.
    destruct (json_loads transformed_output) as [parsed|e|e].
    - destruct (nonempty expected_structure);
        [destruct (is_str expected_structure "array" && negb (is_list parsed));
         [|destruct (is_str expected_structure "object" && negb (is_dict parsed))]|];
        intros [= <-]; split; intros H; try discriminate H; reflexivity.
    - intros [= <-]; split; intros H; try discriminate H; reflexivity.
    - intros [= <-]; split; intros H; try discriminate H; reflexivity. }
  destruct (text_eqb requested_format "html") eqn:Eh.
  { apply text_eqb_eq in Eh. subst. unfold validate_html.
    destruct (BeautifulSoup transformed_output) as [soup|e];
      [destruct (soup_find soup); cbn [negb]|];
      intros [= <-]; split; intros H; try reflexivity; now contradiction H. }
  assert (Hn : requested_format <> lit "html").
  { intros ->. discriminate Eh. }
  destruct (text_eqb requested_format "python").
  { unfold validate_python. destruct (py_compile transformed_output);
      intros [= <-]; split; intros H; try reflexivity; now contradiction Hn. }
  destruct (text_eqb requested_format "plaintext"); [discriminate|].
  intros [= <-]; split; intros H; try reflexivity; now contradiction Hn.
Qed.

Lemma fallback_is_allowed_for_html_only_witness :
  exists d,
    validate_output (lib:=ref_lib) (jq "{'a': ") "json" None = Returns (VDict d)
    /\ fallback_ok d = None.
Proof.
  eexists. split; [vm_compute; reflexivity|].
  refine (proj2 (@fallback_is_allowed_for_html_only ref_lib (jq "{'a': ") "json" None
                   _ _) _).
  - vm_compute. reflexivity.
  - discriminate.
Defined.

(* ================================================================== *)
(** * Further properties of the corrector *)
(* ================================================================== *)

(** X13: every correction prompt, whichever template builds it, ends with
    [Previous response: ] and the raw response [correct_output] was
    called with, followed only by the code-only instruction when the
    intent is [code_only].  What precedes is built from the format, the
    context, the latest validation report and the latest error message:
    the text an attempt rendered enters the next prompt through the report
    and the message only. *)
Theorem correction_prompt_quotes_first_response (requested_format raw_llm_response : text)
        (ctx : context) (vars : loop_vars) :
  (exists instruction,
     correction_prompt requested_format raw_llm_response ctx vars
     = instruction ++ "Previous response: " ++ raw_llm_response
       ++ (if code_only ctx then lit " Return only the code, with no additional text"
           else []))
  /\ (forall rendered,
        correction_prompt requested_format raw_llm_response ctx
          (LoopVars (validation_result vars) (last_error vars) rendered)
        = correction_prompt requested_format raw_llm_response ctx vars).
Proof.
  split; [|reflexivity].
  unfold correction_prompt, specific_prompt, _construct_json_correction_prompt,
    _construct_json_structure_prompt, _construct_html_correction_prompt,
    _construct_python_correction_prompt, _construct_format_correction_prompt.
  destruct (code_only ctx); destruct (validation_result vars) as [b|d];
    try destruct (error_type d) as [kind|]; try destruct (message d) as [msg|];
    cbn [is_str or_default];
    repeat match goal with
           | |- context [text_eqb ?a ?b] => destruct (text_eqb a b)
           | |- context [contains ?a ?b] => destruct (contains a b)
           end;
    cbn [orb];
    eexists; rewrite ?app_nil_r, !app_assoc; reflexivity.
Qed.

Section EarlyExits.
Context {lib : PyLib}.
Variable extract : text -> list text.
Variable analyze : text -> text -> outcome json.
Variable llm : list text -> text -> text.
Variables requested_format raw_llm_response : text.
Variable ctx : context.

Lemma iterate_after_failures (expected_structure : option text) (k n : nat)
      (vars vars_k : loop_vars) (w w_k : world) :
  state_after_failures extract analyze llm k requested_format raw_llm_response ctx
                       expected_structure vars w = Some (vars_k, w_k) ->
  iterate extract analyze llm (k + n) requested_format raw_llm_response ctx
          expected_structure vars w
  = iterate extract analyze llm n requested_format raw_llm_response ctx
            expected_structure vars_k w_k
  /\ length (sent w_k) = length (sent w) + k.
Proof.
  revert vars w. induction k as [|k IH]; intros vars w; cbn [state_after_failures].
  - intros [= -> ->]. split; [reflexivity | lia].
  - pose proof (attempt_sends_one_prompt extract analyze llm requested_format
                  raw_llm_response ctx expected_structure vars w) as Hs.
    cbn [Nat.add iterate]. unfold then_.
    destruct (attempt extract analyze llm requested_format raw_llm_response ctx
                      expected_structure vars w) as [[[| output | vars1]|e] w1];
      try discriminate.
    cbn [snd] in Hs. intros H. destruct (IH vars1 w1 H) as [Hi Hl].
    split; [exact Hi|]. rewrite Hl, Hs. cbn [length]. lia.
Qed.

(** X14: when the model client answers with a transport error after [k]
    failed attempts, the loop stops at once: [correct_output] returns,
    after [k + 1] calls, the text rendered by the attempt before, or what
    the heuristic phase left when there was none. *)
Theorem correct_output_stops_at_transport_error (a : address) (v0 : validation)
        (w : world) (vars : loop_vars) (w1 : world) (k : nat) (vars_k : loop_vars)
        (w_k : world) :
  heuristic_phase a requested_format ctx v0 w = (Returns (inr vars), w1) ->
  state_after_failures extract analyze llm k requested_format raw_llm_response ctx
                       (expected_structure_of requested_format ctx) vars w1
  = Some (vars_k, w_k) ->
  k < ERROR_CORRECTION_RETRIES ->
  startswith (llm (sent w_k)
                  (correction_prompt requested_format raw_llm_response ctx vars_k))
             "Error:" = true ->
  exists w',
    correct_output extract analyze llm a requested_format raw_llm_response ctx v0 w
    = (Returns (transformed_output vars_k), w')
    /\ length (sent w') = length (sent w) + k + 1
    /\ heap w' = heap w_k.
Proof.
  intros Hh Hk Hlt He.
  unfold correct_output, then_. rewrite Hh.
  replace ERROR_CORRECTION_RETRIES with (k + S (ERROR_CORRECTION_RETRIES - S k)) by lia.
  destruct (@iterate_after_failures _ k (S (ERROR_CORRECTION_RETRIES - S k)) _ _ _ _ Hk)
    as [-> Hl].
  cbn [iterate]. unfold then_. rewrite attempt_unfolded. cbv zeta. rewrite He.
  eexists. split; [reflexivity|]. cbn [sent heap length].
  pose proof (heuristic_phase_sends_nothing a requested_format ctx v0 w) as Hs.
  rewrite Hh in Hs. cbn [snd] in Hs. rewrite Hs in Hl.
  split; [lia | reflexivity].
Qed.

(** X15: as soon as an attempt renders a text that [validate_output]
    accepts, [correct_output] returns that text and calls the model no
    further: after [k] failed attempts it has made [k + 1] calls. *)
Theorem correct_output_returns_first_valid_text (a : address) (v0 : validation)
        (w : world) (vars : loop_vars) (w1 : world) (k : nat) (vars_k : loop_vars)
        (w_k : world) (output : text) (w' : world) :
  heuristic_phase a requested_format ctx v0 w = (Returns (inr vars), w1) ->
  state_after_failures extract analyze llm k requested_format raw_llm_response ctx
                       (expected_structure_of requested_format ctx) vars w1
  = Some (vars_k, w_k) ->
  k < ERROR_CORRECTION_RETRIES ->
  attempt extract analyze llm requested_format raw_llm_response ctx
          (expected_structure_of requested_format ctx) vars_k w_k
  = (Returns (Return_ output), w') ->
  correct_output extract analyze llm a requested_format raw_llm_response ctx v0 w
  = (Returns output, w')
  /\ length (sent w') = length (sent w) + k + 1
  /\ exists v,
       validate_output output requested_format
                       (expected_structure_of requested_format ctx) = Returns v
       /\ is_valid v = true.
Proof.
  intros Hh Hk Hlt Ha.
  pose proof (attempt_sends_one_prompt extract analyze llm requested_format
                raw_llm_response ctx (expected_structure_of requested_format ctx)
                vars_k w_k) as Hs.
  rewrite Ha in Hs. cbn [snd] in Hs.
  destruct (@iterate_after_failures _ k (S (ERROR_CORRECTION_RETRIES - S k)) _ _ _ _ Hk)
    as [Hi Hl].
  split; [|split].
  - unfold correct_output, then_. rewrite Hh.
    replace ERROR_CORRECTION_RETRIES with (k + S (ERROR_CORRECTION_RETRIES - S k)) by lia.
    rewrite Hi. cbn [iterate]. unfold then_. rewrite Ha. reflexivity.
  - pose proof (heuristic_phase_sends_nothing a requested_format ctx v0 w) as Hp.
    rewrite Hh in Hp. cbn [snd] in Hp. rewrite Hp in Hl.
    rewrite Hs. cbn [length]. lia.
  - revert Ha. rewrite attempt_unfolded. cbv zeta.
    repeat match goal with
           | |- context [if ?b then _ else _] => destruct b eqn:?
           | |- context [match ?x with Returns _ => _ | Raises _ => _ end] =>
               destruct x eqn:?
           end; try discriminate.
    intros [= <- _]. eexists. split; eassumption.
Qed.

End EarlyExits.

Lemma correct_output_stops_at_transport_error_witness :
  exists out w',
    correct_output (lib:=ref_lib) (fun _ => []) (fun _ _ => Returns JNull)
      (fun earlier _ => match earlier with
                        | [] => jq "{'a':1}"
                        | _ => lit "Error: connection refused"
                        end)
      0 "json" (jq "{'a':1}")
      (Context (Some (lit "List the items as a JSON array")) None None)
      (VDict (invalid "JSONStructureError"
                      "Expected a JSON array, but got a JSON object."))
      (World [set_json_fields universal_representation
                (Some (JDict [(lit "a", JInt 1)]))] [])
    = (Returns out, w')
    /\ length (sent w') = 2.
Proof.
  edestruct (fun vars w1 vars_k w_k =>
             @correct_output_stops_at_transport_error ref_lib (fun _ => [])
               (fun _ _ => Returns JNull)
               (fun earlier _ => match earlier with
                                 | [] => jq "{'a':1}"
                                 | _ => lit "Error: connection refused"
                                 end)
               "json" (jq "{'a':1}")
               (Context (Some (lit "List the items as a JSON array")) None None)
               0
               (VDict (invalid "JSONStructureError"
                               "Expected a JSON array, but got a JSON object."))
               (World [set_json_fields universal_representation
                         (Some (JDict [(lit "a", JInt 1)]))] [])
               vars w1 1 vars_k w_k)
    as (w' & H & Hl & _).
  - vm_compute. reflexivity.
  - vm_compute. reflexivity.
  - vm_compute. lia.
  - vm_compute. reflexivity.
  - eexists. exists w'. split; [exact H | exact Hl].
Defined.

Lemma correct_output_returns_first_valid_text_witness :
  exists out w',
    correct_output (lib:=ref_lib) (fun _ => []) (fun _ _ => Returns JNull)
      (fun earlier _ => match earlier with
                        | [] => jq "{'a':1}"
                        | _ => lit "[1]"
                        end)
      0 "json" (jq "{'a':1}")
      (Context (Some (lit "List the items as a JSON array")) None None)
      (VDict (invalid "JSONStructureError"
                      "Expected a JSON array, but got a JSON object."))
      (World [set_json_fields universal_representation
                (Some (JDict [(lit "a", JInt 1)]))] [])
    = (Returns out, w')
    /\ length (sent w') = 2.
Proof.
  edestruct (fun vars w1 vars_k w_k =>
             @correct_output_returns_first_valid_text ref_lib (fun _ => [])
               (fun _ _ => Returns JNull)
               (fun earlier _ => match earlier with
                                 | [] => jq "{'a':1}"
                                 | _ => lit "[1]"
                                 end)
               "json" (jq "{'a':1}")
               (Context (Some (lit "List the items as a JSON array")) None None)
               0
               (VDict (invalid "JSONStructureError"
                               "Expected a JSON array, but got a JSON object."))
               (World [set_json_fields universal_representation
                         (Some (JDict [(lit "a", JInt 1)]))] [])
               vars w1 1 vars_k w_k)
    as (H & Hl & _).
  - vm_compute. reflexivity.
  - vm_compute. reflexivity.
  - vm_compute. lia.
  - vm_compute. reflexivity.
  - eexists. eexists. split; [exact H | exact Hl].
Defined.

(** X16: when the heuristic applies and the text it renders parses again,
    [correct_output] returns that text, the dump of the value parsed from
    [text_content], without calling the model: whatever the validation
    report it was given, and whatever structure the prompt asks for. *)
Theorem heuristic_success_skips_the_model {lib : PyLib} (extract : text -> list text)
        (analyze : text -> text -> outcome json) (llm : list text -> text -> text)
        (a : address) (requested_format raw_llm_response : text) (ctx : context)
        (v0 : validation) (w : world) (rep : representation) (v v' : json) :
  nth_error (heap w) a = Some rep ->
  heuristic_candidate rep requested_format = true ->
  json_loads (strip (or_default (text_content rep) empty)) = Parsed v ->
  json_loads (strip (json_dumps v)) = Parsed v' ->
  exists w',
    correct_output extract analyze llm a requested_format raw_llm_response ctx v0 w
    = (Returns (strip (json_dumps v)), w')
    /\ sent w' = sent w.
Proof.
  intros Ha Hc Hp Hv.
  assert (requested_format = lit "json") as ->.
  { unfold heuristic_candidate in Hc. apply andb_prop in Hc as [Hc _].
    apply andb_prop in Hc as [Hc _]. apply andb_prop in Hc as [Hc _].
    now apply text_eqb_eq. }
  unfold correct_output, heuristic_phase. unfold then_ at 1 2.
  rewrite (@heuristic_correction_applies lib w a rep (lit "json") v Ha Hc Hp).
  unfold then_ at 1. unfold deref. cbn [heap].
  rewrite nth_error_app2, Nat.sub_diag by apply Nat.le_refl. cbn [nth_error].
  unfold then_, lift.
  change (get_transformer (lit "json")) with JSONTransformer.
  cbn [transform]. unfold JSONTransformer_transform, heuristically_corrected.
  cbn [json_fields].
  unfold validate_output, format_check.
  change (text_eqb (lit "json") (lit "json")) with true. cbv iota.
  unfold validate_json. rewrite Hv. cbn [nonempty].
  eexists. split; reflexivity.
Qed.

Lemma heuristic_success_skips_the_model_witness :
  exists w',
    correct_output (lib:=ref_lib) (fun _ => []) (fun _ _ => Returns JNull)
      (fun _ _ => lit "[]") 0 "json" (jq " {'x': 1} ")
      (Context (Some (lit "List the items as a JSON array")) None None)
      (VDict (invalid "JSONStructureError"
                      "Expected a JSON array, but got a JSON object."))
      (World [set_text_content universal_representation (Some (jq " {'x': 1} "))] [])
    = (Returns (strip (@json_dumps ref_lib (JDict [(lit "x", JInt 1)]))), w')
    /\ sent w' = [].
Proof.
  apply (@heuristic_success_skips_the_model ref_lib (fun _ => [])
           (fun _ _ => Returns JNull) (fun _ _ => lit "[]") 0 "json" (jq " {'x': 1} ")
           (Context (Some (lit "List the items as a JSON array")) None None)
           (VDict (invalid "JSONStructureError"
                           "Expected a JSON array, but got a JSON object."))
           (World [set_text_content universal_representation (Some (jq " {'x': 1} "))] [])
           (set_text_content universal_representation (Some (jq " {'x': 1} ")))
           (JDict [(lit "x", JInt 1)]) (JDict [(lit "x", JInt 1)])).
  - reflexivity.
  - vm_compute. reflexivity.
  - vm_compute. reflexivity.
  - vm_compute. reflexivity.
Defined.

(* ================================================================== *)
(** * Further properties of the endpoint *)
(* ================================================================== *)

(** What [validate_output] returns is [True] or a report with [valid]
    false. *)
Lemma validate_output_true_or_report {lib : PyLib} (output requested_format : text)
      (expected_structure : option text) (v : validation) :
  validate_output output requested_format expected_structure = Returns v ->
  v = VBool true \/ exists d, v = VDict d /\ valid d = Some false.
Proof.
  unfold validate_output, format_check, validate_json, validate_html, validate_python.
  repeat match goal with
         | |- context [if ?b then _ else _] => destruct b
         | |- context [match json_loads ?x with _ => _ end] => destruct (json_loads x)
         | |- context [match BeautifulSoup ?x with _ => _ end] => destruct (BeautifulSoup x)
         | |- context [match py_compile ?x with _ => _ end] => destruct (py_compile x)
         end;
    intros [= <-]; first [ left; reflexivity | right; eexists; split; reflexivity ].
Qed.

Lemma validate_output_valid_is_true {lib : PyLib} (output requested_format : text)
      (expected_structure : option text) (v : validation) :
  validate_output output requested_format expected_structure = Returns v ->
  is_valid v = true -> v = VBool true.
Proof.
  intros H Hv. destruct (validate_output_true_or_report _ _ _ H) as [->|(d & -> & Hd)];
    [reflexivity|].
  cbn in Hv. rewrite Hd in Hv. discriminate.
Qed.

Section Endpoint.
Context {lib : PyLib}.
Variable extract : text -> list text.
Variable analyze : text -> text -> outcome json.
Variable llm : list text -> text -> text.
Variable render_json : json -> outcome text.
Variable learn : context -> text -> representation -> interaction -> outcome unit.

(** The text [settle] keeps passed the validation it reports, whenever
    that validation is a success. *)
Lemma settle_keeps_validated (a : address) (requested_format raw_llm_response : text)
      (ctx : context) (expected_structure : option text) (out0 : text)
      (v0 : validation) (w w' : world) (s : interaction) :
  validate_output out0 requested_format expected_structure = Returns v0 ->
  settle extract analyze llm a requested_format raw_llm_response ctx expected_structure
         out0 v0 w = (Returns s, w') ->
  is_valid (final_validation s) = true ->
  validate_output (final_output s) requested_format expected_structure
  = Returns (final_validation s).
Proof.
  intros H0. unfold settle.
  destruct v0 as [[|]|d].
  - intros [= <- _] _. exact H0.
  - unfold then_, lift, ret.
    destruct (correct_output extract analyze llm a requested_format raw_llm_response ctx
                             _ w) as [[[|c eco]|e] w1]; try discriminate.
    + intros [= <- _] Hv. discriminate.
    + destruct (validate_output (c :: eco) requested_format expected_structure)
        as [v1|e] eqn:E1; try discriminate.
      destruct (is_valid v1) eqn:Ev; intros [= <- _] Hv; cbn in *; congruence.
  - destruct (get_valid d) eqn:Ed; cbn [negb].
    + intros [= <- _] _. exact H0.
    + unfold then_, lift, ret.
      destruct (correct_output extract analyze llm a requested_format raw_llm_response ctx
                               _ w) as [[[|c eco]|e] w1]; try discriminate.
      * intros [= <- _] Hv. cbn in Hv. unfold get_valid in Ed. congruence.
      * destruct (validate_output (c :: eco) requested_format expected_structure)
          as [[[|]|d1]|e] eqn:E1; try discriminate.
        -- intros [= <- _] _. exact E1.
        -- intros [= <- _] Hv. discriminate.
        -- destruct (get_valid d1) eqn:Ed1; intros [= <- _] Hv.
           ++ exact E1.
           ++ cbn in Hv. unfold get_valid in Ed1. congruence.
Qed.

(** [settle] calls the model through the corrector only. *)
Lemma settle_sends_at_most (a : address) (requested_format raw_llm_response : text)
      (ctx : context) (expected_structure : option text) (out0 : text)
      (v0 : validation) (w : world) :
  length (sent (snd (settle extract analyze llm a requested_format raw_llm_response
                            ctx expected_structure out0 v0 w)))
  <= length (sent w) + ERROR_CORRECTION_RETRIES.
Proof.
  unfold settle.
  destruct v0 as [[|]|d]; [cbn; lia | | destruct (get_valid d); cbn [negb]; [cbn; lia|]].
  all: unfold then_, lift, ret;
    match goal with
    | |- context [correct_output _ _ _ ?a0 ?f ?r ?c0 ?v ?w0] =>
        pose proof (correct_output_sends_at_most extract analyze llm a0 f r c0 v w0) as Hs;
        destruct (correct_output extract analyze llm a0 f r c0 v w0) as [[[|c eco]|e] w1]
    end; cbn [snd] in Hs; try exact Hs;
    destruct (validate_output (c :: eco) requested_format expected_structure)
      as [[[|]|d1]|e]; cbn [is_valid]; try destruct (get_valid d1);
    try destruct (valid d1) as [[|]|]; exact Hs.
Qed.

Lemma iterate_sends_at_least (n : nat) (requested_format raw_llm_response : text)
      (ctx : context) (expected_structure : option text) (vars : loop_vars) (w : world) :
  length (sent w)
  <= length (sent (snd (iterate extract analyze llm n requested_format raw_llm_response
                                ctx expected_structure vars w))).
Proof.
  revert vars w. induction n as [|n IH]; intros vars w; [cbn; lia|].
  cbn [iterate]. unfold then_.
  pose proof (attempt_sends_one_prompt extract analyze llm requested_format
                raw_llm_response ctx expected_structure vars w) as Hs.
  destruct (attempt extract analyze llm requested_format raw_llm_response ctx
                    expected_structure vars w) as [[[| output | vars1]|e] w1];
    cbn [snd] in Hs; try (cbn [snd ret]; rewrite Hs; cbn [length]; lia).
  specialize (IH vars1 w1). rewrite Hs in IH. cbn [length] in IH. lia.
Qed.

Lemma settle_sends_at_least (a : address) (requested_format raw_llm_response : text)
      (ctx : context) (expected_structure : option text) (out0 : text)
      (v0 : validation) (w : world) :
  length (sent w)
  <= length (sent (snd (settle extract analyze llm a requested_format raw_llm_response
                               ctx expected_structure out0 v0 w))).
Proof.
  assert (Hc : forall v, length (sent w)
               <= length (sent (snd (correct_output extract analyze llm a requested_format
                                                    raw_llm_response ctx v w)))).
  { intros v. unfold correct_output, then_.
    pose proof (heuristic_phase_sends_nothing a requested_format ctx v w) as Hs.
    destruct (heuristic_phase a requested_format ctx v w) as [[[output|vars]|e] w1];
      cbn [snd] in Hs.
    - cbn. rewrite Hs. lia.
    - rewrite <- Hs. apply iterate_sends_at_least.
    - cbn. rewrite Hs. lia. }
  unfold settle.
  destruct v0 as [[|]|d]; [cbn; lia | | destruct (get_valid d); cbn [negb]; [cbn; lia|]].
  all: unfold then_, lift, ret;
    match goal with
    | |- context [correct_output _ _ _ ?a0 ?f ?r ?c0 ?v ?w0] =>
        pose proof (Hc v) as Hs;
        destruct (correct_output extract analyze llm a0 f r c0 v w0) as [[[|c eco]|e] w1]
    end; cbn [snd] in Hs; try exact Hs;
    destruct (validate_output (c :: eco) requested_format expected_structure)
      as [[[|]|d1]|e]; cbn [is_valid]; try destruct (get_valid d1);
    try destruct (valid d1) as [[|]|]; exact Hs.
Qed.

(** A response with status 200 answers a validation that succeeded, and
    carries the text it was built from. *)
Lemma respond_ok (v : validation) (requested_format output : text) (r : response) :
  respond render_json v requested_format output = Returns r ->
  status_code_of r = 200%Z ->
  is_valid v = true /\ carries requested_format output r.
Proof.
  assert (Hbest : forall r', best_effort_response render_json requested_format output
                             = Returns r' -> status_code_of r' = 500%Z).
  { unfold best_effort_response, make_JSONResponse. intros r'.
    destruct (text_eqb requested_format "json").
    - destruct (json_loads output) as [content|e|e]; cbn [bind];
        try destruct (render_json content); intros [= <-]; reflexivity.
    - destruct (text_eqb requested_format "html"); intros [= <-]; reflexivity. }
  assert (Hval : forall r', validated_response render_json requested_format output
                            = Returns r' -> status_code_of r' = 200%Z ->
                            carries requested_format output r').
  { unfold validated_response, carries, make_JSONResponse. intros r'.
    destruct (text_eqb requested_format "json").
    - destruct (json_loads output) as [content|e|e]; cbn [bind];
        try destruct (render_json content); try discriminate.
      + intros [= <-] _. exists content. split; reflexivity.
      + intros [= <-]. discriminate.
    - destruct (text_eqb requested_format "html"); [intros [= <-] _; reflexivity|].
      destruct (text_eqb requested_format "python"); intros [= <-] _; reflexivity. }
  unfold respond. destruct v as [[|]|d]; cbn [is_valid].
  - intros H Hs. split; [reflexivity | now apply Hval].
  - intros H Hs. apply Hbest in H. rewrite H in Hs. discriminate.
  - destruct (valid d) as [[|]|]; cbn [getitem bind]; try discriminate.
    + intros H Hs. split; [reflexivity | now apply Hval].
    + intros H Hs. apply Hbest in H. rewrite H in Hs. discriminate.
Qed.

(** X17: a response of [interpret] with status 200 carries a text that
    [validate_output] accepted for the requested format and the structure
    the prompt asks for: the first rendering, or the output of the
    corrector when the endpoint validated it again. *)
Theorem interpret_ok_carries_validated_text (simplified_prompt requested_format : text)
        (ctx : context) (w : world) :
  status_code_of (fst (interpret extract analyze llm render_json learn simplified_prompt
                                 requested_format ctx w)) = 200%Z ->
  exists output,
    validate_output output requested_format
                    (app_expected_structure requested_format ctx) = Returns (VBool true)
    /\ carries requested_format output
               (fst (interpret extract analyze llm render_json learn simplified_prompt
                               requested_format ctx w)).
Proof.
  unfold interpret, then_, lift, ret, send_prompt_to_llm, alloc, deref. cbn [heap sent].
  destruct (startswith (llm (sent w) simplified_prompt) "Error:"); [discriminate|].
  destruct (parse_llm_output extract analyze (llm (sent w) simplified_prompt)
                             requested_format ctx) as [parsed|e]; [|discriminate].
  rewrite nth_error_app2, Nat.sub_diag by apply Nat.le_refl. cbn [nth_error].
  destruct (transform (get_transformer requested_format) parsed ctx) as [out0|e];
    [|discriminate].
  destruct (validate_output out0 requested_format
                            (app_expected_structure requested_format ctx))
    as [v0|e] eqn:E0; [|discriminate].
  match goal with
  | |- context [settle _ _ _ ?a0 ?f ?r ?c0 ?es ?o ?v ?w0] =>
      destruct (settle extract analyze llm a0 f r c0 es o v w0) as [[s|e] w2] eqn:Es
  end; [|discriminate].
  cbn [heap sent] in *.
  destruct (nth_error (heap w2) (length (heap w))) as [rep|]; [|discriminate].
  destruct (learn ctx (llm (sent w) simplified_prompt) rep s); [|discriminate].
  destruct (respond render_json (final_validation s) requested_format (final_output s))
    as [r|e] eqn:Er; [|discriminate].
  cbn [fst]. intros Hs. destruct (respond_ok _ _ _ Er Hs) as [Hv Hc].
  exists (final_output s). split; [|exact Hc].
  pose proof (@settle_keeps_validated _ _ _ _ _ _ _ _ _ _ E0 Es Hv) as Hk.
  rewrite Hk. f_equal. eapply validate_output_valid_is_true; eassumption.
Qed.

(** X18: one request costs at least one call of the model, for the
    answer, and at most [ERROR_CORRECTION_RETRIES] more, for its
    correction. *)
Theorem interpret_calls_the_model_at_most (simplified_prompt requested_format : text)
        (ctx : context) (w : world) :
  length (sent w)
  < length (sent (snd (interpret extract analyze llm render_json learn simplified_prompt
                                 requested_format ctx w)))
  <= length (sent w) + 1 + ERROR_CORRECTION_RETRIES.
Proof.
  unfold interpret, then_, lift, ret, send_prompt_to_llm, alloc, deref. cbn [heap sent].
  destruct (startswith (llm (sent w) simplified_prompt) "Error:"); [cbn; lia|].
  destruct (parse_llm_output extract analyze (llm (sent w) simplified_prompt)
                             requested_format ctx) as [parsed|e]; [|cbn; lia].
  rewrite nth_error_app2, Nat.sub_diag by apply Nat.le_refl. cbn [nth_error].
  destruct (transform (get_transformer requested_format) parsed ctx) as [out0|e];
    [|cbn; lia].
  destruct (validate_output out0 requested_format
                            (app_expected_structure requested_format ctx))
    as [v0|e]; [|cbn; lia].
  match goal with
  | |- context [settle _ _ _ ?a0 ?f ?r ?c0 ?es ?o ?v ?w0] =>
      pose proof (settle_sends_at_most a0 f r c0 es o v w0) as Hu;
      pose proof (settle_sends_at_least a0 f r c0 es o v w0) as Hl;
      destruct (settle extract analyze llm a0 f r c0 es o v w0) as [[s|e] w2]
  end; cbn [heap sent snd length] in *; [|lia].
  destruct (nth_error (heap w2) (length (heap w))) as [rep|]; [|cbn [snd]; lia].
  destruct (learn ctx (llm (sent w) simplified_prompt) rep s); [|cbn [snd]; lia].
  destruct (respond render_json (final_validation s) requested_format (final_output s));
    cbn [snd]; lia.
Qed.

(** X19: when the first rendering passes validation the corrector is not
    run: the model was called once, the representation parsed from its
    answer is the one object created, and the response is built from the
    first rendering. *)
Theorem interpret_serves_valid_first_rendering (simplified_prompt requested_format : text)
        (ctx : context) (w : world) (parsed : representation) (output : text) :
  let raw_llm_response := llm (sent w) simplified_prompt in
  startswith raw_llm_response "Error:" = false ->
  parse_llm_output extract analyze raw_llm_response requested_format ctx
  = Returns parsed ->
  transform (get_transformer requested_format) parsed ctx = Returns output ->
  validate_output output requested_format (app_expected_structure requested_format ctx)
  = Returns (VBool true) ->
  learn ctx raw_llm_response parsed (Interaction output (VBool true) None)
  = Returns tt ->
  interpret extract analyze llm render_json learn simplified_prompt requested_format ctx w
  = (match validated_response render_json requested_format output with
     | Returns r => r
     | Raises e => PlainTextResponse ("Internal Server Error: " ++ exn_msg e) None 500
     end,
     World (heap w ++ [parsed]) (simplified_prompt :: sent w)).
Proof.
  intros raw_llm_response He Hp Ht Hv Hl. subst raw_llm_response.
  unfold interpret, then_, lift, ret, send_prompt_to_llm, alloc, deref. cbn [heap sent].
  rewrite He, Hp. rewrite nth_error_app2, Nat.sub_diag by apply Nat.le_refl.
  cbn [nth_error]. rewrite Ht, Hv. cbn [settle]. unfold ret. cbn [heap sent].
  rewrite nth_error_app2, Nat.sub_diag by apply Nat.le_refl. cbn [nth_error].
  rewrite Hl. cbn [final_validation final_output respond].
  destruct (validated_response render_json requested_format output); reflexivity.
Qed.

(** X20: the status of a response is 200, 500 or 502, and it is 502
    exactly when the model client answered the first prompt with a
    transport error. *)
Theorem interpret_status_codes (simplified_prompt requested_format : text)
        (ctx : context) (w : world) :
  let status := status_code_of (fst (interpret extract analyze llm render_json learn
                                               simplified_prompt requested_format ctx w)) in
  (status = 200 \/ status = 500 \/ status = 502)%Z
  /\ (status = 502%Z <-> startswith (llm (sent w) simplified_prompt) "Error:" = true).
Proof.
  assert (Hr : forall v output r,
             respond render_json v requested_format output = Returns r ->
             (status_code_of r = 200 \/ status_code_of r = 500)%Z).
  { intros v output r. unfold respond, validated_response, best_effort_response,
      make_JSONResponse.
    destruct v as [[|]|d]; try destruct (valid d) as [[|]|]; cbn [getitem bind];
      try discriminate;
      repeat match goal with
             | |- context [if ?b then _ else _] => destruct b
             | |- context [match json_loads ?x with _ => _ end] =>
                 destruct (json_loads x); cbn [bind]
             | |- context [render_json ?x] => destruct (render_json x); cbn [bind]
             end; try discriminate; intros [= <-]; cbn; auto. }
  cbv zeta.
  unfold interpret, then_, lift, ret, send_prompt_to_llm, alloc, deref. cbn [heap sent].
  destruct (startswith (llm (sent w) simplified_prompt) "Error:").
  { cbn. split; [auto | split; reflexivity]. }
  assert (Hn : forall z : Z, (z = 200 \/ z = 500)%Z ->
               (z = 200 \/ z = 500 \/ z = 502)%Z /\ (z = 502%Z <-> false = true)).
  { intros z [->| ->]; (split; [auto | split; discriminate]). }
  destruct (parse_llm_output extract analyze (llm (sent w) simplified_prompt)
                             requested_format ctx) as [parsed|e];
    [|apply Hn; cbn; auto].
  rewrite nth_error_app2, Nat.sub_diag by apply Nat.le_refl. cbn [nth_error].
  destruct (transform (get_transformer requested_format) parsed ctx) as [out0|e];
    [|apply Hn; cbn; auto].
  destruct (validate_output out0 requested_format
                            (app_expected_structure requested_format ctx))
    as [v0|e]; [|apply Hn; cbn; auto].
  match goal with
  | |- context [settle _ _ _ ?a0 ?f ?r ?c0 ?es ?o ?v ?w0] =>
      destruct (settle extract analyze llm a0 f r c0 es o v w0) as [[s|e] w2]
  end; cbn [heap sent] in *; [|apply Hn; cbn; auto].
  destruct (nth_error (heap w2) (length (heap w))) as [rep|]; [|apply Hn; cbn; auto].
  destruct (learn ctx (llm (sent w) simplified_prompt) rep s); [|apply Hn; cbn; auto].
  destruct (respond render_json (final_validation s) requested_format (final_output s))
    as [r|e] eqn:Er; [|apply Hn; cbn; auto].
  apply Hn. cbn [fst]. eapply Hr, Er.
Qed.

(** X21: a markup that [validate_output] rejects is answered with status
    500 and the markup itself, although each report of the markup check
    sets [fallback_ok]. *)
Theorem rejected_markup_is_served_with_500 (output : text)
        (expected_structure : option text) (d : report) :
  validate_output output "html" expected_structure = Returns (VDict d) ->
  fallback_ok d = Some true
  /\ respond render_json (VDict d) "html" output = Returns (HTMLResponse output 500).
Proof.
  unfold validate_output, format_check.
  change (text_eqb (lit "html") (lit "json")) with false.
  change (text_eqb (lit "html") (lit "html")) with true. cbv iota.
  unfold validate_html.
  destruct (BeautifulSoup output) as [soup|e]; [destruct (soup_find soup)|];
    cbn [negb]; intros [= <-]; split; reflexivity.
Qed.

End Endpoint.

Lemma interpret_ok_carries_validated_text_witness :
  exists output,
    validate_output (lib:=ref_lib) output "json"
      (app_expected_structure "json"
         (Context (Some (lit "Describe the item as a JSON object")) None None))
    = Returns (VBool true)
    /\ carries (lib:=ref_lib) "json" output
         (fst (interpret (lib:=ref_lib) (fun _ => []) (fun _ _ => Returns JNull)
                 (fun _ _ => jq "{'a': 1}") (fun v => Returns (RefJson.dumps v))
                 (fun _ _ _ _ => Returns tt)
                 "Describe the item as a JSON object" "json"
                 (Context (Some (lit "Describe the item as a JSON object")) None None)
                 (World [] []))).
Proof.
  apply (@interpret_ok_carries_validated_text ref_lib (fun _ => [])
           (fun _ _ => Returns JNull) (fun _ _ => jq "{'a': 1}")
           (fun v => Returns (RefJson.dumps v)) (fun _ _ _ _ => Returns tt)
           "Describe the item as a JSON object" "json"
           (Context (Some (lit "Describe the item as a JSON object")) None None)
           (World [] [])).
  vm_compute. reflexivity.
Defined.

Lemma interpret_serves_valid_first_rendering_witness :
  exists r,
    interpret (lib:=ref_lib) (fun _ => []) (fun _ _ => Returns JNull)
      (fun _ _ => jq "{'a': 1}") (fun v => Returns (RefJson.dumps v))
      (fun _ _ _ _ => Returns tt)
      "Describe the item as a JSON object" "json"
      (Context (Some (lit "Describe the item as a JSON object")) None None)
      (World [] [])
    = (r, World [Representation None (Some (JDict [(lit "a", JInt 1)])) None None
                                (Some JNull) None]
                [lit "Describe the item as a JSON object"]).
Proof.
  eexists.
  apply (@interpret_serves_valid_first_rendering ref_lib (fun _ => [])
           (fun _ _ => Returns JNull) (fun _ _ => jq "{'a': 1}")
           (fun v => Returns (RefJson.dumps v)) (fun _ _ _ _ => Returns tt)
           "Describe the item as a JSON object" "json"
           (Context (Some (lit "Describe the item as a JSON object")) None None)
           (World [] [])
           (Representation None (Some (JDict [(lit "a", JInt 1)])) None None
                           (Some JNull) None)
           (strip (RefJson.dumps (JDict [(lit "a", JInt 1)])))).
  - vm_compute. reflexivity.
  - vm_compute. reflexivity.
  - vm_compute. reflexivity.
  - vm_compute. reflexivity.
  - reflexivity.
Defined.

Lemma rejected_markup_is_served_with_500_witness :
  respond (lib:=tagless_lib) (fun v => Returns (RefJson.dumps v))
    (VDict (Report (Some false) (Some (lit "HTMLStructureError"))
                   (Some (lit "No recognizable HTML tags found."))
                   None None None None (Some true)))
    "html" "plain words"
  = Returns (HTMLResponse "plain words" 500).
Proof.
  apply (@rejected_markup_is_served_with_500 tagless_lib
           (fun v => Returns (RefJson.dumps v)) "plain words" None).
  reflexivity.
Defined.

(** X22: the structure the endpoint expects when it validates is the one
    the corrector expects in its loop. *)
Theorem endpoint_and_corrector_expect_the_same (requested_format : text) (ctx : context) :
  app_expected_structure requested_format ctx = expected_structure_of requested_format ctx.
Proof.
  unfold app_expected_structure, expected_structure_of.
  destruct (text_eqb requested_format "json"); [|reflexivity].
  destruct (prompt_text ctx) as [[|c p]|]; reflexivity.
Qed.

(* ================================================================== *)
(** * Further properties of parsing and rendering *)
(* ================================================================== *)

Lemma json_transformer_selected (requested_format : text) :
  lower requested_format = lit "json" ->
  get_transformer requested_format = JSONTransformer.
Proof. intros H. unfold get_transformer. rewrite H. reflexivity. Qed.

(** X23: what [parse_llm_output] returns for the format [json] never
    holds a [text_content].  Its [json_fields] holds a value other than
    [null], and the JSON renderer dumps that value; or it is [None], which
    happens only when the cleaned answer as a whole parses to [null], and
    the renderer then dumps the error object of a representation without
    data. *)
Theorem parsed_json_is_rendered_from_json_fields {lib : PyLib}
        (extract : text -> list text) (analyze : text -> text -> outcome json)
        (raw_llm_response requested_format : text) (ctx : context)
        (rep : representation) :
  lower requested_format = lit "json" ->
  parse_llm_output extract analyze raw_llm_response requested_format ctx = Returns rep ->
  text_content rep = None
  /\ json_fields rep <> Some JNull
  /\ (json_fields rep = None ->
      json_loads (_cleanup_common_artifacts raw_llm_response) = Parsed JNull)
  /\ transform (get_transformer requested_format) rep ctx
     = Returns (strip (json_dumps
         match json_fields rep with
         | Some v => v
         | None => JDict [(lit "error", JStr "No data to transform to JSON.")]
         end)).
Proof.
  intros Hl. rewrite (json_transformer_selected _ Hl).
  unfold parse_llm_output. rewrite Hl.
  change (text_eqb (lit "json") (lit "json")) with true. cbv iota.
  set (cleaned := _cleanup_common_artifacts raw_llm_response).
  assert (Hfallback :
            (parsed_output <-
               match json_loads cleaned with
               | Parsed v =>
                   Returns (set_json_fields universal_representation (not_none (Some v)))
               | _ =>
                   Returns (set_json_fields universal_representation
                     (Some (JDict [ (lit "error", JStr "Could not parse JSON");
                                    (lit "raw_text", JStr (slice cleaned 0 500)) ])))
               end ;;
             output_structure <- analyze cleaned requested_format ;;
             Returns (set_output_structure parsed_output (Some output_structure)))
            = Returns rep ->
            text_content rep = None
            /\ json_fields rep <> Some JNull
            /\ (json_fields rep = None -> json_loads cleaned = Parsed JNull)
            /\ transform JSONTransformer rep ctx
               = Returns (strip (json_dumps
                   match json_fields rep with
                   | Some v => v
                   | None => JDict [(lit "error", JStr "No data to transform to JSON.")]
                   end))).
  { destruct (json_loads cleaned) as [v|e|e]; cbn [bind];
      destruct (analyze cleaned requested_format); cbn [bind]; try discriminate;
      intros [= <-]; try destruct v; cbn [not_none];
      (split; [reflexivity|]); (split; [discriminate|]);
      (split; [first [reflexivity | discriminate]|]); reflexivity. }
  unfold _parse_as_json.
  destruct (_extract_and_parse_json cleaned) as [[v|]|e]; cbn [bind];
    [| exact Hfallback | discriminate].
  destruct (not_none (Some v)) as [v'|] eqn:En; [|exact Hfallback].
  assert (Hv : v' <> JNull)
    by (destruct v; cbn [not_none] in En; try discriminate En;
        injection En as <-; discriminate).
  destruct (is_list v'); [|destruct (is_dict v')];
    try (destruct (prompt_text ctx) as [p|]; cbn [getitem bind]; [|discriminate]);
    repeat match goal with
           | |- context [if ?b then _ else _] => destruct b
           end; cbn [bind];
    destruct (analyze cleaned requested_format);
    cbn [bind]; try discriminate; intros [= <-];
    (split; [reflexivity|]); (split; [cbn; congruence|]);
    (split; [discriminate|]); reflexivity.
Qed.

Lemma parsed_json_is_rendered_from_json_fields_witness :
  json_fields (Representation None None None None (Some (JDict [])) None) = None
  /\ transform (lib:=ref_lib) (get_transformer "JSON")
       (Representation None None None None (Some (JDict [])) None)
       (Context (Some (lit "Is there anything to report?")) None None)
     = Returns (strip (RefJson.dumps
                         (JDict [(lit "error", JStr "No data to transform to JSON.")]))).
Proof.
  destruct (@parsed_json_is_rendered_from_json_fields ref_lib (fun _ => [])
              (fun _ _ => Returns (JDict [])) "null" "JSON"
              (Context (Some (lit "Is there anything to report?")) None None)
              (Representation None None None None (Some (JDict [])) None))
    as (_ & _ & _ & Ht).
  - reflexivity.
  - vm_compute. reflexivity.
  - split; [reflexivity | exact Ht].
Defined.

(** [s[:n]] *)
Lemma slice_prefix (s : text) (n : nat) : slice s 0 (Z.of_nat n) = firstn n s.
Proof.
  unfold slice, clamp_index.
  destruct (Z.ltb_spec 0 0) as [?|_]; [lia|].
  destruct (Z.ltb_spec (Z.of_nat n) 0) as [?|_]; [lia|].
  rewrite (Z.min_l 0) by lia. rewrite Z.sub_0_r. cbn [Z.to_nat skipn].
  destruct (Z.min_spec (Z.of_nat n) (Z.of_nat (length s))) as [[_ ->]|[Hle ->]];
    rewrite Nat2Z.id; [reflexivity|].
  rewrite !firstn_all2; [reflexivity | lia | lia].
Qed.

(** X24: an answer that holds no parseable JSON is not reported as an
    error: the parser stores an error object with the first 500 characters
    of the cleaned answer, the renderer dumps it, and, when that dump
    parses back into a dict, [validate_output] accepts it unless an array
    is expected. *)
Theorem unparseable_answer_becomes_valid_json {lib : PyLib}
        (extract : text -> list text) (analyze : text -> text -> outcome json)
        (raw_llm_response : text) (ctx : context) (profile again : json)
        (expected_structure : option text) :
  let cleaned := _cleanup_common_artifacts raw_llm_response in
  let report := JDict [ (lit "error", JStr "Could not parse JSON");
                        (lit "raw_text", JStr (firstn 500 cleaned)) ] in
  _extract_and_parse_json cleaned = Returns None ->
  (forall v, json_loads cleaned <> Parsed v) ->
  analyze cleaned "json" = Returns profile ->
  json_loads (strip (json_dumps report)) = Parsed again ->
  is_dict again = true ->
  expected_structure <> Some (lit "array") ->
  parse_llm_output extract analyze raw_llm_response "json" ctx
  = Returns (Representation None (Some report) None None (Some profile) None)
  /\ transform (get_transformer "json")
               (Representation None (Some report) None None (Some profile) None) ctx
     = Returns (strip (json_dumps report))
  /\ validate_output (strip (json_dumps report)) "json" expected_structure
     = Returns (VBool true).
Proof.
  intros cleaned report He Hn Ha Hr Hd Hs.
  pose proof (slice_prefix cleaned 500) as Hslice.
  change (Z.of_nat 500) with 500%Z in Hslice.
  split; [|split].
  - unfold parse_llm_output.
    change (text_eqb (lower (lit "json")) (lit "json")) with true. cbv iota.
    fold cleaned. unfold _parse_as_json. rewrite He. cbn [bind not_none].
    destruct (json_loads cleaned) as [v|e|e] eqn:El; [now destruct (Hn v)| |];
      rewrite Hslice; cbn [bind]; rewrite Ha; reflexivity.
  - change (get_transformer (lit "json")) with JSONTransformer. reflexivity.
  - unfold validate_output, format_check.
    change (text_eqb (lit "json") (lit "json")) with true. cbv iota.
    unfold validate_json. rewrite Hr.
    destruct expected_structure as [[|c s]|]; cbn [nonempty]; try reflexivity.
    destruct (is_str (Some (c :: s)) "array") eqn:Ea.
    + cbn [is_str] in Ea. apply text_eqb_eq in Ea. congruence.
    + cbn [andb]. rewrite Hd. cbn [negb]. rewrite andb_false_r. reflexivity.
Qed.

Lemma unparseable_answer_becomes_valid_json_witness :
  validate_output (lib:=ref_lib)
    (strip (RefJson.dumps
              (JDict [ (lit "error", JStr "Could not parse JSON");
                       (lit "raw_text", JStr "I would rather not answer.") ])))
    "json" None
  = Returns (VBool true).
Proof.
  refine (proj2 (proj2 (@unparseable_answer_becomes_valid_json ref_lib (fun _ => [])
            (fun _ _ => Returns JNull) "I would rather not answer."
            (Context (Some (lit "Describe the item")) None None) JNull
            (JDict [ (lit "error", JStr "Could not parse JSON");
                     (lit "raw_text", JStr "I would rather not answer.") ])
            None _ _ _ _ _ _))).
  - vm_compute. reflexivity.
  - intros v. vm_compute. discriminate.
  - reflexivity.
  - vm_compute. reflexivity.
  - reflexivity.
  - discriminate.
Defined.

(** ** Python answers, the registry, the agent analysis *)

(** X25: for the format [python], parsing an answer and rendering the
    result returns the extracted snippets alone when the intent is
    [code_only], the empty string when there is none; the snippets followed
    by the whole cleaned answer when it is [code_with_explanation]; and
    raises for every other intent, [KeyError] when the context holds none. *)
Theorem python_answer_is_rendered_by_intent {lib : PyLib} (extract : text -> list text)
        (analyze : text -> text -> outcome json) (response requested_format : text)
        (ctx : context) (profile : json) :
  lower requested_format = lit "python" ->
  analyze (_cleanup_common_artifacts response) requested_format = Returns profile ->
  let cleaned := _cleanup_common_artifacts response in
  (rep <- parse_llm_output extract analyze response requested_format ctx ;;
   transform (get_transformer requested_format) rep ctx)
  = match output_intent ctx with
    | None => Raises (KeyError "output_intent")
    | Some intent =>
        if text_eqb intent "code_only"
        then Returns (strip (join [nl] (extract cleaned)))
        else if text_eqb intent "code_with_explanation"
        then Returns (strip (join [nl] (extract cleaned) ++ nl :: cleaned))
        else Raises (TypeError "can only join an iterable")
    end.
Proof.
  intros Hl Ha cleaned. subst cleaned.
  assert (Ht : get_transformer requested_format = PythonTransformer).
  { unfold get_transformer. rewrite Hl. reflexivity. }
  rewrite Ht. unfold parse_llm_output. rewrite Hl.
  change (text_eqb (lit "python") (lit "json")) with false.
  change (text_eqb (lit "python") (lit "html")) with false.
  change (text_eqb (lit "python") (lit "python")) with true. cbv iota.
  unfold _parse_as_python.
  destruct (output_intent ctx) as [intent|] eqn:Ei; cbn [getitem bind]; [|reflexivity].
  assert (Hco : code_only ctx = text_eqb intent "code_only").
  { unfold code_only. rewrite Ei. reflexivity. }
  cbn [transform]. unfold PythonTransformer_transform. rewrite Hco.
  destruct (text_eqb intent "code_only") eqn:Ec.
  - destruct (extract (_cleanup_common_artifacts response)) as [|snippet more];
      cbn [bind]; rewrite Ha; reflexivity.
  - destruct (text_eqb intent "code_with_explanation") eqn:Ee;
      cbn [bind]; rewrite Ha; reflexivity.
Qed.

Lemma python_answer_is_rendered_by_intent_witness :
  (rep <- parse_llm_output (lib:=ref_lib) (fun _ => []) (fun _ _ => Returns JNull)
            "There is no code to show." "Python" (Context None (Some (lit "code_only")) None) ;;
   transform (lib:=ref_lib) (get_transformer "Python") rep
             (Context None (Some (lit "code_only")) None))
  = Returns empty.
Proof.
  apply (@python_answer_is_rendered_by_intent ref_lib (fun _ => [])
           (fun _ _ => Returns JNull) "There is no code to show." "Python"
           (Context None (Some (lit "code_only")) None) JNull).
  - reflexivity.
  - reflexivity.
Defined.

(** X26: the transformer [get_transformer] selects can handle the
    requested format exactly when the format, in lower case, is a key of
    [TRANSFORMER_MAP]: every registered transformer handles the name it is
    registered under, and the fallback, which is [PlainTextTransformer] and
    never [DefaultTransformer], does not handle what it is selected for. *)
Theorem selected_transformer_handles_registered_formats (requested_format : text) :
  (can_handle (get_transformer requested_format) requested_format = true
   <-> exists t, dict_get TRANSFORMER_MAP (lower requested_format) = Some t)
  /\ get_transformer requested_format <> DefaultTransformer
  /\ (dict_get TRANSFORMER_MAP (lower requested_format) = None ->
      get_transformer requested_format = PlainTextTransformer).
Proof.
  unfold get_transformer.
  destruct (dict_get TRANSFORMER_MAP (lower requested_format)) as [t|] eqn:E.
  - assert (H : can_handle t requested_format = true /\ t <> DefaultTransformer).
    { revert E. unfold can_handle.
      generalize (lower requested_format) as name. intros name.
      cbv [TRANSFORMER_MAP]. cbn [dict_get].
      repeat match goal with
             | |- context [text_eqb ?a ?b] =>
                 let H := fresh "H" in
                 destruct (text_eqb a b) eqn:H;
                 [apply text_eqb_eq in H; subst; intros [= <-];
                  split; [vm_compute; reflexivity | discriminate]|]
             end.
      discriminate. }
    destruct H as [Hc Hd].
    split; [split; [intros _; now exists t | intros _; exact Hc]|].
    split; [exact Hd | discriminate].
  - split; [split; [|intros [t [=]]]|split; [discriminate | reflexivity]].
    unfold can_handle. cbn [family_class].
    intros H. apply text_eqb_eq in H. rewrite H in E. vm_compute in E. discriminate.
Qed.

(** X27: the analysis of agent prompts deduces one of three formats or
    none, never [html]; an intent, [code_only], is deduced together with
    the format [python] and only then; and [python] and [plaintext] are
    deduced only from a prompt that holds an agent keyword. *)
Theorem agent_analysis_deduces_three_formats (prompt_text : text) :
  let deduced := _analyze_for_agent_prompt prompt_text in
  (deduced = (Some (lit "python"), Some (lit "code_only"))
   \/ deduced = (Some (lit "json"), None)
   \/ deduced = (Some (lit "plaintext"), None)
   \/ deduced = (None, None))
  /\ (any_in agent_keywords (lower prompt_text) = false ->
      deduced = (Some (lit "json"), None) \/ deduced = (None, None)).
Proof.
  cbv zeta. unfold _analyze_for_agent_prompt.
  destruct (any_in agent_keywords (lower prompt_text));
    repeat match goal with
           | |- context [if any_in ?k ?s then _ else _] => destruct (any_in k s)
           end; cbn [fst nonempty negb];
    repeat match goal with
           | |- context [if any_in ?k ?s then _ else _] => destruct (any_in k s)
           end;
    (split; [|intros H; try discriminate H]); auto.
Qed.

(** ** The objects of the corrector *)

Lemma heuristic_correction_creates_at_most_one {lib : PyLib} (a : address)
      (requested_format : text) (w : world) :
  exists added,
    heap (snd (_heuristic_correction a requested_format w)) = heap w ++ added
    /\ length added <= 1.
Proof.
  unfold _heuristic_correction, copy, then_, deref, alloc, modify, ret, raise.
  repeat match goal with
         | |- context [if ?b then _ else _] => destruct b
         | |- context [match nth_error ?l ?n with _ => _ end] => destruct (nth_error l n)
         | |- context [match json_loads ?t with _ => _ end] => destruct (json_loads t)
         end; cbn [snd heap sent];
    try (exists []; rewrite app_nil_r; split; [reflexivity | cbn; lia]).
  rewrite !update_nth_last. eexists [_]. split; [reflexivity | cbn; lia].
Qed.

Lemma heuristic_phase_creates_at_most_one {lib : PyLib} (a : address)
      (requested_format : text) (ctx : context) (v : validation) (w : world) :
  exists added,
    heap (snd (heuristic_phase a requested_format ctx v w)) = heap w ++ added
    /\ length added <= 1.
Proof.
  unfold heuristic_phase. unfold then_ at 1.
  pose proof (heuristic_correction_creates_at_most_one a requested_format w) as Hs.
  destruct (_heuristic_correction a requested_format w) as [[[corrected|]|e] w1];
    cbn [snd] in Hs; try exact Hs.
  unfold then_, deref, lift, ret, getitem.
  repeat match goal with
         | |- context [match nth_error ?l ?n with _ => _ end] => destruct (nth_error l n)
         | |- context [match transform ?t ?r ?c with _ => _ end] => destruct (transform t r c)
         | |- context [match validate_output ?o ?f ?e with _ => _ end] =>
             destruct (validate_output o f e) as [[[|]|[[[|]|] ? ? ? ? ? ? ?]]|]
         end; exact Hs.
Qed.

Section Objects.
Context {lib : PyLib}.
Variable extract : text -> list text.
Variable analyze : text -> text -> outcome json.
Variable llm : list text -> text -> text.
Variables requested_format raw_llm_response : text.
Variable ctx : context.

Lemma attempt_creates_at_most_one (expected_structure : option text)
      (vars : loop_vars) (w : world) :
  exists added,
    heap (snd (attempt extract analyze llm requested_format raw_llm_response ctx
                       expected_structure vars w)) = heap w ++ added
    /\ length added <= 1.
Proof.
  rewrite attempt_unfolded. cbv zeta.
  repeat match goal with
         | |- context [if ?b then _ else _] => destruct b
         | |- context [match ?x with Returns _ => _ | Raises _ => _ end] => destruct x
         end; cbn [snd heap];
    first [ exists []; rewrite app_nil_r; split; [reflexivity | cbn; lia]
          | eexists [_]; split; [reflexivity | cbn; lia] ].
Qed.

Lemma iterate_creates_at_most (n : nat) (expected_structure : option text)
      (vars : loop_vars) (w : world) :
  exists added,
    heap (snd (iterate extract analyze llm n requested_format raw_llm_response ctx
                       expected_structure vars w)) = heap w ++ added
    /\ length added <= n.
Proof.
  revert vars w. induction n as [|n IH]; intros vars w.
  - exists []. rewrite app_nil_r. split; [reflexivity | cbn; lia].
  - cbn [iterate]. unfold then_.
    destruct (attempt_creates_at_most_one expected_structure vars w) as (one & H1 & L1).
    destruct (attempt extract analyze llm requested_format raw_llm_response ctx
                      expected_structure vars w) as [[[| output | vars1]|e] w1];
      cbn [snd] in H1; try (exists one; cbn [snd ret]; split; [exact H1 | lia]).
    destruct (IH vars1 w1) as (more & Hm & Lm).
    exists (one ++ more). rewrite Hm, H1, <- app_assoc. split; [reflexivity|].
    rewrite length_app. lia.
Qed.

(** X28: [correct_output] changes no object that existed when it was
    called, the representation it was given among them: it only creates
    objects, at most one in the heuristic phase and one per attempt. *)
Theorem correct_output_only_creates_objects (a : address) (v0 : validation) (w : world) :
  let w' := snd (correct_output extract analyze llm a requested_format raw_llm_response
                                ctx v0 w) in
  (exists added,
     heap w' = heap w ++ added /\ length added <= 1 + ERROR_CORRECTION_RETRIES)
  /\ forall b rep, nth_error (heap w) b = Some rep -> nth_error (heap w') b = Some rep.
Proof.
  cbv zeta.
  assert (H : exists added,
             heap (snd (correct_output extract analyze llm a requested_format
                                       raw_llm_response ctx v0 w)) = heap w ++ added
             /\ length added <= 1 + ERROR_CORRECTION_RETRIES).
  { unfold correct_output, then_.
    destruct (heuristic_phase_creates_at_most_one a requested_format ctx v0 w)
      as (one & H1 & L1).
    destruct (heuristic_phase a requested_format ctx v0 w) as [[[output|vars]|e] w1];
      cbn [snd] in H1; try (exists one; cbn [snd ret]; split; [exact H1 | lia]).
    destruct (iterate_creates_at_most ERROR_CORRECTION_RETRIES
                (expected_structure_of requested_format ctx) vars w1) as (more & Hm & Lm).
    exists (one ++ more). rewrite Hm, H1, <- app_assoc. split; [reflexivity|].
    rewrite length_app. lia. }
  split; [exact H|].
  destruct H as (added & -> & _). intros b rep Hb.
  rewrite nth_error_app1; [exact Hb|]. apply nth_error_Some. congruence.
Qed.

End Objects.
